(** * gracewrap: graceful shutdown coordination for HTTP and gRPC servers

    A shallow embedding of the Go package [gracewrap] (config.go,
    graceful.go, middleware.go, shutdown.go, metrics.go) and the
    properties of its shutdown coordinator.

    Conventions.
    - [time.Duration] and [int64] values are integers of [Z]; where the
      source does arithmetic on them that can leave the 64-bit range the
      wrap-around is written out with [wrap64].
    - Instants of [time.Time] are nanoseconds on the monotonic clock.
    - Goroutines are entries of a thread pool; a transition of the pool is
      one critical section (or one call into a collaborator) of one
      goroutine, so that every interleaving of the goroutines is a list of
      scheduler events. The mutex [inflight.mu] is held only inside such a
      transition and is therefore not part of the state.
    - [sync.Cond]: [Wait] puts the caller on the notify list while it still
      holds the mutex and returns only after a [Broadcast]; there is no
      spurious wake-up and no timed wait in Go.
    - [sync.Once]: the first caller of [Do] runs the function, callers that
      arrive meanwhile block, later callers return at once.
    - What the collaborators do is left to the scheduler: when time passes,
      whether an address can be bound, whether and when a server answers a
      stop call gracefully. Every answer they could give is an event. *)

From Stdlib Require Import ZArith Lia Bool List String Ascii.
From stdpp Require Import base option list strings gmap.

Local Open Scope Z_scope.

(** ** Machine integers and durations *)

Definition min_int64 : Z := - 2 ^ 63.
Definition max_int64 : Z := 2 ^ 63 - 1.

(** Two's complement reduction of an integer to the [int64] range. *)
Definition wrap64 (z : Z) : Z := (z + 2 ^ 63) mod 2 ^ 64 - 2 ^ 63.

Definition in_int64 (z : Z) : bool := (min_int64 <=? z) && (z <=? max_int64).

(** [time.Second], in nanoseconds. *)
Definition Second : Z := 1000000000.

(** ** Collaborators from the Go standard library used by config.go *)

Module strconv.

Definition digit_of (c : ascii) : option Z :=
  let n := Z.of_nat (nat_of_ascii c) in
  if (48 <=? n) && (n <=? 57) then Some (n - 48) else None.

Fixpoint parse_digits (acc : Z) (s : string) : option Z :=
  match s with
  | EmptyString => Some acc
  | String c rest =>
      match digit_of c with
      | Some d => parse_digits (acc * 10 + d) rest
      | None => None
      end
  end.

(** [strconv.Atoi] on a 64-bit platform: an optional sign followed by
    one or more decimal digits, the value inside the [int] range.
    [None] stands for a non-nil error (syntax or range). *)
Definition Atoi (s : string) : option Z :=
  match s with
  | EmptyString => None
  | String c rest =>
      let neg := Ascii.eqb c "-" in
      let body := if neg || Ascii.eqb c "+" then rest else s in
      match body with
      | EmptyString => None
      | String _ _ =>
          match parse_digits 0 body with
          | None => None
          | Some n =>
              let v := if neg then - n else n in
              if in_int64 v then Some v else None
          end
      end
  end.

(** [strconv.ParseBool]: exactly the twelve spellings below. *)
Definition ParseBool (s : string) : option bool :=
  if (String.eqb s "1" || String.eqb s "t" || String.eqb s "T"
      || String.eqb s "TRUE" || String.eqb s "true" || String.eqb s "True")%bool
  then Some true
  else if (String.eqb s "0" || String.eqb s "f" || String.eqb s "F"
      || String.eqb s "FALSE" || String.eqb s "false" || String.eqb s "False")%bool
  then Some false
  else None.

End strconv.

(** The process environment; [os.Getenv] yields the empty string for a
    variable that is not set. *)
Definition Getenv (env : gmap string string) (key : string) : string :=
  default EmptyString (env !! key).

(** ** config.go *)

Record Config := mkConfig {
  DrainTimeout : Z;
  HardStopTimeout : Z;
  LoadBalancerDelay : Z;
  Logger : option nat;
  PrometheusRegistry : option nat;
  PrometheusGatherer : option nat;
  EnableMetrics : bool
}.

Definition DefaultConfig : Config :=
  {| DrainTimeout := 25 * Second;
     HardStopTimeout := 5 * Second;
     LoadBalancerDelay := 1 * Second;
     Logger := None;
     PrometheusRegistry := None;
     PrometheusGatherer := None;
     EnableMetrics := false |}.

Definition set_DrainTimeout (d : Z) (c : Config) : Config :=
  mkConfig d (HardStopTimeout c) (LoadBalancerDelay c) (Logger c)
           (PrometheusRegistry c) (PrometheusGatherer c) (EnableMetrics c).
Definition set_HardStopTimeout (d : Z) (c : Config) : Config :=
  mkConfig (DrainTimeout c) d (LoadBalancerDelay c) (Logger c)
           (PrometheusRegistry c) (PrometheusGatherer c) (EnableMetrics c).
Definition set_LoadBalancerDelay (d : Z) (c : Config) : Config :=
  mkConfig (DrainTimeout c) (HardStopTimeout c) d (Logger c)
           (PrometheusRegistry c) (PrometheusGatherer c) (EnableMetrics c).
Definition set_EnableMetrics (b : bool) (c : Config) : Config :=
  mkConfig (DrainTimeout c) (HardStopTimeout c) (LoadBalancerDelay c) (Logger c)
           (PrometheusRegistry c) (PrometheusGatherer c) b.

(** [time.Duration(seconds) * time.Second], an [int64] product. *)
Definition seconds_to_Duration (seconds : Z) : Z := wrap64 (seconds * Second).

Definition ConfigFromEnv (env : gmap string string) : Config :=
  let cfg := DefaultConfig in
  (* Parse DRAIN_TIMEOUT_SECONDS *)
  let cfg :=
    let val := Getenv env "DRAIN_TIMEOUT_SECONDS" in
    if negb (String.eqb val "") then
      match strconv.Atoi val with
      | Some seconds =>
          if 0 <? seconds then set_DrainTimeout (seconds_to_Duration seconds) cfg
          else cfg
      | None => cfg
      end
    else cfg in
  (* Parse HARD_STOP_TIMEOUT_SECONDS *)
  let cfg :=
    let val := Getenv env "HARD_STOP_TIMEOUT_SECONDS" in
    if negb (String.eqb val "") then
      match strconv.Atoi val with
      | Some seconds =>
          if 0 <? seconds then set_HardStopTimeout (seconds_to_Duration seconds) cfg
          else cfg
      | None => cfg
      end
    else cfg in
  (* Parse LOAD_BALANCER_DELAY_SECONDS *)
  let cfg :=
    let val := Getenv env "LOAD_BALANCER_DELAY_SECONDS" in
    if negb (String.eqb val "") then
      match strconv.Atoi val with
      | Some seconds =>
          if 0 <=? seconds then set_LoadBalancerDelay (seconds_to_Duration seconds) cfg
          else cfg
      | None => cfg
      end
    else cfg in
  (* Parse ENABLE_METRICS *)
  let cfg :=
    let val := Getenv env "ENABLE_METRICS" in
    if negb (String.eqb val "") then
      match strconv.ParseBool val with
      | Some enable => set_EnableMetrics enable cfg
      | None => cfg
      end
    else cfg in
  cfg.

(** ** metrics.go *)

(** The values held by the six collectors. Counters count calls of [Inc];
    the histogram keeps its observations, latest first, as durations in
    nanoseconds (the source hands [duration.Seconds()] to it). *)
Record metrics := mkMetrics {
  inflightRequests : Z;
  httpRequestsTotal : nat;
  grpcRequestsTotal : nat;
  shutdownDuration : list Z;
  readinessStatus : Z;
  shutdownsTotal : nat;
  registerer : option nat
}.

(** A nil registry stands for the private registry [newMetrics] creates;
    registration and the choice of the gatherer are left to Prometheus. *)
Definition newMetrics (registry : option nat) : metrics :=
  {| inflightRequests := 0;
     httpRequestsTotal := 0;
     grpcRequestsTotal := 0;
     shutdownDuration := [];
     readinessStatus := 0;
     shutdownsTotal := 0;
     registerer := registry |}.

Definition updateInflight (count : Z) (m : metrics) : metrics :=
  mkMetrics count (httpRequestsTotal m) (grpcRequestsTotal m) (shutdownDuration m)
            (readinessStatus m) (shutdownsTotal m) (registerer m).

Definition incHTTP (m : metrics) : metrics :=
  mkMetrics (inflightRequests m) (S (httpRequestsTotal m)) (grpcRequestsTotal m)
            (shutdownDuration m) (readinessStatus m) (shutdownsTotal m) (registerer m).

Definition incGRPC (m : metrics) : metrics :=
  mkMetrics (inflightRequests m) (httpRequestsTotal m) (S (grpcRequestsTotal m))
            (shutdownDuration m) (readinessStatus m) (shutdownsTotal m) (registerer m).

Definition updateReadiness (ready : bool) (m : metrics) : metrics :=
  mkMetrics (inflightRequests m) (httpRequestsTotal m) (grpcRequestsTotal m)
            (shutdownDuration m) (if ready then 1 else 0) (shutdownsTotal m)
            (registerer m).

Definition incShutdowns (m : metrics) : metrics :=
  mkMetrics (inflightRequests m) (httpRequestsTotal m) (grpcRequestsTotal m)
            (shutdownDuration m) (readinessStatus m) (S (shutdownsTotal m))
            (registerer m).

Definition observeShutdownDuration (duration : Z) (m : metrics) : metrics :=
  mkMetrics (inflightRequests m) (httpRequestsTotal m) (grpcRequestsTotal m)
            (duration :: shutdownDuration m) (readinessStatus m) (shutdownsTotal m)
            (registerer m).

(** ** graceful.go: the coordinator object *)

Inductive Sig := SIGTERM | SIGINT.

(** The lines the library writes through [g.logger.Printf]. *)
Inductive LogMsg :=
| LogHTTPStarting (addr : string)
| LogHTTPServerError
| LogGRPCAlreadyCreated
| LogGRPCStarting (addr : string)
| LogGRPCServerError
| LogContextCanceled
| LogReceivedSignal (sig : Sig)
| LogNotReady
| LogLoadBalancerWait (d : Z)
| LogHTTPShutdownError
| LogHTTPShutdownCompleted
| LogGRPCGracefulCompleted
| LogGRPCForcingStop
| LogNotDrained
| LogFinalCleanupWait (d : Z)
| LogShutdownCompleted.

Definition LogMsg_eqb (a b : LogMsg) : bool :=
  match a, b with
  | LogHTTPStarting x, LogHTTPStarting y => String.eqb x y
  | LogHTTPServerError, LogHTTPServerError => true
  | LogGRPCAlreadyCreated, LogGRPCAlreadyCreated => true
  | LogGRPCStarting x, LogGRPCStarting y => String.eqb x y
  | LogGRPCServerError, LogGRPCServerError => true
  | LogContextCanceled, LogContextCanceled => true
  | LogReceivedSignal SIGTERM, LogReceivedSignal SIGTERM => true
  | LogReceivedSignal SIGINT, LogReceivedSignal SIGINT => true
  | LogNotReady, LogNotReady => true
  | LogLoadBalancerWait x, LogLoadBalancerWait y => x =? y
  | LogHTTPShutdownError, LogHTTPShutdownError => true
  | LogHTTPShutdownCompleted, LogHTTPShutdownCompleted => true
  | LogGRPCGracefulCompleted, LogGRPCGracefulCompleted => true
  | LogGRPCForcingStop, LogGRPCForcingStop => true
  | LogNotDrained, LogNotDrained => true
  | LogFinalCleanupWait x, LogFinalCleanupWait y => x =? y
  | LogShutdownCompleted, LogShutdownCompleted => true
  | _, _ => false
  end.

(** How often a line was written. *)
Fixpoint logged (m : LogMsg) (lines : list LogMsg) : nat :=
  match lines with
  | [] => O
  | x :: rest => if LogMsg_eqb m x then S (logged m rest) else logged m rest
  end.

(** [sync.Once]: [OnceNew] before the first [Do]; [OnceRunning] while the
    first caller runs the function and holds the mutex of the [Once];
    [OnceDone] once the function has returned and the done flag is set. *)
Inductive Once := OnceNew | OnceRunning | OnceDone.

Record Listener := mkListener { l_addr : string }.

Record Graceful := mkGraceful {
  config : Config;
  logger : list LogMsg;        (* lines written, latest first *)
  ready : bool;
  started : Z;
  inflight_n : Z;              (* inflight.n, an int64 guarded by inflight.mu *)
  inflight_cv : list nat;      (* goroutines parked in inflight.cv.Wait() *)
  httpServers : list nat;      (* []*http.Server *)
  grpcServers : list nat;      (* []*grpc.Server *)
  listeners : list Listener;
  stopOnce : Once;
  gmetrics : option metrics    (* the field metrics; nil when disabled *)
}.

Definition Printf (m : LogMsg) (g : Graceful) : Graceful :=
  mkGraceful (config g) (m :: logger g) (ready g) (started g) (inflight_n g)
             (inflight_cv g) (httpServers g) (grpcServers g) (listeners g)
             (stopOnce g) (gmetrics g).
Definition set_ready (b : bool) (g : Graceful) : Graceful :=
  mkGraceful (config g) (logger g) b (started g) (inflight_n g)
             (inflight_cv g) (httpServers g) (grpcServers g) (listeners g)
             (stopOnce g) (gmetrics g).
Definition set_inflight_n (n : Z) (g : Graceful) : Graceful :=
  mkGraceful (config g) (logger g) (ready g) (started g) n
             (inflight_cv g) (httpServers g) (grpcServers g) (listeners g)
             (stopOnce g) (gmetrics g).
Definition set_inflight_cv (cv : list nat) (g : Graceful) : Graceful :=
  mkGraceful (config g) (logger g) (ready g) (started g) (inflight_n g)
             cv (httpServers g) (grpcServers g) (listeners g)
             (stopOnce g) (gmetrics g).
Definition set_httpServers (l : list nat) (g : Graceful) : Graceful :=
  mkGraceful (config g) (logger g) (ready g) (started g) (inflight_n g)
             (inflight_cv g) l (grpcServers g) (listeners g)
             (stopOnce g) (gmetrics g).
Definition set_grpcServers (l : list nat) (g : Graceful) : Graceful :=
  mkGraceful (config g) (logger g) (ready g) (started g) (inflight_n g)
             (inflight_cv g) (httpServers g) l (listeners g)
             (stopOnce g) (gmetrics g).
Definition set_listeners (l : list Listener) (g : Graceful) : Graceful :=
  mkGraceful (config g) (logger g) (ready g) (started g) (inflight_n g)
             (inflight_cv g) (httpServers g) (grpcServers g) l
             (stopOnce g) (gmetrics g).
Definition set_stopOnce (o : Once) (g : Graceful) : Graceful :=
  mkGraceful (config g) (logger g) (ready g) (started g) (inflight_n g)
             (inflight_cv g) (httpServers g) (grpcServers g) (listeners g)
             o (gmetrics g).
Definition set_gmetrics (m : option metrics) (g : Graceful) : Graceful :=
  mkGraceful (config g) (logger g) (ready g) (started g) (inflight_n g)
             (inflight_cv g) (httpServers g) (grpcServers g) (listeners g)
             (stopOnce g) m.

(** [if g.metrics != nil { g.metrics.f(...) }] *)
Definition with_metrics (f : metrics -> metrics) (g : Graceful) : Graceful :=
  match gmetrics g with
  | Some m => set_gmetrics (Some (f m)) g
  | None => g
  end.

Definition New (cfg : option Config) (now : Z) : Graceful :=
  let cfg := match cfg with None => DefaultConfig | Some c => c end in
  {| config := cfg;
     logger := [];
     ready := true;
     started := now;
     inflight_n := 0;
     inflight_cv := [];
     httpServers := [];
     grpcServers := [];
     listeners := [];
     stopOnce := OnceNew;
     gmetrics := if EnableMetrics cfg
                 then Some (newMetrics (PrometheusRegistry cfg)) else None |}.

Definition Ready (g : Graceful) : bool := ready g.

(** Status code and body written by the health and liveness handlers;
    [http.Error] ends the body with a newline, as the literals of the
    source do. *)
Definition newline : string := String "010"%char EmptyString.

Definition HealthHandler (g : Graceful) : Z * string :=
  if Ready g then (200, String.append "ready" newline)
  else (503, String.append "draining" newline).

Definition LivenessHandler (g : Graceful) : Z * string :=
  (200, String.append "alive" newline).

(** Status code of the metrics handler. *)
Definition MetricsHandler (g : Graceful) : Z :=
  if negb (EnableMetrics (config g)) || negb (bool_decide (is_Some (gmetrics g)))
  then 404 else 200.

Definition setReady (b : bool) (g : Graceful) : Graceful :=
  with_metrics (updateReadiness b) (set_ready b g).

(** ** middleware.go: the in-flight counter *)

(** [g.inflight.cv.Broadcast()]: every parked goroutine leaves the notify
    list and becomes runnable. *)
Definition cv_Broadcast (g : Graceful) : Graceful := set_inflight_cv [] g.

(** The critical section of [incInflight]: Lock; n++; Unlock. *)
Definition incInflight_locked (g : Graceful) : Graceful :=
  set_inflight_n (wrap64 (inflight_n g + 1)) g.

(** The tail of [incInflight] and [decInflight], after Unlock:
    [g.metrics.updateInflight(g.inflight.n)]. *)
Definition publishInflight (g : Graceful) : Graceful :=
  with_metrics (updateInflight (inflight_n g)) g.

Definition incInflight (g : Graceful) : Graceful :=
  publishInflight (incInflight_locked g).

(** The critical section of [decInflight]: Lock; n--; broadcast when the
    count is zero; Unlock. *)
Definition decInflight_locked (g : Graceful) : Graceful :=
  let g := set_inflight_n (wrap64 (inflight_n g - 1)) g in
  let g := if inflight_n g =? 0 then cv_Broadcast g else g in
  g.

Definition decInflight (g : Graceful) : Graceful :=
  publishInflight (decInflight_locked g).

(** A run of Begin/End calls in the order in which they take the mutex. *)
Inductive Op := Begin | End_.

Definition apply_op (g : Graceful) (o : Op) : Graceful :=
  match o with
  | Begin => incInflight g
  | End_ => decInflight g
  end.

Definition run_ops (g : Graceful) (ops : list Op) : Graceful :=
  fold_left apply_op ops g.

Fixpoint count_Begin (ops : list Op) : nat :=
  match ops with
  | [] => O
  | Begin :: rest => S (count_Begin rest)
  | End_ :: rest => count_Begin rest
  end.

Fixpoint count_End (ops : list Op) : nat :=
  match ops with
  | [] => O
  | Begin :: rest => count_End rest
  | End_ :: rest => S (count_End rest)
  end.

(** ** shutdown.go: waitForInflight *)

(** Where a goroutine stands in [waitForInflight]: before Lock; parked in
    [cv.Wait()] with the timer it created (its expiry instant); returned. *)
Inductive WaitPC :=
| WEnter
| WParked (timer : Z)
| WReturned (ok : bool).

(** One pass from the loop test to [cv.Wait()] or to a return, under the
    mutex. The timer is created and nothing ever receives from it. *)
Definition waitForInflight_loop (g : Graceful) (now : Z) (self : nat)
    (deadline : Z) : Graceful * WaitPC :=
  if 0 <? inflight_n g then
    if deadline <? now then (g, WReturned false)
    else
      let wait := Second in
      let wait := if deadline <? now + wait then deadline - now else wait in
      (set_inflight_cv (inflight_cv g ++ [self]) g, WParked (now + wait))
  else (g, WReturned true).

(** A transition of [waitForInflight]; [None] when the goroutine cannot
    move: it is parked and still on the notify list, or it has returned. *)
Definition waitForInflight_step (g : Graceful) (now : Z) (self : nat)
    (deadline : Z) (pc : WaitPC) : option (Graceful * WaitPC) :=
  match pc with
  | WEnter => Some (waitForInflight_loop g now self deadline)
  | WParked _ =>
      if bool_decide (self ∈ inflight_cv g) then None
      else Some (waitForInflight_loop g now self deadline)
  | WReturned _ => None
  end.

(** ** The servers the coordinator tracks *)

(** An [http.Handler]: the mux a server without handler falls back to,
    a handler of the application, or [g.httpMiddleware(next)]. The same
    shape serves for a gRPC handler behind the interceptors. *)
Inductive handler :=
| DefaultServeMux
| AppHandler (id : nat)
| Tracked (next : handler).

Definition httpMiddleware (next : handler) : handler := Tracked next.

Record HttpServer := mkHttpServer {
  Addr : string;
  Handler : option handler;
  inShutdown : bool            (* set by srv.Shutdown *)
}.

Inductive GrpcState := GrpcLive | GrpcGracefullyStopped | GrpcStopped.

Record GrpcServer := mkGrpcServer {
  interceptors : bool;         (* built by NewGRPCServer *)
  grpc_state : GrpcState
}.

Inductive NetError := ErrListen (addr : string).

(** ** Goroutines *)

Inductive Entry := ViaShutdown | ViaWait.
Inductive TriggerSrc := CtxDone | Signalled (sig : Sig).
Inductive ReqKind := HTTPRequest | GRPCUnary | GRPCStream.
Inductive SrvKind := KindHTTP | KindGRPC.

(** A request on its way through the tracking adapters. *)
Inductive ReqPC :=
| RServe (h : handler)         (* about to call h.ServeHTTP / the interceptor *)
| RPublishInc (next : handler) (* incInflight, after Unlock *)
| RCount (next : handler)      (* the request counter *)
| RReturn                      (* returning: the deferred decInflight calls *)
| RPublishDec                  (* decInflight, after Unlock *)
| RDone.

(** The function handed to [g.stopOnce.Do] in [shutdown]: the statement
    about to run, with the locals [start] and [drainDeadline] once they are
    set. *)
Inductive BodyPC :=
| BStart                                  (* start := time.Now(); incShutdowns *)
| BSetReady (start : Z)                   (* g.setReady(false) *)
| BLoadBalancerDelay (start : Z)          (* if LoadBalancerDelay > 0 *)
| BLoadBalancerSleep (start wake : Z)     (* in time.Sleep, until wake *)
| BDrain (start : Z)                      (* drainDeadline := ...; gracefulShutdown: go ... *)
| BStopWait (start drainDeadline : Z)     (* gracefulShutdown: wg.Wait() *)
| BInflight (start drainDeadline : Z) (pc : WaitPC)  (* ok := g.waitForInflight(...) *)
| BHardStop (start : Z)                   (* if HardStopTimeout > 0 *)
| BHardStopSleep (start wake : Z)         (* in time.Sleep, until wake *)
| BObserve (start : Z)                    (* observeShutdownDuration(time.Since(start)) *)
| BCompleted.                             (* the last Printf; Do returns *)

Inductive CallerPC :=
| CSelect                      (* Wait: in the select *)
| COnceDo                      (* shutdown: at g.stopOnce.Do *)
| CBody (b : BodyPC)
| CReturned.

Inductive ServeCall :=
| ListenAndServe (server : nat)
| ServeListener (server : nat) (l : Listener)
| GrpcServe (server : nat) (l : Listener) (shown : string).

Inductive ServePC := SvStart | SvServing | SvReturned.

Inductive Thread :=
| TCaller (e : Entry) (pc : CallerPC)                 (* g.Shutdown() or g.Wait(ctx) *)
| TRequest (kind : ReqKind) (frames : nat) (pc : ReqPC)
| TWaitForInflight (deadline : Z) (pc : WaitPC)       (* a call of its own, as the tests make *)
| TStop (kind : SrvKind) (parent server : nat) (deadline : Z) (finished : bool)
                                                      (* a goroutine of gracefulShutdown *)
| TServe (call : ServeCall) (pc : ServePC).           (* a goroutine of a wrap operation *)

Record World := mkWorld {
  g : Graceful;
  now : Z;
  threads : list Thread;
  http : list HttpServer;      (* the http.Server objects, by pointer *)
  grpc : list GrpcServer;      (* the grpc.Server objects, by pointer *)
  net_Listen : string -> string -> Listener + NetError
}.

Definition set_g (x : Graceful) (w : World) : World :=
  mkWorld x (now w) (threads w) (http w) (grpc w) (net_Listen w).
Definition set_now (x : Z) (w : World) : World :=
  mkWorld (g w) x (threads w) (http w) (grpc w) (net_Listen w).
Definition set_threads (x : list Thread) (w : World) : World :=
  mkWorld (g w) (now w) x (http w) (grpc w) (net_Listen w).
Definition set_http (x : list HttpServer) (w : World) : World :=
  mkWorld (g w) (now w) (threads w) x (grpc w) (net_Listen w).
Definition set_grpc (x : list GrpcServer) (w : World) : World :=
  mkWorld (g w) (now w) (threads w) (http w) x (net_Listen w).

(** [go f()] *)
Definition spawn (t : Thread) (w : World) : World :=
  set_threads (threads w ++ [t]) w.

Definition with_g (f : Graceful -> Graceful) (w : World) : World :=
  set_g (f (g w)) w.

Definition upd_thread (tid : nat) (t : Thread) (w : World) : World :=
  set_threads (<[tid := t]> (threads w)) w.

Definition set_Handler (h : option handler) (s : HttpServer) : HttpServer :=
  mkHttpServer (Addr s) h (inShutdown s).
Definition set_inShutdown (b : bool) (s : HttpServer) : HttpServer :=
  mkHttpServer (Addr s) (Handler s) b.
Definition set_grpc_state (st : GrpcState) (s : GrpcServer) : GrpcServer :=
  mkGrpcServer (interceptors s) st.

(** ** graceful.go: wrapping and serving

    Each operation takes the pointer of the server, yields the error it
    returns ([None] for nil) and fails only where the source would
    dereference a nil pointer. *)

Definition WrapHTTP (server : nat) (w : World) : option (World * option NetError) :=
  srv ← http w !! server;
  (* Wrap the handler with request tracking *)
  let w :=
    match Handler srv with
    | Some h =>
        set_http (<[server := set_Handler (Some (httpMiddleware h)) srv]> (http w)) w
    | None => w
    end in
  (* Start the server *)
  let w := spawn (TServe (ListenAndServe server) SvStart) w in
  let w := with_g (fun g => set_httpServers (httpServers g ++ [server]) g) w in
  Some (w, None).

Definition WrapHTTPWithListener (server : nat) (listener : Listener) (w : World)
    : option (World * option NetError) :=
  srv ← http w !! server;
  (* Wrap the handler with request tracking *)
  let w :=
    match Handler srv with
    | Some h =>
        set_http (<[server := set_Handler (Some (httpMiddleware h)) srv]> (http w)) w
    | None => w
    end in
  (* Start the server *)
  let w := spawn (TServe (ServeListener server listener) SvStart) w in
  let w := with_g (fun g => set_httpServers (httpServers g ++ [server]) g) w in
  let w := with_g (fun g => set_listeners (listeners g ++ [listener]) g) w in
  Some (w, None).

Definition WrapGRPC (server : nat) (listener : Listener) (w : World)
    : option (World * option NetError) :=
  let w := with_g (Printf LogGRPCAlreadyCreated) w in
  (* Start the server *)
  let w := spawn (TServe (GrpcServe server listener (l_addr listener)) SvStart) w in
  let w := with_g (fun g => set_grpcServers (grpcServers g ++ [server]) g) w in
  let w := with_g (fun g => set_listeners (listeners g ++ [listener]) g) w in
  Some (w, None).

(** A fresh [grpc.Server] with both interceptors chained in; the result is
    its pointer. *)
Definition NewGRPCServer (w : World) : World * nat :=
  (set_grpc (grpc w ++ [mkGrpcServer true GrpcLive]) w, length (grpc w)).

Definition ServeGRPC (addr : string) (w : World)
    : World * (option nat * option Listener * option NetError) :=
  match net_Listen w "tcp" addr with
  | inr err => (w, (None, None, Some err))
  | inl listener =>
      let '(w, server) := NewGRPCServer w in
      let w := spawn (TServe (GrpcServe server listener addr) SvStart) w in
      let w := with_g (fun g => set_grpcServers (grpcServers g ++ [server]) g) w in
      let w := with_g (fun g => set_listeners (listeners g ++ [listener]) g) w in
      (w, (Some server, Some listener, None))
  end.

(** ** The goroutines started by the wrap operations *)

Definition step_serve (call : ServeCall) (pc : ServePC) (w : World)
    : option (World * ServePC) :=
  match call, pc with
  | ListenAndServe server, SvStart =>
      srv ← http w !! server;
      let w := with_g (Printf (LogHTTPStarting (Addr srv))) w in
      if inShutdown srv then Some (w, SvReturned)
      else
        let addr := if String.eqb (Addr srv) "" then ":http"%string else Addr srv in
        match net_Listen w "tcp" addr with
        | inr _ => Some (with_g (Printf LogHTTPServerError) w, SvReturned)
        | inl _ => Some (w, SvServing)
        end
  | ServeListener server l, SvStart =>
      srv ← http w !! server;
      let w := with_g (Printf (LogHTTPStarting (l_addr l))) w in
      if inShutdown srv then Some (w, SvReturned) else Some (w, SvServing)
  | ListenAndServe server, SvServing
  | ServeListener server _, SvServing =>
      srv ← http w !! server;
      (* Serve returns http.ErrServerClosed once Shutdown was called *)
      if inShutdown srv then Some (w, SvReturned) else None
  | GrpcServe server l shown, SvStart =>
      srv ← grpc w !! server;
      let w := with_g (Printf (LogGRPCStarting shown)) w in
      match grpc_state srv with
      | GrpcLive => Some (w, SvServing)
      | _ => Some (with_g (Printf LogGRPCServerError) w, SvReturned)
      end
  | GrpcServe server _ _, SvServing =>
      srv ← grpc w !! server;
      match grpc_state srv with
      | GrpcLive => None
      | _ => Some (w, SvReturned)
      end
  | _, SvReturned => None
  end.

(** ** middleware.go: a request through the adapters

    [frames] counts the deferred [decInflight] calls of the adapters the
    request is inside of. *)
Definition step_request (kind : ReqKind) (frames : nat) (pc : ReqPC) (g : Graceful)
    : option (Graceful * Thread) :=
  match pc with
  | RServe (Tracked next) =>
      Some (incInflight_locked g, TRequest kind frames (RPublishInc next))
  | RServe _ =>
      (* application code: runs, then returns or panics *)
      Some (g, TRequest kind frames RReturn)
  | RPublishInc next =>
      Some (publishInflight g, TRequest kind (S frames) (RCount next))
  | RCount next =>
      let inc := match kind with HTTPRequest => incHTTP | _ => incGRPC end in
      Some (with_metrics inc g, TRequest kind frames (RServe next))
  | RReturn =>
      match frames with
      | O => Some (g, TRequest kind O RDone)
      | S k => Some (decInflight_locked g, TRequest kind k RPublishDec)
      end
  | RPublishDec => Some (publishInflight g, TRequest kind frames RReturn)
  | RDone => None
  end.

(** ** shutdown.go *)

(** [gracefulShutdown]: one goroutine per tracked server. *)
Definition gracefulShutdown_spawn (self : nat) (deadline : Z) (g : Graceful)
    : list Thread :=
  map (fun srv => TStop KindHTTP self srv deadline false) (httpServers g)
  ++ map (fun srv => TStop KindGRPC self srv deadline false) (grpcServers g).

(** [wg.Wait()] may return: every goroutine started by [self] is done. *)
Definition wg_done (self : nat) (ts : list Thread) : bool :=
  forallb (fun t =>
             match t with
             | TStop _ parent _ _ finished => negb (parent =? self)%nat || finished
             | _ => true
             end) ts.

(** The per-server goroutine of [gracefulShutdown]. [graceful] is the
    answer of the server: [srv.Shutdown] returned nil, or [GracefulStop]
    finished before the timer; otherwise [srv.Shutdown] returned an error,
    or the timer fired (possible at the deadline only) and [srv.Stop] is
    called. *)
Definition step_stop (kind : SrvKind) (parent server : nat) (deadline : Z)
    (graceful : bool) (w : World) : option (World * Thread) :=
  match kind with
  | KindHTTP =>
      srv ← http w !! server;
      let w := set_http (<[server := set_inShutdown true srv]> (http w)) w in
      let w := with_g (Printf (if graceful then LogHTTPShutdownCompleted
                               else LogHTTPShutdownError)) w in
      Some (w, TStop kind parent server deadline true)
  | KindGRPC =>
      srv ← grpc w !! server;
      if graceful then
        let w := set_grpc (<[server := set_grpc_state GrpcGracefullyStopped srv]> (grpc w)) w in
        Some (with_g (Printf LogGRPCGracefulCompleted) w,
              TStop kind parent server deadline true)
      else if deadline <=? now w then
        let w := with_g (Printf LogGRPCForcingStop) w in
        let w := set_grpc (<[server := set_grpc_state GrpcStopped srv]> (grpc w)) w in
        Some (w, TStop kind parent server deadline true)
      else None
  end.

(** The function run by [g.stopOnce.Do] in [shutdown], one statement (or
    one blocking call) at a time. *)
Definition step_body (self : nat) (b : BodyPC) (w : World)
    : option (World * CallerPC) :=
  match b with
  | BStart =>
      let start := now w in
      (* Update metrics *)
      Some (with_g (with_metrics incShutdowns) w, CBody (BSetReady start))
  | BSetReady start =>
      (* 1. Mark as not ready to stop new traffic *)
      Some (with_g (fun g => Printf LogNotReady (setReady false g)) w,
            CBody (BLoadBalancerDelay start))
  | BLoadBalancerDelay start =>
      (* 2. Wait for load balancers/service mesh to notice readiness change *)
      let d := LoadBalancerDelay (config (g w)) in
      if 0 <? d then
        Some (with_g (Printf (LogLoadBalancerWait d)) w,
              CBody (BLoadBalancerSleep start (now w + d)))
      else Some (w, CBody (BDrain start))
  | BLoadBalancerSleep start wake =>
      if wake <=? now w then Some (w, CBody (BDrain start)) else None
  | BDrain start =>
      (* 3. Graceful shutdown with timeout *)
      let drainDeadline := now w + DrainTimeout (config (g w)) in
      Some (set_threads (threads w ++ gracefulShutdown_spawn self drainDeadline (g w)) w,
            CBody (BStopWait start drainDeadline))
  | BStopWait start drainDeadline =>
      if wg_done self (threads w)
      then Some (w, CBody (BInflight start drainDeadline WEnter))
      else None
  | BInflight start drainDeadline (WReturned ok) =>
      (* 4. Wait for in-flight requests to complete *)
      Some (if ok then w else with_g (Printf LogNotDrained) w, CBody (BHardStop start))
  | BInflight start drainDeadline pc =>
      '(g', pc') ← waitForInflight_step (g w) (now w) self drainDeadline pc;
      Some (set_g g' w, CBody (BInflight start drainDeadline pc'))
  | BHardStop start =>
      (* 5. Final hard stop if configured *)
      let d := HardStopTimeout (config (g w)) in
      if 0 <? d then
        Some (with_g (Printf (LogFinalCleanupWait d)) w,
              CBody (BHardStopSleep start (now w + d)))
      else Some (w, CBody (BObserve start))
  | BHardStopSleep start wake =>
      if wake <=? now w then Some (w, CBody (BObserve start)) else None
  | BObserve start =>
      (* Update metrics *)
      Some (with_g (with_metrics (observeShutdownDuration (now w - start))) w,
            CBody BCompleted)
  | BCompleted =>
      Some (with_g (fun g => set_stopOnce OnceDone (Printf LogShutdownCompleted g)) w,
            CReturned)
  end.

(** A caller of [g.shutdown()], through [Shutdown] or through [Wait]. *)
Definition step_caller (self : nat) (e : Entry) (pc : CallerPC) (w : World)
    : option World :=
  match pc with
  | CSelect => None
  | COnceDo =>
      match stopOnce (g w) with
      | OnceNew =>
          Some (upd_thread self (TCaller e (CBody BStart))
                           (with_g (set_stopOnce OnceRunning) w))
      | OnceRunning => None
      | OnceDone => Some (upd_thread self (TCaller e CReturned) w)
      end
  | CBody b =>
      '(w', pc') ← step_body self b w;
      Some (upd_thread self (TCaller e pc') w')
  | CReturned => None
  end.

(** ** The scheduler *)

Inductive Event :=
| EvTick (d : Z)                                  (* time passes *)
| EvGo (e : Entry)                                (* go g.Shutdown() / go g.Wait(ctx) *)
| EvTrigger (tid : nat) (src : TriggerSrc)        (* the select of Wait fires *)
| EvHTTPRequest (server : nat)                    (* a request reaches a server *)
| EvGRPCRequest (server : nat) (stream : bool)
| EvWaitForInflight (deadline : Z)                (* go g.waitForInflight(deadline) *)
| EvNewHTTPServer (addr : string) (h : option handler)  (* &http.Server{...} *)
| EvGrpcNewServer                                 (* grpc.NewServer() *)
| EvNewGRPCServer                                 (* g.NewGRPCServer() *)
| EvWrapHTTP (server : nat)
| EvWrapHTTPWithListener (server : nat) (l : Listener)
| EvWrapGRPC (server : nat) (l : Listener)
| EvServeGRPC (addr : string)
| EvStop (tid : nat) (graceful : bool)            (* a server answers its stop call *)
| EvStep (tid : nat).                             (* a goroutine moves *)

Definition step_thread (tid : nat) (t : Thread) (w : World) : option World :=
  match t with
  | TCaller e pc => step_caller tid e pc w
  | TRequest kind frames pc =>
      '(g', t') ← step_request kind frames pc (g w);
      Some (upd_thread tid t' (set_g g' w))
  | TWaitForInflight deadline pc =>
      '(g', pc') ← waitForInflight_step (g w) (now w) tid deadline pc;
      Some (upd_thread tid (TWaitForInflight deadline pc') (set_g g' w))
  | TStop _ _ _ _ _ => None
  | TServe call pc =>
      '(w', pc') ← step_serve call pc w;
      Some (upd_thread tid (TServe call pc') w')
  end.

Definition step (w : World) (ev : Event) : option World :=
  match ev with
  | EvTick d => if 0 <=? d then Some (set_now (now w + d) w) else None
  | EvGo ViaShutdown => Some (spawn (TCaller ViaShutdown COnceDo) w)
  | EvGo ViaWait => Some (spawn (TCaller ViaWait CSelect) w)
  | EvTrigger tid src =>
      t ← threads w !! tid;
      match t with
      | TCaller ViaWait CSelect =>
          let line := match src with
                      | CtxDone => LogContextCanceled
                      | Signalled sig => LogReceivedSignal sig
                      end in
          Some (upd_thread tid (TCaller ViaWait COnceDo) (with_g (Printf line) w))
      | _ => None
      end
  | EvHTTPRequest server =>
      srv ← http w !! server;
      Some (spawn (TRequest HTTPRequest O
                            (RServe (default DefaultServeMux (Handler srv)))) w)
  | EvGRPCRequest server stream =>
      srv ← grpc w !! server;
      let h := if interceptors srv then Tracked (AppHandler O) else AppHandler O in
      Some (spawn (TRequest (if stream then GRPCStream else GRPCUnary) O (RServe h)) w)
  | EvWaitForInflight deadline => Some (spawn (TWaitForInflight deadline WEnter) w)
  | EvNewHTTPServer addr h => Some (set_http (http w ++ [mkHttpServer addr h false]) w)
  | EvGrpcNewServer => Some (set_grpc (grpc w ++ [mkGrpcServer false GrpcLive]) w)
  | EvNewGRPCServer => Some (fst (NewGRPCServer w))
  | EvWrapHTTP server => fst <$> WrapHTTP server w
  | EvWrapHTTPWithListener server l => fst <$> WrapHTTPWithListener server l w
  | EvWrapGRPC server l => fst <$> WrapGRPC server l w
  | EvServeGRPC addr => Some (fst (ServeGRPC addr w))
  | EvStop tid graceful =>
      t ← threads w !! tid;
      match t with
      | TStop kind parent server deadline false =>
          '(w', t') ← step_stop kind parent server deadline graceful w;
          Some (upd_thread tid t' w')
      | _ => None
      end
  | EvStep tid =>
      t ← threads w !! tid;
      step_thread tid t w
  end.

Fixpoint run (w : World) (evs : list Event) : option World :=
  match evs with
  | [] => Some w
  | ev :: rest =>
      match step w ev with
      | Some w' => run w' rest
      | None => None
      end
  end.

(** The process after [New(cfg)] at time [t0], on a network [net]. *)
Definition init (cfg : option Config) (t0 : Z)
    (net : string -> string -> Listener + NetError) : World :=
  {| g := New cfg t0; now := t0; threads := []; http := []; grpc := [];
     net_Listen := net |}.

(** ** Vocabulary of the properties *)

(** The program counter of a goroutine inside [waitForInflight], called
    directly or from the shutdown function. *)
Definition wait_pc (t : Thread) : option WaitPC :=
  match t with
  | TWaitForInflight _ pc => Some pc
  | TCaller _ (CBody (BInflight _ _ pc)) => Some pc
  | _ => None
  end.

(** What the one-time guard protects: the guard itself, the readiness
    flag, the two shutdown metrics, and the first and last line the
    shutdown function logs. *)
Definition shutdown_view (g : Graceful) : Once * bool * option (nat * nat) * nat * nat :=
  (stopOnce g,
   ready g,
   (fun m => (shutdownsTotal m, length (shutdownDuration m))) <$> gmetrics g,
   logged LogNotReady (logger g),
   logged LogShutdownCompleted (logger g)).

(** Progress of the shutdown function: 0 before [Do] is entered; 1 at its
    first statement; 2 once the shutdown counter is incremented; 3 once
    readiness is flipped; 4 once the duration is observed; 5 after it has
    returned. *)
Definition progress (b : BodyPC) : nat :=
  match b with
  | BStart => 1
  | BSetReady _ => 2
  | BCompleted => 4
  | _ => 3
  end.

Definition view_at (k : nat) (g : Graceful) : Once * bool * option (nat * nat) * nat * nat :=
  ((if (k =? 0)%nat then OnceNew else if (5 <=? k)%nat then OnceDone else OnceRunning),
   (k <? 3)%nat,
   (fun _ => (if (2 <=? k)%nat then 1%nat else O, if (4 <=? k)%nat then 1%nat else O))
     <$> gmetrics g,
   (if (3 <=? k)%nat then 1%nat else O),
   (if (5 <=? k)%nat then 1%nat else O)).

(** Callers that are inside the shutdown function or have left [Do]. *)
Definition past_guard (t : Thread) : bool :=
  match t with
  | TCaller _ (CBody _) | TCaller _ CReturned => true
  | _ => false
  end.

(** The statements of the shutdown function in program order. *)
Definition rank (b : BodyPC) : nat :=
  match b with
  | BStart => 0
  | BSetReady _ => 1
  | BLoadBalancerDelay _ => 2
  | BLoadBalancerSleep _ _ => 3
  | BDrain _ => 4
  | BStopWait _ _ => 5
  | BInflight _ _ _ => 6
  | BHardStop _ => 7
  | BHardStopSleep _ _ => 8
  | BObserve _ => 9
  | BCompleted => 10
  end.

(** The one-time guard holds in a world. *)
Definition guarded (w : World) : Prop :=
  exists k : nat,
    shutdown_view (g w) = view_at k (g w)
    /\ (forall tid e b, threads w !! tid = Some (TCaller e (CBody b)) -> k = progress b)
    /\ (forall i j e1 e2 b1 b2,
          threads w !! i = Some (TCaller e1 (CBody b1)) ->
          threads w !! j = Some (TCaller e2 (CBody b2)) -> i = j)
    /\ (forall tid e, threads w !! tid = Some (TCaller e CReturned) -> k = 5%nat).

(** A step that leaves the guard and the callers past it alone. *)
Definition untouched (w w' : World) : Prop :=
  shutdown_view (g w') = shutdown_view (g w)
  /\ (forall m, view_at m (g w') = view_at m (g w))
  /\ (forall i t, threads w' !! i = Some t -> past_guard t = true ->
                  threads w !! i = Some t).

Definition untracked (pc : ReqPC) : bool :=
  match pc with
  | RServe (Tracked _) | RPublishInc _ | RCount _ | RPublishDec => false
  | _ => true
  end.

(** Updates of the coordinator that keep what the guard protects. *)
Definition same_view (g1 g2 : Graceful) : Prop :=
  shutdown_view g2 = shutdown_view g1 /\ forall m, view_at m g2 = view_at m g1.

(** ** Worlds and runs used as instances *)

Definition Millisecond : Z := 1000000.

(** A network on which one address cannot be bound. *)
Definition net_example : string -> string -> Listener + NetError :=
  fun _ addr =>
    if String.eqb addr "invalid:address" then inr (ErrListen addr)
    else inl (mkListener addr).

Definition world_after (cfg : Config) (evs : list Event) : World :=
  default (init None 0 net_example) (run (init (Some cfg) 0 net_example) evs).

Definition sum_nat (ds : list nat) : nat := fold_right Nat.add O ds.

Definition ticks (ds : list nat) : list Event := map (fun d => EvTick (Z.of_nat d)) ds.

(** Drain timeout 50ms, no other delay, metrics on. *)
Definition cfg_timeout : Config :=
  mkConfig (50 * Millisecond) 0 0 None None None true.

(** The application serves a server obtained from [NewGRPCServer] itself,
    so the interceptors count its calls but [gracefulShutdown] does not
    stop it. A stream is open, inside its handler; [Shutdown] is called,
    flips readiness, has no server to stop and reaches [waitForInflight]
    at time 0, the stream still open. *)
Definition evs_timeout : list Event :=
  [ EvNewGRPCServer; EvGRPCRequest 0 true; EvStep 0; EvStep 0; EvStep 0;
    EvGo ViaShutdown;
    EvStep 1; EvStep 1; EvStep 1; EvStep 1; EvStep 1; EvStep 1; EvStep 1 ].

(** Two requests in flight and a waiter whose deadline passed a second ago. *)
Definition w_past : World :=
  {| g := set_inflight_n 2 (New None (5 * Second)); now := 5 * Second;
     threads := [TWaitForInflight (4 * Second) WEnter]; http := []; grpc := [];
     net_Listen := net_example |}.

Definition env_example : gmap string string :=
  <["DRAIN_TIMEOUT_SECONDS" := "soon"]>
    (<["HARD_STOP_TIMEOUT_SECONDS" := "-3"]>
       (<["LOAD_BALANCER_DELAY_SECONDS" := "0"]>
          (<["ENABLE_METRICS" := "maybe"]> ∅))).

(** Drain timeout 100ms, no other delay, metrics on. *)
Definition cfg_quick : Config :=
  mkConfig (100 * Millisecond) 0 0 None None None true.

(** Three invocations: [Shutdown], [Wait] and [Shutdown] again. The signal
    reaches [Wait] first, so it runs the function to its end; the two
    others arrive at the guard afterwards. *)
Definition evs_three_callers : list Event :=
  [ EvGo ViaShutdown; EvGo ViaWait; EvGo ViaShutdown;
    EvTrigger 1 (Signalled SIGTERM);
    EvStep 1; EvStep 1; EvStep 1; EvStep 1; EvStep 1; EvStep 1; EvStep 1; EvStep 1;
    EvStep 1; EvTick 7; EvStep 1; EvStep 1;
    EvStep 0; EvStep 2 ].

(** Life after the shutdown: one more [Shutdown], a server wrapped and
    serving a request, a gRPC server started, time passing. *)
Definition evs_afterwards : list Event :=
  [ EvGo ViaShutdown; EvStep 3;
    EvNewHTTPServer ":8081" (Some (AppHandler 2)); EvWrapHTTP 0; EvStep 4;
    EvHTTPRequest 0; EvStep 5; EvStep 5; EvStep 5; EvStep 5; EvStep 5; EvStep 5;
    EvServeGRPC ":9090"; EvTick 1000 ].

(** [Shutdown] is called and runs the first statement of the function. *)
Definition evs_first_statement : list Event :=
  [ EvGo ViaShutdown; EvStep 0; EvStep 0 ].

(** An HTTP server whose address cannot be bound. *)
Definition w_bad_address : World :=
  {| g := New None 0; now := 0; threads := [];
     http := [mkHttpServer "invalid:address" (Some (AppHandler 1)) false];
     grpc := []; net_Listen := net_example |}.

(** An HTTP server built without a handler. *)
Definition w_nil_handler : World :=
  {| g := New (Some cfg_quick) 0; now := 0; threads := [];
     http := [mkHttpServer ":8080" None false];
     grpc := []; net_Listen := net_example |}.

(** The metrics once [evs_three_callers] has run: one shutdown, one
    observation of 7ns. *)
Definition metrics_after_shutdown : metrics :=
  mkMetrics 0 O O [7] 0 1%nat None.

Definition ops_example : list Op := [Begin; Begin; End_; Begin; End_; End_].

(** ** Vocabulary of the further properties *)

(** The adapters a request is inside of: those whose deferred
    [decInflight] is pending, and the one whose [incInflight] has counted
    the request and is about to publish the gauge. *)
Definition open_adapters (t : Thread) : nat :=
  match t with
  | TRequest _ frames (RPublishInc _) => S frames
  | TRequest _ frames _ => frames
  | _ => O
  end.

Definition total_open (ts : list Thread) : nat := sum_nat (map open_adapters ts).

(** The counter is the number of adapters that requests are inside of. *)
Definition counts_open (w : World) : Prop :=
  inflight_n (g w) = wrap64 (Z.of_nat (total_open (threads w))).

(** What no event changes: the configuration, whether metrics exist, the
    network. *)
Definition fixed_parts (w : World) :=
  (config (g w), (fun _ : metrics => tt) <$> gmetrics (g w), net_Listen w).

(** The readiness gauge shows zero. *)
Definition gauge_zero (w : World) : Prop :=
  forall m, gmetrics (g w) = Some m -> readinessStatus m = 0.

(** The three registries of a later world extend those of an earlier one. *)
Definition registry_extends (w w' : World) : Prop :=
  httpServers (g w) `prefix_of` httpServers (g w')
  /\ grpcServers (g w) `prefix_of` grpcServers (g w')
  /\ listeners (g w) `prefix_of` listeners (g w').

(** Events that start a shutdown: a call of [Shutdown], or the context or
    a signal reaching a [Wait]. *)
Definition starts_shutdown (ev : Event) : bool :=
  match ev with
  | EvGo ViaShutdown | EvTrigger _ _ => true
  | _ => false
  end.

(** Goroutines as they are while nothing has asked for a shutdown. *)
Definition idle_thread (t : Thread) : bool :=
  match t with
  | TCaller ViaWait CSelect => true
  | TCaller _ _ => false
  | TStop _ _ _ _ _ => false
  | _ => true
  end.

Definition idle (w : World) : Prop :=
  ready (g w) = true
  /\ stopOnce (g w) = OnceNew
  /\ logged LogNotReady (logger (g w)) = O
  /\ Forall (fun t => idle_thread t = true) (threads w).




(** The server behind pointer [p] has been told to stop. *)
Definition server_stopped (w : World) (kind : SrvKind) (p : nat) : bool :=
  match kind with
  | KindHTTP =>
      match http w !! p with Some srv => inShutdown srv | None => false end
  | KindGRPC =>
      match grpc w !! p with
      | Some srv => match grpc_state srv with GrpcLive => false | _ => true end
      | None => false
      end
  end.

(** The caller [par] is in [wg.Wait()] of [gracefulShutdown], with drain
    deadline [dl]. *)
Definition in_stop_wait (ts : list Thread) (par : nat) (dl : Z) : bool :=
  match ts !! par with
  | Some (TCaller _ (CBody (BStopWait _ dl'))) => dl' =? dl
  | _ => false
  end.

(** What holds of a stop goroutine: finished, its server is stopped;
    not finished, the caller that started it waits for it. *)
Definition stopper_ok (w : World) (t : Thread) : Prop :=
  match t with
  | TStop kind par p dl true => server_stopped w kind p = true
  | TStop kind par p dl false => in_stop_wait (threads w) par dl = true
  | _ => True
  end.

Definition stoppers_ok (w : World) : Prop := Forall (stopper_ok w) (threads w).

(** The caller has left [gracefulShutdown]. *)
Definition after_stop_wait (pc : CallerPC) : bool :=
  match pc with
  | CBody b => (6 <=? rank b)%nat
  | CReturned => true
  | _ => false
  end.

(** Goroutines as they can be while the coordinator is ready: no caller
    is past [g.setReady(false)], no stop goroutine exists. *)
Definition before_flip (t : Thread) : bool :=
  match t with
  | TCaller _ (CBody b) => (rank b <=? 1)%nat
  | TCaller _ CReturned => false
  | TStop _ _ _ _ _ => false
  | _ => true
  end.

Definition live_http (s : HttpServer) : bool := negb (inShutdown s).

Definition live_grpc (s : GrpcServer) : bool :=
  match grpc_state s with GrpcLive => true | _ => false end.

Definition serving_while_ready (w : World) : Prop :=
  ready (g w) = true ->
  stopOnce (g w) <> OnceDone
  /\ Forall (fun t => before_flip t = true) (threads w)
  /\ Forall (fun s => live_http s = true) (http w)
  /\ Forall (fun s => live_grpc s = true) (grpc w).

(** The two sleeps of the shutdown function, as long as they last. *)
Definition lb_sleep (c : Config) : Z := Z.max 0 (LoadBalancerDelay c).
Definition hard_sleep (c : Config) : Z := Z.max 0 (HardStopTimeout c).

(** What the clock and the locals of the shutdown function satisfy at
    each of its statements. *)
Definition body_time (c : Config) (now : Z) (b : BodyPC) : Prop :=
  match b with
  | BStart | BCompleted => True
  | BSetReady s | BLoadBalancerDelay s => s <= now
  | BLoadBalancerSleep s wake => s <= now /\ s + lb_sleep c <= wake
  | BDrain s | BHardStop s => s + lb_sleep c <= now
  | BStopWait s dl | BInflight s dl _ =>
      s + lb_sleep c <= now /\ s + lb_sleep c + DrainTimeout c <= dl
  | BHardStopSleep s wake =>
      s + lb_sleep c <= now /\ s + lb_sleep c + hard_sleep c <= wake
  | BObserve s => s + lb_sleep c + hard_sleep c <= now
  end.

Definition thread_time (c : Config) (now : Z) (t : Thread) : Prop :=
  match t with
  | TCaller _ (CBody b) => body_time c now b
  | _ => True
  end.

Definition timed (w : World) : Prop :=
  Forall (thread_time (config (g w)) (now w)) (threads w)
  /\ forall m, gmetrics (g w) = Some m ->
       Forall (fun d => lb_sleep (config (g w)) + hard_sleep (config (g w)) <= d)
              (shutdownDuration m).

(** A goroutine parked in [cv.Wait()] of [waitForInflight]. *)
Definition parked (w : World) (tw : nat) : Prop :=
  tw ∈ inflight_cv (g w)
  /\ exists t timer, threads w !! tw = Some t /\ wait_pc t = Some (WParked timer).

(** Events that put a tracking adapter in front of application code:
    the HTTP wrappers, which install [httpMiddleware], and the two ways to
    a server built by [NewGRPCServer]. *)
Definition installs_adapter (ev : Event) : bool :=
  match ev with
  | EvWrapHTTP _ | EvWrapHTTPWithListener _ _ | EvNewGRPCServer | EvServeGRPC _ => true
  | EvNewHTTPServer _ (Some (Tracked _)) => true
  | _ => false
  end.

Definition plain_handler (h : option handler) : bool :=
  match h with
  | Some (Tracked _) => false
  | _ => true
  end.

Definition outside_adapters (t : Thread) : bool :=
  match t with
  | TRequest _ frames pc => (frames =? 0)%nat && untracked pc
  | TCaller _ (CBody (BInflight _ _ (WParked _))) => false
  | TWaitForInflight _ (WParked _) => false
  | _ => true
  end.

Definition nothing_tracked (w : World) : Prop :=
  inflight_n (g w) = 0
  /\ inflight_cv (g w) = []
  /\ (forall m, gmetrics (g w) = Some m ->
        inflightRequests m = 0 /\ httpRequestsTotal m = O /\ grpcRequestsTotal m = O)
  /\ Forall (fun t => outside_adapters t = true) (threads w)
  /\ Forall (fun s => plain_handler (Handler s) = true) (http w)
  /\ Forall (fun s => interceptors s = false) (grpc w).

(** The events by which a caller arrives at [g.shutdown()]: a call of
    [Shutdown], or a call of [Wait] that the context or a signal reaches. *)
Definition entry_events (self : nat) (e : Entry) (src : TriggerSrc) : list Event :=
  match e with
  | ViaShutdown => [EvGo ViaShutdown]
  | ViaWait => [EvGo ViaWait; EvTrigger self src]
  end.

(** A schedule on which that caller runs the drain sequence to its end:
    it moves whenever it can, each sleep lasts as long as configured, and
    every registered server answers its stop call gracefully. *)
Definition shutdown_schedule (w : World) (e : Entry) (src : TriggerSrc) : list Event :=
  let self := length (threads w) in
  let c := config (g w) in
  let n := (length (httpServers (g w)) + length (grpcServers (g w)))%nat in
  entry_events self e src
  ++ [EvStep self; EvStep self; EvStep self; EvStep self]
  ++ (if 0 <? LoadBalancerDelay c then [EvTick (LoadBalancerDelay c); EvStep self] else [])
  ++ [EvStep self]
  ++ map (fun i => EvStop i true) (seq (S self) n)
  ++ [EvStep self; EvStep self; EvStep self; EvStep self]
  ++ (if 0 <? HardStopTimeout c then [EvTick (HardStopTimeout c); EvStep self] else [])
  ++ [EvStep self; EvStep self].

(** No stop goroutine exists. *)
Definition no_stoppers (ts : list Thread) : bool :=
  forallb (fun t => match t with TStop _ _ _ _ _ => false | _ => true end) ts.

(** The pointers of the registries are those of servers. *)
Definition registry_valid (w : World) : bool :=
  forallb (fun p => p <? length (http w))%nat (httpServers (g w))
  && forallb (fun p => p <? length (grpc w))%nat (grpcServers (g w)).

(** The servers [gracefulShutdown] starts a goroutine for, in order. *)
Definition stop_targets (g0 : Graceful) : list (SrvKind * nat) :=
  map (fun p => (KindHTTP, p)) (httpServers g0)
  ++ map (fun p => (KindGRPC, p)) (grpcServers g0).

Definition stopper (self : nat) (dl : Z) (fin : bool) (kp : SrvKind * nat) : Thread :=
  TStop (fst kp) self (snd kp) dl fin.

Definition valid_target (w : World) (kp : SrvKind * nat) : bool :=
  match fst kp with
  | KindHTTP => (snd kp <? length (http w))%nat
  | KindGRPC => (snd kp <? length (grpc w))%nat
  end.

(** The coordinator without its log. *)
Definition forget_log (g0 : Graceful) : Graceful :=
  mkGraceful (config g0) [] (ready g0) (started g0) (inflight_n g0) (inflight_cv g0)
             (httpServers g0) (grpcServers g0) (listeners g0) (stopOnce g0) (gmetrics g0).

From Stdlib Require DecimalNat DecimalString.

(** The decimal numeral of a natural number, without sign or leading
    zeros, as a shell or a manifest would write it. *)
Definition decimal (n : nat) : string :=
  DecimalString.NilEmpty.string_of_uint (Nat.to_uint n).

(** The registry a server of that kind is recorded in. *)
Definition registry (g0 : Graceful) (kind : SrvKind) : list nat :=
  match kind with
  | KindHTTP => httpServers g0
  | KindGRPC => grpcServers g0
  end.

(** Stop goroutines exist for registered servers only, and only
    registered servers have been told to stop. *)
Definition stops_registered (w : World) : Prop :=
  Forall (fun t => match t with
                   | TStop kind _ p _ _ => p ∈ registry (g w) kind
                   | _ => True
                   end) (threads w)
  /\ forall kind p, server_stopped w kind p = true -> p ∈ registry (g w) kind.

(** The shutdown function began at or after [t0]; where [waitForInflight]
    has returned false, the drain deadline is behind the clock. *)
Definition thread_late (t0 now : Z) (t : Thread) : Prop :=
  match t with
  | TCaller _ (CBody b) =>
      match b with
      | BStart | BCompleted | BHardStop _ | BHardStopSleep _ _ | BObserve _ => True
      | BSetReady s | BLoadBalancerDelay s | BLoadBalancerSleep s _ | BDrain s
      | BStopWait s _ => t0 <= s
      | BInflight s dl (WReturned false) => t0 <= s /\ dl < now
      | BInflight s _ _ => t0 <= s
      end
  | _ => True
  end.

Definition late (t0 : Z) (w : World) : Prop :=
  t0 <= now w
  /\ Forall (thread_late t0 (now w)) (threads w)
  /\ ((0 < logged LogNotDrained (logger (g w)))%nat ->
      t0 + lb_sleep (config (g w)) + DrainTimeout (config (g w)) < now w).

(** ** Further worlds and runs used as instances *)

(** Two servers serving, an HTTP request and a unary gRPC call inside
    their handlers. *)
Definition evs_serving : list Event :=
  [ EvNewHTTPServer ":8080" (Some (AppHandler 1)); EvWrapHTTP 0; EvStep 0;
    EvServeGRPC ":9090"; EvStep 1;
    EvHTTPRequest 0; EvStep 2; EvStep 2; EvStep 2;
    EvGRPCRequest 0 false; EvStep 3; EvStep 3; EvStep 3 ].

(** One more gRPC server, built by the application and wrapped. *)
Definition evs_wrap_more : list Event :=
  [ EvGrpcNewServer; EvWrapGRPC 1 (mkListener ":9091"); EvGo ViaShutdown;
    EvStep 5; EvStep 5; EvStep 5 ].

(** An HTTP server wrapped and serving; [Shutdown] is called and has
    reached [gracefulShutdown]. *)
Definition evs_to_drain : list Event :=
  [ EvNewHTTPServer ":8080" (Some (AppHandler 1)); EvWrapHTTP 0; EvStep 0;
    EvGo ViaShutdown; EvStep 1; EvStep 1; EvStep 1; EvStep 1 ].


(** Drain timeout 100ms, hard stop 20ms, load-balancer delay 10ms,
    metrics on. *)
Definition cfg_slow : Config :=
  mkConfig (100 * Millisecond) (20 * Millisecond) (10 * Millisecond) None None None true.

(** [Shutdown] with nothing to stop: the two sleeps last as long as
    configured and the duration is observed. *)
Definition evs_slow_shutdown : list Event :=
  [ EvGo ViaShutdown; EvStep 0; EvStep 0; EvStep 0; EvStep 0;
    EvTick (10 * Millisecond); EvStep 0;
    EvStep 0; EvStep 0; EvStep 0; EvStep 0; EvStep 0;
    EvTick (20 * Millisecond); EvStep 0; EvStep 0 ].

(** A gRPC server started by [ServeGRPC]; [Shutdown] has started its stop
    goroutine, and the drain timeout of 100ms goes by without the server
    finishing [GracefulStop]. *)
Definition evs_grpc_deadline : list Event :=
  [ EvServeGRPC ":9090"; EvStep 0; EvGo ViaShutdown;
    EvStep 1; EvStep 1; EvStep 1; EvStep 1; EvStep 1;
    EvTick (100 * Millisecond) ].

(** A server from [grpc.NewServer] handed to [WrapGRPC], a stream open
    on it, and a [Shutdown] that has stopped the server and asks
    [waitForInflight]. *)
Definition evs_plain_grpc : list Event :=
  [ EvGrpcNewServer; EvWrapGRPC 0 (mkListener ":9090"); EvStep 0;
    EvGRPCRequest 0 true;
    EvGo ViaShutdown; EvStep 2; EvStep 2; EvStep 2; EvStep 2; EvStep 2;
    EvStop 3 true; EvStep 2; EvStep 2 ].

(** An HTTP server wrapped and a gRPC server started by [ServeGRPC], both
    serving, no request in flight. *)
Definition evs_idle_servers : list Event :=
  [ EvNewHTTPServer ":8080" (Some (AppHandler 1)); EvWrapHTTP 0; EvStep 0;
    EvServeGRPC ":9090"; EvStep 1 ].

(** Thirty seconds everywhere. *)
Definition env_thirty : gmap string string :=
  <["DRAIN_TIMEOUT_SECONDS" := "30"]>
    (<["HARD_STOP_TIMEOUT_SECONDS" := "30"]>
       (<["LOAD_BALANCER_DELAY_SECONDS" := "30"]> ∅)).

(** A stream is open on a server started by [ServeGRPC]; [Shutdown] is
    called; the server does not finish [GracefulStop] within the drain
    timeout of 100ms and is stopped by force 50ms later, the stream still
    counted; [waitForInflight] then returns false at once. *)
Definition evs_not_drained : list Event :=
  [ EvServeGRPC ":9090"; EvStep 0;
    EvGRPCRequest 0 true; EvStep 1; EvStep 1; EvStep 1;
    EvGo ViaShutdown; EvStep 2; EvStep 2; EvStep 2; EvStep 2; EvStep 2;
    EvTick (150 * Millisecond); EvStop 3 false;
    EvStep 2; EvStep 2; EvStep 2 ].

(** * Properties *)

(** ** Tactics and the run of a list of events *)

Ltac inv_step H :=
  repeat first
    [ progress simplify_option_eq
    | match type of H with context [match ?x with _ => _ end] => destruct x eqn:? end
    | match goal with
      | H' : context [match ?x with _ => _ end] |- _ => destruct x eqn:?
      end ].

Ltac wsimpl :=
  cbn [g now threads http grpc net_Listen with_g set_g set_now set_threads set_http
       set_grpc spawn upd_thread mbind option_bind inShutdown Addr Handler
       set_Handler set_inShutdown].

Lemma step_EvStep w tid t :
  threads w !! tid = Some t -> step w (EvStep tid) = step_thread tid t w.
Proof. intros H. cbn [step]. rewrite H. reflexivity. Qed.

Lemma step_EvTick w d : 0 <= d -> step w (EvTick d) = Some (set_now (now w + d) w).
Proof. intros H. cbn [step]. destruct (Z.leb_spec 0 d); [reflexivity | lia]. Qed.

Lemma run_app w evs1 evs2 :
  run w (evs1 ++ evs2) = match run w evs1 with Some w1 => run w1 evs2 | None => None end.
Proof.
  revert w. induction evs1 as [|ev evs1 IH]; intros w; cbn; [reflexivity|].
  destruct (step w ev); [apply IH | reflexivity].
Qed.

(** A property kept by every event holds along every run. *)
Lemma run_invariant (P : World -> Prop) :
  (forall w ev w', P w -> step w ev = Some w' -> P w') ->
  forall evs w w', P w -> run w evs = Some w' -> P w'.
Proof.
  intros Hstep. induction evs as [|ev evs IH]; intros w w' HP H; cbn in H.
  - simplify_eq. exact HP.
  - destruct (step w ev) as [w1|] eqn:E; [|discriminate]. eauto.
Qed.

Lemma run_ticks ds w :
  run w (ticks ds) = Some (set_now (now w + Z.of_nat (sum_nat ds)) w).
Proof.
  revert w. induction ds as [|d ds IH]; intros w; cbn [ticks map run].
  - destruct w as [g0 n0 ts hs gs nl]. unfold set_now. cbn [now sum_nat fold_right Z.of_nat g threads http grpc
      net_Listen]. rewrite Z.add_0_r. reflexivity.
  - rewrite step_EvTick by lia. fold (ticks ds). rewrite IH.
    destruct w as [g0 n0 ts hs gs nl]. unfold set_now, sum_nat.
    cbn [now fold_right g threads http grpc net_Listen].
    rewrite Nat2Z.inj_add, Z.add_assoc. reflexivity.
Qed.

(** ** Configuration from the environment *)

Ltac env_cases :=
  repeat match goal with
  | |- context [String.eqb ?v ""] =>
      let E := fresh "E" in
      destruct (String.eqb v "") eqn:E;
      [apply String.eqb_eq in E; rewrite ?E;
       change (strconv.Atoi "") with (@None Z);
       change (strconv.ParseBool "") with (@None bool)|]; cbn [negb]
  | |- context [strconv.Atoi ?v] => destruct (strconv.Atoi v) as [?|]
  | |- context [strconv.ParseBool ?v] => destruct (strconv.ParseBool v) as [?|]
  | |- context [0 <? ?s] => destruct (0 <? s)
  | |- context [0 <=? ?s] => destruct (0 <=? s)
  end.

Lemma wrap64_id z : min_int64 <= z <= max_int64 -> wrap64 z = z.
Proof.
  unfold wrap64, min_int64, max_int64. intros H.
  rewrite Z.mod_small; lia.
Qed.

Lemma wrap64_range z : min_int64 <= wrap64 z <= max_int64.
Proof.
  unfold wrap64, min_int64, max_int64.
  pose proof (Z.mod_pos_bound (z + 2 ^ 63) (2 ^ 64) ltac:(lia)). lia.
Qed.

Lemma wrap64_add_l a b : wrap64 (wrap64 a + b) = wrap64 (a + b).
Proof.
  unfold wrap64.
  replace (((a + 2 ^ 63) mod 2 ^ 64 - 2 ^ 63) + b + 2 ^ 63)
    with ((a + 2 ^ 63) mod 2 ^ 64 + b) by lia.
  rewrite Zplus_mod_idemp_l. f_equal. f_equal. lia.
Qed.

Lemma ConfigFromEnv_DrainTimeout env :
  DrainTimeout (ConfigFromEnv env) =
  match strconv.Atoi (Getenv env "DRAIN_TIMEOUT_SECONDS") with
  | Some s => if 0 <? s then seconds_to_Duration s else 25 * Second
  | None => 25 * Second
  end.
Proof. unfold ConfigFromEnv. env_cases; reflexivity. Qed.

Lemma ConfigFromEnv_HardStopTimeout env :
  HardStopTimeout (ConfigFromEnv env) =
  match strconv.Atoi (Getenv env "HARD_STOP_TIMEOUT_SECONDS") with
  | Some s => if 0 <? s then seconds_to_Duration s else 5 * Second
  | None => 5 * Second
  end.
Proof. unfold ConfigFromEnv. env_cases; reflexivity. Qed.

Lemma ConfigFromEnv_LoadBalancerDelay env :
  LoadBalancerDelay (ConfigFromEnv env) =
  match strconv.Atoi (Getenv env "LOAD_BALANCER_DELAY_SECONDS") with
  | Some s => if 0 <=? s then seconds_to_Duration s else 1 * Second
  | None => 1 * Second
  end.
Proof. unfold ConfigFromEnv. env_cases; reflexivity. Qed.

Lemma ConfigFromEnv_EnableMetrics env :
  EnableMetrics (ConfigFromEnv env) =
  match strconv.ParseBool (Getenv env "ENABLE_METRICS") with
  | Some b => b
  | None => false
  end.
Proof. unfold ConfigFromEnv. env_cases; reflexivity. Qed.

(** C9: for each variable that is unset, or whose value [strconv.Atoi]
    (resp. [strconv.ParseBool]) rejects, [ConfigFromEnv] keeps the default:
    drain timeout 25s, hard-stop timeout 5s, load-balancer delay 1s, metrics
    off. A negative number of seconds leaves the default of the drain and
    hard-stop timeouts in place. Zero and every positive number of seconds
    is taken for the load-balancer delay, as the [int64] product with
    [time.Second]: exactly that many seconds whenever the product fits. *)
Theorem ConfigFromEnv_defaults (env : gmap string string) :
  let cfg := ConfigFromEnv env in
  let drain := Getenv env "DRAIN_TIMEOUT_SECONDS" in
  let hard := Getenv env "HARD_STOP_TIMEOUT_SECONDS" in
  let lb := Getenv env "LOAD_BALANCER_DELAY_SECONDS" in
  let em := Getenv env "ENABLE_METRICS" in
  (drain = ""%string \/ strconv.Atoi drain = None -> DrainTimeout cfg = 25 * Second)
  /\ (hard = ""%string \/ strconv.Atoi hard = None -> HardStopTimeout cfg = 5 * Second)
  /\ (lb = ""%string \/ strconv.Atoi lb = None -> LoadBalancerDelay cfg = 1 * Second)
  /\ (em = ""%string \/ strconv.ParseBool em = None -> EnableMetrics cfg = false)
  /\ (forall s, strconv.Atoi drain = Some s -> s < 0 -> DrainTimeout cfg = 25 * Second)
  /\ (forall s, strconv.Atoi hard = Some s -> s < 0 -> HardStopTimeout cfg = 5 * Second)
  /\ (forall s, strconv.Atoi lb = Some s -> 0 <= s ->
        LoadBalancerDelay cfg = seconds_to_Duration s
        /\ (s * Second <= max_int64 -> LoadBalancerDelay cfg = s * Second)).
Proof.
  intros cfg drain hard lb em. subst cfg.
  rewrite ConfigFromEnv_DrainTimeout, ConfigFromEnv_HardStopTimeout,
    ConfigFromEnv_LoadBalancerDelay, ConfigFromEnv_EnableMetrics.
  fold drain hard lb em.
  repeat split.
  - intros [-> | ->]; reflexivity.
  - intros [-> | ->]; reflexivity.
  - intros [-> | ->]; reflexivity.
  - intros [-> | ->]; reflexivity.
  - intros s -> Hs. destruct (Z.ltb_spec 0 s); [lia | reflexivity].
  - intros s -> Hs. destruct (Z.ltb_spec 0 s); [lia | reflexivity].
  - rewrite H. destruct (Z.leb_spec 0 s); [reflexivity | lia].
  - intros Hmax. rewrite H. destruct (Z.leb_spec 0 s); [|lia].
    unfold seconds_to_Duration. apply wrap64_id.
    unfold min_int64, Second in *. lia.
Qed.

(** The theorem at an environment with a word, a negative number, a zero
    and a non-boolean. *)
Lemma ConfigFromEnv_defaults_witness :
  DrainTimeout (ConfigFromEnv env_example) = 25 * Second
  /\ HardStopTimeout (ConfigFromEnv env_example) = 5 * Second
  /\ LoadBalancerDelay (ConfigFromEnv env_example) = 0
  /\ EnableMetrics (ConfigFromEnv env_example) = false.
Proof.
  destruct (ConfigFromEnv_defaults env_example) as (Hd & _ & _ & He & _ & Hh & Hl).
  split; [apply Hd; right; reflexivity|].
  split; [apply (Hh (-3)); [reflexivity | lia]|].
  split; [|apply He; right; reflexivity].
  destruct (Hl 0) as [_ H0]; [reflexivity | lia |].
  apply H0. unfold max_int64. lia.
Defined.

(** ** The in-flight counter *)

Lemma publishInflight_n g : inflight_n (publishInflight g) = inflight_n g.
Proof. unfold publishInflight, with_metrics. destruct (gmetrics g); reflexivity. Qed.

Lemma incInflight_n g : inflight_n (incInflight g) = wrap64 (inflight_n g + 1).
Proof. unfold incInflight. rewrite publishInflight_n. reflexivity. Qed.

Lemma decInflight_locked_n g : inflight_n (decInflight_locked g) = wrap64 (inflight_n g - 1).
Proof.
  unfold decInflight_locked. cbn.
  destruct (wrap64 (inflight_n g - 1) =? 0); reflexivity.
Qed.

Lemma decInflight_n g : inflight_n (decInflight g) = wrap64 (inflight_n g - 1).
Proof. unfold decInflight. rewrite publishInflight_n. apply decInflight_locked_n. Qed.

(** The counter after a run, as the wrapped difference of the calls. *)
Lemma run_ops_n ops : forall g,
  min_int64 <= inflight_n g <= max_int64 ->
  inflight_n (run_ops g ops)
  = wrap64 (inflight_n g + Z.of_nat (count_Begin ops) - Z.of_nat (count_End ops)).
Proof.
  unfold run_ops.
  induction ops as [|o ops IH]; intros g0 Hr; cbn [fold_left count_Begin count_End].
  - rewrite wrap64_id; cbn; lia.
  - destruct o; cbn [apply_op].
    + rewrite IH by (rewrite incInflight_n; apply wrap64_range).
      rewrite incInflight_n.
      replace (wrap64 (inflight_n g0 + 1) + Z.of_nat (count_Begin ops) - Z.of_nat (count_End ops))
        with (wrap64 (inflight_n g0 + 1) + (Z.of_nat (count_Begin ops) - Z.of_nat (count_End ops))) by lia.
      rewrite wrap64_add_l. f_equal. lia.
    + rewrite IH by (rewrite decInflight_n; apply wrap64_range).
      rewrite decInflight_n.
      replace (wrap64 (inflight_n g0 - 1) + Z.of_nat (count_Begin ops) - Z.of_nat (count_End ops))
        with (wrap64 (inflight_n g0 - 1) + (Z.of_nat (count_Begin ops) - Z.of_nat (count_End ops))) by lia.
      rewrite wrap64_add_l. f_equal. lia.
Qed.

Lemma count_Begin_take k ops : (count_Begin (take k ops) <= count_Begin ops)%nat.
Proof.
  revert k. induction ops as [|o ops IH]; intros [|k]; cbn; try lia.
  destruct o; cbn; specialize (IH k); lia.
Qed.

(** C3: from a counter at zero, after every prefix of a run of N Begin
    ([incInflight]) and N End ([decInflight]) calls in which no prefix holds
    more Ends than Begins, the in-flight counter is not negative, and after
    the whole run it is zero. N is a number of simultaneously open calls the
    [int64] counter can hold (N < 2^63). *)
Theorem inflight_never_negative (g0 : Graceful) (ops : list Op) :
  inflight_n g0 = 0 ->
  (forall k, (count_End (take k ops) <= count_Begin (take k ops))%nat) ->
  count_Begin ops = count_End ops ->
  Z.of_nat (count_Begin ops) <= max_int64 ->
  (forall k, 0 <= inflight_n (run_ops g0 (take k ops)))
  /\ inflight_n (run_ops g0 ops) = 0.
Proof.
  intros Hn Hpre Hbal Hmax. split.
  - intros k. rewrite run_ops_n, Hn by (rewrite Hn; unfold min_int64, max_int64; lia).
    pose proof (Hpre k). pose proof (count_Begin_take k ops).
    rewrite wrap64_id; unfold min_int64, max_int64 in *; lia.
  - rewrite run_ops_n, Hn, Hbal by (rewrite Hn; unfold min_int64, max_int64; lia).
    rewrite wrap64_id; unfold min_int64, max_int64; lia.
Qed.

(** The theorem at a run of three nested and overlapping calls. *)
Lemma inflight_never_negative_witness :
  (forall k, 0 <= inflight_n (run_ops (New None 0) (take k ops_example)))
  /\ inflight_n (run_ops (New None 0) ops_example) = 0.
Proof.
  apply (inflight_never_negative (New None 0) ops_example).
  - reflexivity.
  - intros k. do 7 (destruct k as [|k]; [cbn; lia|]). cbn. lia.
  - reflexivity.
  - unfold max_int64. cbn. lia.
Defined.

(** ** Waiting for the drain *)

(** C7: [waitForInflight] entered with a positive count and a deadline
    already in the past returns false in its first pass under the mutex: the
    coordinator is left as it was, so the goroutine was never put on the
    notify list of the condition variable. *)
Theorem waitForInflight_past_deadline (w : World) (tid : nat) (deadline : Z) :
  threads w !! tid = Some (TWaitForInflight deadline WEnter) ->
  0 < inflight_n (g w) ->
  deadline < now w ->
  waitForInflight_step (g w) (now w) tid deadline WEnter = Some (g w, WReturned false)
  /\ step w (EvStep tid)
     = Some (upd_thread tid (TWaitForInflight deadline (WReturned false)) w).
Proof.
  intros Ht Hn Hd.
  assert (E : waitForInflight_step (g w) (now w) tid deadline WEnter
              = Some (g w, WReturned false)).
  { unfold waitForInflight_step, waitForInflight_loop.
    destruct (Z.ltb_spec 0 (inflight_n (g w))); [|lia].
    destruct (Z.ltb_spec deadline (now w)); [reflexivity | lia]. }
  split; [exact E|].
  rewrite (step_EvStep _ _ _ Ht). cbn [step_thread]. rewrite E. reflexivity.
Qed.

(** The theorem with two requests in flight and a deadline one second ago. *)
Lemma waitForInflight_past_deadline_witness :
  step w_past (EvStep 0)
  = Some (upd_thread 0 (TWaitForInflight (4 * Second) (WReturned false)) w_past).
Proof.
  apply (waitForInflight_past_deadline w_past 0 (4 * Second)).
  - reflexivity.
  - reflexivity.
  - reflexivity.
Defined.

Lemma wait_pc_parked t timer :
  wait_pc t = Some (WParked timer) ->
  (exists dl, t = TWaitForInflight dl (WParked timer))
  \/ (exists e s dl, t = TCaller e (CBody (BInflight s dl (WParked timer)))).
Proof.
  destruct t as [e [| |b|]| |dl pc| |]; cbn; try discriminate.
  - destruct b; try discriminate. intros [= ->]. right. eauto.
  - intros [= ->]. left. eauto.
Qed.

(** A goroutine on the notify list cannot move. *)
Lemma parked_blocked w tw t timer :
  threads w !! tw = Some t -> wait_pc t = Some (WParked timer) ->
  tw ∈ inflight_cv (g w) ->
  step w (EvStep tw) = None.
Proof.
  intros Ht Hp Hin. rewrite (step_EvStep _ _ _ Ht).
  apply wait_pc_parked in Hp as [(dl & ->) | (e & s & dl & ->)];
    cbn [step_thread step_caller step_body waitForInflight_step];
    rewrite bool_decide_eq_true_2 by exact Hin; reflexivity.
Qed.

(** C4: a goroutine is parked in [cv.Wait()] inside [waitForInflight] and
    cannot move; the count is one and a request is about to run its deferred
    [decInflight]. The critical section of that [decInflight] brings the
    count to zero and, before the mutex is released and before anything
    else of [decInflight] runs, empties the notify list. Whatever time then
    passes, the woken goroutine's next move returns true. *)
Theorem decInflight_zero_wakes_waiter (w : World) (tr tw : nat) (kind : ReqKind)
    (k : nat) (t : Thread) (timer : Z) :
  threads w !! tr = Some (TRequest kind (S k) RReturn) ->
  threads w !! tw = Some t ->
  wait_pc t = Some (WParked timer) ->
  tw ∈ inflight_cv (g w) ->
  inflight_n (g w) = 1 ->
  step w (EvStep tw) = None
  /\ exists w1,
       step w (EvStep tr) = Some w1
       /\ inflight_n (g w1) = 0
       /\ inflight_cv (g w1) = []
       /\ threads w1 !! tr = Some (TRequest kind k RPublishDec)
       /\ forall d, 0 <= d ->
            exists w2 t2,
              run w1 [EvTick d; EvStep tw] = Some w2
              /\ threads w2 !! tw = Some t2
              /\ wait_pc t2 = Some (WReturned true).
Proof.
  intros Hr Ht Hp Hin Hn.
  split; [eapply parked_blocked; eauto|].
  assert (Hne : tr <> tw).
  { intros ->. rewrite Hr in Ht. simplify_eq. }
  pose proof (lookup_lt_Some _ _ _ Hr) as Hlr.
  pose proof (lookup_lt_Some _ _ _ Ht) as Hlw.
  exists (upd_thread tr (TRequest kind k RPublishDec) (set_g (decInflight_locked (g w)) w)).
  split.
  { rewrite (step_EvStep _ _ _ Hr). reflexivity. }
  cbn [g upd_thread set_threads set_g threads].
  assert (En : inflight_n (decInflight_locked (g w)) = 0).
  { unfold decInflight_locked. cbn. rewrite Hn. reflexivity. }
  assert (Ec : inflight_cv (decInflight_locked (g w)) = []).
  { unfold decInflight_locked. cbn. rewrite Hn. reflexivity. }
  split; [exact En|]. split; [exact Ec|].
  split; [apply list_lookup_insert_eq; exact Hlr|].
  intros d Hd.
  cbn [run]. rewrite step_EvTick by exact Hd.
  erewrite step_EvStep
    by (cbn [threads set_now set_threads upd_thread set_g];
        rewrite list_lookup_insert_ne by exact Hne; exact Ht).
  apply wait_pc_parked in Hp as [(dl & ->) | (e & s & dl & ->)];
    cbn [step_thread step_caller step_body waitForInflight_step g set_now now
         upd_thread set_g set_threads];
    rewrite Ec; rewrite bool_decide_eq_false_2 by (apply not_elem_of_nil);
    unfold waitForInflight_loop; rewrite En;
    cbn [Z.ltb Z.compare mbind option_bind];
    (eexists; eexists; split; [reflexivity|]);
    cbn [threads upd_thread set_threads set_g set_now];
    rewrite list_lookup_insert_eq by (rewrite length_insert; exact Hlw);
    split; reflexivity.
Qed.

(** The theorem in the timeout scenario, once the handler of the stream has
    finished. *)
Lemma decInflight_zero_wakes_waiter_witness :
  step (world_after cfg_timeout (evs_timeout ++ [EvStep 0])) (EvStep 1) = None
  /\ exists w1,
       step (world_after cfg_timeout (evs_timeout ++ [EvStep 0])) (EvStep 0) = Some w1
       /\ inflight_n (g w1) = 0
       /\ inflight_cv (g w1) = []
       /\ threads w1 !! 0%nat = Some (TRequest GRPCStream 0 RPublishDec)
       /\ forall d, 0 <= d ->
            exists w2 t2,
              run w1 [EvTick d; EvStep 1] = Some w2
              /\ threads w2 !! 1%nat = Some t2
              /\ wait_pc t2 = Some (WReturned true).
Proof.
  apply (decInflight_zero_wakes_waiter
           (world_after cfg_timeout (evs_timeout ++ [EvStep 0])) 0 1 GRPCStream 0
           (TCaller ViaShutdown (CBody (BInflight 0 50000000 (WParked 50000000))))
           50000000).
  - vm_compute. reflexivity.
  - vm_compute. reflexivity.
  - reflexivity.
  - vm_compute. constructor.
  - vm_compute. reflexivity.
Defined.

Lemma run_timeout :
  run (init (Some cfg_timeout) 0 net_example) evs_timeout
  = Some (world_after cfg_timeout evs_timeout).
Proof. vm_compute. reflexivity. Qed.

Lemma timeout_world_facts :
  let w := world_after cfg_timeout evs_timeout in
  now w = 0
  /\ inflight_n (g w) = 1
  /\ inflight_cv (g w) = [1%nat]
  /\ httpServers (g w) = [] /\ grpcServers (g w) = []
  /\ threads w !! 0%nat = Some (TRequest GRPCStream 1 (RServe (AppHandler 0)))
  /\ threads w !! 1%nat
     = Some (TCaller ViaShutdown
               (CBody (BInflight 0 (50 * Millisecond) (WParked (50 * Millisecond)))))
  /\ logged LogNotDrained (logger (g w)) = O.
Proof. vm_compute. repeat split; reflexivity. Qed.

(** C1, where the code departs from the claim. In the timeout scenario
    (drain timeout 50ms, one tracked stream that stays open) the caller of
    [Shutdown] enters [waitForInflight] before the deadline and is parked in
    [cv.Wait()] with a timer nothing listens to: however much time passes,
    far beyond the deadline, the stream still being in flight, the caller
    cannot move, [waitForInflight] does not return and "did not complete
    before deadline" is never logged. *)
Theorem waitForInflight_parks_past_deadline (ds : list nat) :
  exists w,
    run (init (Some cfg_timeout) 0 net_example) (evs_timeout ++ ticks ds) = Some w
    /\ now w = Z.of_nat (sum_nat ds)
    /\ inflight_n (g w) = 1
    /\ threads w !! 1%nat
       = Some (TCaller ViaShutdown
                 (CBody (BInflight 0 (50 * Millisecond) (WParked (50 * Millisecond)))))
    /\ step w (EvStep 1) = None
    /\ logged LogNotDrained (logger (g w)) = O.
Proof.
  destruct timeout_world_facts as (Hnow & Hn & Hcv & _ & _ & _ & Ht & Hlog).
  rewrite run_app, run_timeout, run_ticks. eexists. split; [reflexivity|].
  cbn [now g threads set_now].
  split; [rewrite Hnow; reflexivity|]. split; [exact Hn|]. split; [exact Ht|].
  split; [|exact Hlog].
  eapply parked_blocked.
  - exact Ht.
  - reflexivity.
  - cbn [g set_now]. rewrite Hcv. constructor.
Qed.

(** ** Wrapping and serving *)

(** C5, where the claim fails: the address of the server cannot be bound,
    yet [WrapHTTP] returns nil, has started the serving goroutine and has
    registered the server. *)
Lemma WrapHTTP_bind_failure_not_surfaced :
  net_Listen w_bad_address "tcp" "invalid:address" = inr (ErrListen "invalid:address")
  /\ exists w',
       WrapHTTP 0 w_bad_address = Some (w', None)
       /\ httpServers (g w') = [0%nat]
       /\ threads w' = [TServe (ListenAndServe 0) SvStart].
Proof.
  split; [reflexivity|]. eexists. split; [reflexivity|]. split; reflexivity.
Qed.

(** C5, amended: [ServeGRPC] binds the address itself; when that fails it
    returns the error at once, and neither starts nor registers anything
    (the world is unchanged). [WrapHTTP] leaves the binding to the goroutine
    it starts: it returns nil and registers the server whatever the
    address, and when the binding then fails the goroutine only logs the
    error, the server staying registered. *)
Theorem bind_failure_surfaced_by_ServeGRPC (w : World) (addr : string)
    (err : NetError) (server : nat) (srv : HttpServer) :
  net_Listen w "tcp" addr = inr err ->
  http w !! server = Some srv ->
  (* ServeGRPC binds before it returns *)
  ServeGRPC addr w = (w, (None, None, Some err))
  /\ step w (EvServeGRPC addr) = Some w
  (* WrapHTTP leaves binding to the goroutine it starts *)
  /\ exists w',
       WrapHTTP server w = Some (w', None)
       /\ httpServers (g w') = httpServers (g w) ++ [server]
       /\ threads w' = threads w ++ [TServe (ListenAndServe server) SvStart]
       /\ forall err',
            inShutdown srv = false ->
            net_Listen w "tcp" (if String.eqb (Addr srv) "" then ":http"%string
                                else Addr srv) = inr err' ->
            exists w'',
              step w' (EvStep (length (threads w))) = Some w''
              /\ logger (g w'')
                 = LogHTTPServerError :: LogHTTPStarting (Addr srv) :: logger (g w)
              /\ httpServers (g w'') = httpServers (g w) ++ [server]
              /\ threads w'' !! length (threads w)
                 = Some (TServe (ListenAndServe server) SvReturned).
Proof.
  intros Hl Hs.
  assert (E : ServeGRPC addr w = (w, (None, None, Some err))).
  { unfold ServeGRPC. rewrite Hl. reflexivity. }
  split; [exact E|]. split; [cbn [step]; rewrite E; reflexivity|].
  pose proof (lookup_lt_Some _ _ _ Hs) as Hlt.
  unfold WrapHTTP. rewrite Hs. cbn [mbind option_bind].
  eexists. split; [reflexivity|].
  split; [destruct (Handler srv); reflexivity|].
  split; [destruct (Handler srv); reflexivity|].
  intros err' Hsh Hbind.
  erewrite step_EvStep; cycle 1.
  { destruct (Handler srv); cbn; rewrite lookup_app_r by lia;
      rewrite Nat.sub_diag; reflexivity. }
  cbn [step_thread step_serve].
  destruct (Handler srv) as [h|] eqn:Eh; wsimpl.
  - rewrite list_lookup_insert_eq by exact Hlt. wsimpl.
    rewrite Hsh, Hbind. wsimpl.
    eexists. split; [reflexivity|]. wsimpl. cbn [logger httpServers Printf set_httpServers].
    split; [reflexivity|]. split; [reflexivity|].
    apply list_lookup_insert_eq. rewrite length_app. cbn. lia.
  - rewrite Hs. wsimpl. rewrite Hsh, Hbind. wsimpl.
    eexists. split; [reflexivity|]. wsimpl. cbn [logger httpServers Printf set_httpServers].
    split; [reflexivity|]. split; [reflexivity|].
    apply list_lookup_insert_eq. rewrite length_app. cbn. lia.
Qed.

(** The theorem at the address the example network refuses. *)
Lemma bind_failure_surfaced_by_ServeGRPC_witness :
  ServeGRPC "invalid:address" w_bad_address
  = (w_bad_address, (None, None, Some (ErrListen "invalid:address")))
  /\ step w_bad_address (EvServeGRPC "invalid:address") = Some w_bad_address
  /\ exists w',
       WrapHTTP 0 w_bad_address = Some (w', None)
       /\ httpServers (g w') = httpServers (g w_bad_address) ++ [0%nat]
       /\ threads w' = threads w_bad_address ++ [TServe (ListenAndServe 0) SvStart]
       /\ forall err',
            false = false ->
            net_Listen w_bad_address "tcp" "invalid:address" = inr err' ->
            exists w'',
              step w' (EvStep 0) = Some w''
              /\ logger (g w'')
                 = [LogHTTPServerError; LogHTTPStarting "invalid:address"]
              /\ httpServers (g w'') = [0%nat]
              /\ threads w'' !! 0%nat = Some (TServe (ListenAndServe 0) SvReturned).
Proof.
  apply (bind_failure_surfaced_by_ServeGRPC w_bad_address "invalid:address"
           (ErrListen "invalid:address") 0
           (mkHttpServer "invalid:address" (Some (AppHandler 1)) false)).
  - reflexivity.
  - reflexivity.
Defined.

(** A request outside the adapters leaves the coordinator alone. *)
Lemma untracked_step w0 tid kind pc w0' :
  threads w0 !! tid = Some (TRequest kind 0 pc) ->
  untracked pc = true ->
  step w0 (EvStep tid) = Some w0' ->
  g w0' = g w0
  /\ exists pc', threads w0' !! tid = Some (TRequest kind 0 pc') /\ untracked pc' = true.
Proof.
  intros Ht Hu Hs. rewrite (step_EvStep _ _ _ Ht) in Hs.
  pose proof (lookup_lt_Some _ _ _ Ht) as Hlt.
  cbn [step_thread] in Hs.
  destruct pc as [[| |]| | | | |]; try discriminate; cbn in Hs; simplify_eq; cbn;
    (split; [destruct w0 as [[] ? ? ? ? ?]; reflexivity|]);
    eexists; (split; [apply list_lookup_insert_eq; exact Hlt | reflexivity]).
Qed.

(** C10: [WrapHTTP] and [WrapHTTPWithListener] on a server whose Handler
    is nil leave the server object as it is (no tracking adapter), append
    it to [httpServers], and [gracefulShutdown] starts a stop goroutine for
    it. A request to that server is dispatched to the default mux, and no
    move of a request that is outside the adapters changes the coordinator:
    neither the in-flight counter nor any metric. *)
Theorem WrapHTTP_nil_handler_untracked (w : World) (server : nat) (srv : HttpServer) :
  http w !! server = Some srv ->
  Handler srv = None ->
  (* WrapHTTP: no adapter installed, server registered and stopped at shutdown *)
  (exists w1,
     WrapHTTP server w = Some (w1, None)
     /\ http w1 = http w
     /\ httpServers (g w1) = httpServers (g w) ++ [server]
     /\ step w1 (EvHTTPRequest server)
        = Some (spawn (TRequest HTTPRequest 0 (RServe DefaultServeMux)) w1)
     /\ forall self dl,
          TStop KindHTTP self server dl false ∈ gracefulShutdown_spawn self dl (g w1))
  (* WrapHTTPWithListener: the same *)
  /\ (forall l, exists w2,
        WrapHTTPWithListener server l w = Some (w2, None)
        /\ http w2 = http w
        /\ httpServers (g w2) = httpServers (g w) ++ [server]
        /\ step w2 (EvHTTPRequest server)
           = Some (spawn (TRequest HTTPRequest 0 (RServe DefaultServeMux)) w2)
        /\ forall self dl,
             TStop KindHTTP self server dl false ∈ gracefulShutdown_spawn self dl (g w2))
  (* a request outside the adapters never touches the coordinator *)
  /\ (forall w0 tid kind pc w0',
        threads w0 !! tid = Some (TRequest kind 0 pc) ->
        untracked pc = true ->
        step w0 (EvStep tid) = Some w0' ->
        g w0' = g w0
        /\ exists pc', threads w0' !! tid = Some (TRequest kind 0 pc')
                       /\ untracked pc' = true).
Proof.
  intros Hs Hn.
  assert (Hin : forall self dl l,
             TStop KindHTTP self server dl false
             ∈ map (fun s => TStop KindHTTP self s dl false) (l ++ [server])).
  { intros self dl l. apply list_elem_of_fmap. exists server. split; [reflexivity|].
    apply elem_of_app. right. constructor. }
  split; [|split].
  - unfold WrapHTTP. rewrite Hs. wsimpl. rewrite Hn. wsimpl.
    eexists. split; [reflexivity|]. wsimpl.
    split; [reflexivity|]. split; [reflexivity|].
    split.
    + cbn [step]. wsimpl. rewrite Hs. wsimpl. rewrite Hn. reflexivity.
    + intros self dl. unfold gracefulShutdown_spawn. apply elem_of_app. left.
      apply Hin.
  - intros l. unfold WrapHTTPWithListener. rewrite Hs. wsimpl. rewrite Hn. wsimpl.
    eexists. split; [reflexivity|]. wsimpl.
    split; [reflexivity|]. split; [reflexivity|].
    split.
    + cbn [step]. wsimpl. rewrite Hs. wsimpl. rewrite Hn. reflexivity.
    + intros self dl. unfold gracefulShutdown_spawn. apply elem_of_app. left.
      apply Hin.
  - apply untracked_step.
Qed.

(** The theorem at a server built without a handler. *)
Lemma WrapHTTP_nil_handler_untracked_witness :
  exists w1,
    WrapHTTP 0 w_nil_handler = Some (w1, None)
    /\ http w1 = http w_nil_handler
    /\ httpServers (g w1) = httpServers (g w_nil_handler) ++ [0%nat]
    /\ step w1 (EvHTTPRequest 0)
       = Some (spawn (TRequest HTTPRequest 0 (RServe DefaultServeMux)) w1)
    /\ forall self dl,
         TStop KindHTTP self 0 dl false ∈ gracefulShutdown_spawn self dl (g w1).
Proof.
  apply (WrapHTTP_nil_handler_untracked w_nil_handler 0 (mkHttpServer ":8080" None false)).
  - reflexivity.
  - reflexivity.
Defined.

(** ** Readiness *)

Lemma ready_with_metrics f g0 : ready (with_metrics f g0) = ready g0.
Proof. unfold with_metrics. destruct (gmetrics g0); reflexivity. Qed.

Lemma ready_publishInflight g0 : ready (publishInflight g0) = ready g0.
Proof. apply ready_with_metrics. Qed.

Lemma ready_decInflight_locked g0 : ready (decInflight_locked g0) = ready g0.
Proof. unfold decInflight_locked. cbn. case_match; reflexivity. Qed.

Lemma ready_waitForInflight_loop g0 t self dl :
  ready (fst (waitForInflight_loop g0 t self dl)) = ready g0.
Proof. unfold waitForInflight_loop. repeat case_match; reflexivity. Qed.

Lemma ready_waitForInflight_step g0 t self dl pc g1 pc1 :
  waitForInflight_step g0 t self dl pc = Some (g1, pc1) -> ready g1 = ready g0.
Proof.
  unfold waitForInflight_step. intros H.
  repeat case_match; simplify_eq;
  match goal with H : waitForInflight_loop _ _ _ _ = _ |- _ =>
    rewrite <- (ready_waitForInflight_loop g0 t self dl), H end; reflexivity.
Qed.

Lemma ready_step_request kind fr pc g0 g1 t1 :
  step_request kind fr pc g0 = Some (g1, t1) -> ready g1 = ready g0.
Proof.
  unfold step_request. intros H.
  repeat case_match; simplify_eq;
    rewrite ?ready_with_metrics, ?ready_publishInflight, ?ready_decInflight_locked; reflexivity.
Qed.

Lemma ready_step_serve call pc w w1 pc1 :
  step_serve call pc w = Some (w1, pc1) -> ready (g w1) = ready (g w).
Proof.
  unfold step_serve. intros H.
  inv_step H; reflexivity.
Qed.

Lemma ready_step_stop kind parent server dl gr w w1 t1 :
  step_stop kind parent server dl gr w = Some (w1, t1) -> ready (g w1) = ready (g w).
Proof.
  unfold step_stop. intros H.
  inv_step H; reflexivity.
Qed.

Lemma ready_step_body self b w w1 pc1 :
  step_body self b w = Some (w1, pc1) -> ready (g w) = false -> ready (g w1) = false.
Proof.
  unfold step_body. intros H Hr.
  destruct b; inv_step H; cbn;
    rewrite ?ready_with_metrics; try assumption; try reflexivity.
  all: try match goal with H : waitForInflight_step _ _ _ _ _ = Some _ |- _ =>
    apply ready_waitForInflight_step in H; cbn in H; congruence end.
  all: try match goal with H : waitForInflight_loop ?a ?b ?c ?d = _ |- _ =>
    pose proof (ready_waitForInflight_loop a b c d) as HH; rewrite H in HH; cbn in HH; congruence end.
  - unfold setReady. rewrite ready_with_metrics. reflexivity.
  - destruct ok; cbn; assumption.
Qed.

(** No event sets the flag once it is false. *)
Lemma step_ready w ev w' :
  step w ev = Some w' -> ready (g w) = false -> ready (g w') = false.
Proof.
  intros H Hr. destruct ev; cbn [step] in H.
  1-9: inv_step H; exact Hr.
  - unfold WrapHTTP in H. inv_step H; repeat case_match; exact Hr.
  - unfold WrapHTTPWithListener in H. inv_step H; repeat case_match; exact Hr.
  - unfold WrapGRPC in H. inv_step H. exact Hr.
  - unfold ServeGRPC, NewGRPCServer in H. inv_step H; repeat case_match; exact Hr.
  - destruct (threads w !! tid) as [t|] eqn:Ht; [|discriminate]. cbn in H.
    destruct t; try discriminate. destruct finished; try discriminate.
    destruct (step_stop kind parent server deadline graceful w) as [[w1 t1]|] eqn:Hs; [|discriminate].
    cbn in H. simplify_eq. cbn. apply ready_step_stop in Hs. congruence.
  - destruct (threads w !! tid) as [t|] eqn:Ht; [|discriminate]. cbn in H.
    destruct t as [e pc|kind fr pc|deadline pc|kind parent server deadline finished|call pc];
      cbn in H.
    + unfold step_caller in H. destruct pc; try discriminate.
      * destruct (stopOnce (g w)); simplify_eq; exact Hr.
      * destruct (step_body tid b w) as [[w1 pc1]|] eqn:Hb; [|discriminate].
        cbn in H. simplify_eq. cbn. eapply ready_step_body; eauto.
    + destruct (step_request kind fr pc (g w)) as [[g1 t1]|] eqn:Hq; [|discriminate].
      cbn in H. simplify_eq. cbn. apply ready_step_request in Hq. congruence.
    + destruct (waitForInflight_step (g w) (now w) tid deadline pc) as [[g1 pc1]|] eqn:Hq; [|discriminate].
      cbn in H. simplify_eq. cbn. apply ready_waitForInflight_step in Hq. congruence.
    + discriminate.
    + destruct (step_serve call pc w) as [[w1 pc1]|] eqn:Hq; [|discriminate].
      cbn in H. simplify_eq. cbn. apply ready_step_serve in Hq. congruence.
Qed.

(** C6: [New] sets the readiness flag; from any state the process can reach
    in which the flag is false, whatever the library does next (requests,
    wrap and serve calls, further shutdown triggers, time passing), [Ready]
    keeps returning false. *)
Theorem ready_never_restored (cfg : option Config) (t0 : Z)
    (net : string -> string -> Listener + NetError) (evs1 evs2 : list Event)
    (w1 w2 : World) :
  run (init cfg t0 net) evs1 = Some w1 ->
  Ready (g w1) = false ->
  run w1 evs2 = Some w2 ->
  Ready (New cfg t0) = true /\ Ready (g w2) = false.
Proof.
  intros _ Hr Hrun. split; [reflexivity|].
  revert Hr Hrun. unfold Ready.
  apply (run_invariant (fun w => ready (g w) = false)).
  intros w ev w' Hw Hs. eapply step_ready; eauto.
Qed.

(** The theorem after a completed shutdown followed by more activity. *)
Lemma ready_never_restored_witness :
  Ready (New (Some cfg_quick) 0) = true
  /\ Ready (g (world_after cfg_quick (evs_three_callers ++ evs_afterwards))) = false.
Proof.
  apply (ready_never_restored (Some cfg_quick) 0 net_example
           evs_three_callers evs_afterwards
           (world_after cfg_quick evs_three_callers)).
  - vm_compute. reflexivity.
  - vm_compute. reflexivity.
  - vm_compute. reflexivity.
Defined.

(** ** The one-time guard *)

Lemma untouched_refl w : untouched w w.
Proof. repeat split; auto. Qed.

Lemma untouched_trans w1 w2 w3 : untouched w1 w2 -> untouched w2 w3 -> untouched w1 w3.
Proof.
  intros (A1 & B1 & C1) (A2 & B2 & C2). repeat split.
  - congruence.
  - intros m. rewrite B2. apply B1.
  - intros i t Ht Hp. apply C1; auto.
Qed.

Lemma same_view_refl g1 : same_view g1 g1.
Proof. split; auto. Qed.

Lemma same_view_trans g1 g2 g3 : same_view g1 g2 -> same_view g2 g3 -> same_view g1 g3.
Proof. intros [A B] [C D]. split; [congruence | intros m; rewrite D; apply B]. Qed.

Lemma same_view_with_metrics f g1 :
  (forall m, shutdownsTotal (f m) = shutdownsTotal m
             /\ shutdownDuration (f m) = shutdownDuration m) ->
  same_view g1 (with_metrics f g1).
Proof.
  intros Hf. unfold same_view, with_metrics, shutdown_view, view_at.
  destruct (gmetrics g1) as [m|] eqn:E; cbn; rewrite ?E; cbn; [|split; reflexivity].
  destruct (Hf m) as [-> ->]. split; reflexivity.
Qed.

Lemma same_view_publishInflight g1 : same_view g1 (publishInflight g1).
Proof. apply same_view_with_metrics. intros m. split; reflexivity. Qed.

Lemma same_view_Printf x g1 :
  LogMsg_eqb LogNotReady x = false -> LogMsg_eqb LogShutdownCompleted x = false ->
  same_view g1 (Printf x g1).
Proof.
  intros H1 H2. unfold same_view, shutdown_view, view_at, Printf.
  cbn [logger stopOnce ready gmetrics logged]. rewrite H1, H2.
  split; reflexivity.
Qed.

Lemma same_view_set_inflight_n n g1 : same_view g1 (set_inflight_n n g1).
Proof. split; reflexivity. Qed.

Lemma same_view_set_inflight_cv l g1 : same_view g1 (set_inflight_cv l g1).
Proof. split; reflexivity. Qed.

Lemma same_view_set_httpServers l g1 : same_view g1 (set_httpServers l g1).
Proof. split; reflexivity. Qed.

Lemma same_view_set_grpcServers l g1 : same_view g1 (set_grpcServers l g1).
Proof. split; reflexivity. Qed.

Lemma same_view_set_listeners l g1 : same_view g1 (set_listeners l g1).
Proof. split; reflexivity. Qed.

Lemma same_view_incInflight_locked g1 : same_view g1 (incInflight_locked g1).
Proof. apply same_view_set_inflight_n. Qed.

Lemma same_view_decInflight_locked g1 : same_view g1 (decInflight_locked g1).
Proof.
  unfold decInflight_locked. cbn. case_match; split; reflexivity.
Qed.

Lemma same_view_waitForInflight_loop g1 t self dl :
  same_view g1 (fst (waitForInflight_loop g1 t self dl)).
Proof. unfold waitForInflight_loop. repeat case_match; split; reflexivity. Qed.

Lemma same_view_waitForInflight_step g1 t self dl pc g2 pc2 :
  waitForInflight_step g1 t self dl pc = Some (g2, pc2) -> same_view g1 g2.
Proof.
  unfold waitForInflight_step. intros H.
  pose proof (same_view_waitForInflight_loop g1 t self dl) as L.
  destruct pc; [| case_match |]; simplify_eq; rewrite H in L; exact L.
Qed.

Lemma same_view_step_request kind fr pc g1 g2 t2 :
  step_request kind fr pc g1 = Some (g2, t2) ->
  same_view g1 g2 /\ past_guard t2 = false.
Proof.
  unfold step_request. intros H.
  destruct pc as [h| | | | |]; [destruct h| | |destruct fr| |]; simplify_eq;
    (split; [|reflexivity]);
    auto using same_view_refl, same_view_publishInflight,
      same_view_incInflight_locked, same_view_decInflight_locked.
  apply same_view_with_metrics. intros m. destruct kind; split; reflexivity.
Qed.

Lemma untouched_set_g w g' : same_view (g w) g' -> untouched w (set_g g' w).
Proof. intros [A B]. repeat split; auto. Qed.

Lemma untouched_with_g w f : same_view (g w) (f (g w)) -> untouched w (with_g f w).
Proof. apply untouched_set_g. Qed.

Lemma untouched_set_now w t : untouched w (set_now t w).
Proof. repeat split; auto. Qed.

Lemma untouched_set_http w l : untouched w (set_http l w).
Proof. repeat split; auto. Qed.

Lemma untouched_set_grpc w l : untouched w (set_grpc l w).
Proof. repeat split; auto. Qed.

Lemma untouched_append w ts :
  Forall (fun t => past_guard t = false) ts ->
  untouched w (set_threads (threads w ++ ts) w).
Proof.
  intros Hts. repeat split; auto. cbn. intros i t Hi Hp.
  apply lookup_app_Some in Hi as [Hi | [_ Hi]]; [exact Hi|].
  apply list_elem_of_lookup_2 in Hi.
  rewrite Forall_forall in Hts. apply Hts in Hi. congruence.
Qed.

Lemma untouched_spawn w t : past_guard t = false -> untouched w (spawn t w).
Proof. intros Ht. apply untouched_append. repeat constructor. exact Ht. Qed.

Lemma untouched_upd w tid t : past_guard t = false -> untouched w (upd_thread tid t w).
Proof.
  intros Ht. repeat split; auto. cbn. intros i x Hi Hp.
  apply list_lookup_insert_Some in Hi as [(-> & <- & _) | [_ Hi]]; [congruence | exact Hi].
Qed.

Ltac untouched_tac :=
  repeat first
    [ apply untouched_refl
    | eapply untouched_trans; [| first
        [ apply untouched_upd; reflexivity
        | apply untouched_spawn; reflexivity
        | apply untouched_set_now | apply untouched_set_http | apply untouched_set_grpc
        | apply untouched_with_g; first
            [ apply same_view_Printf; reflexivity
            | apply same_view_set_httpServers | apply same_view_set_grpcServers
            | apply same_view_set_listeners ] ] ] ].

Lemma untouched_step_serve call pc w w1 pc1 :
  step_serve call pc w = Some (w1, pc1) -> untouched w w1.
Proof.
  unfold step_serve. intros H. inv_step H; untouched_tac.
Qed.

Lemma untouched_step_stop kind parent server dl gr w w1 t1 :
  step_stop kind parent server dl gr w = Some (w1, t1) ->
  untouched w w1 /\ past_guard t1 = false.
Proof.
  unfold step_stop. intros H. destruct gr; inv_step H; (split; [|reflexivity]); untouched_tac.
Qed.

Lemma untouched_WrapHTTP server w w1 r :
  WrapHTTP server w = Some (w1, r) -> untouched w w1.
Proof.
  unfold WrapHTTP. intros H. inv_step H; repeat case_match; untouched_tac.
Qed.

Lemma untouched_WrapHTTPWithListener server l w w1 r :
  WrapHTTPWithListener server l w = Some (w1, r) -> untouched w w1.
Proof.
  unfold WrapHTTPWithListener. intros H. inv_step H; repeat case_match; untouched_tac.
Qed.

Lemma untouched_WrapGRPC server l w w1 r :
  WrapGRPC server l w = Some (w1, r) -> untouched w w1.
Proof.
  unfold WrapGRPC. intros H. inv_step H; untouched_tac.
Qed.

Lemma untouched_ServeGRPC addr w : untouched w (fst (ServeGRPC addr w)).
Proof.
  unfold ServeGRPC, NewGRPCServer. case_match; cbn; untouched_tac.
Qed.

(** Every event other than a move of a caller of [shutdown] leaves the guard alone. *)
Lemma untouched_step w ev w' :
  step w ev = Some w' ->
  (forall tid e pc, ev = EvStep tid -> threads w !! tid = Some (TCaller e pc) -> False) ->
  untouched w w'.
Proof.
  intros H Hnc. destruct ev; cbn [step] in H.
  - inv_step H. untouched_tac.
  - destruct e; simplify_eq; untouched_tac.
  - destruct src as [|sig]; [|destruct sig]; inv_step H; untouched_tac.
  - inv_step H. untouched_tac.
  - inv_step H; untouched_tac.
  - inv_step H. untouched_tac.
  - inv_step H. untouched_tac.
  - inv_step H. untouched_tac.
  - inv_step H. unfold NewGRPCServer. cbn. untouched_tac.
  - destruct (WrapHTTP server w) as [[w1 r]|] eqn:E; cbn in H; simplify_eq.
    eapply untouched_WrapHTTP; eauto.
  - destruct (WrapHTTPWithListener server l w) as [[w1 r]|] eqn:E; cbn in H; simplify_eq.
    eapply untouched_WrapHTTPWithListener; eauto.
  - destruct (WrapGRPC server l w) as [[w1 r]|] eqn:E; cbn in H; simplify_eq.
    eapply untouched_WrapGRPC; eauto.
  - simplify_eq. apply untouched_ServeGRPC.
  - destruct (threads w !! tid) as [t|] eqn:Ht; [|discriminate]. cbn in H.
    destruct t; try discriminate. destruct finished; try discriminate.
    destruct (step_stop kind parent server deadline graceful w) as [[w1 t1]|] eqn:Hs;
      [|discriminate].
    cbn in H. simplify_eq. apply untouched_step_stop in Hs as [Hs Hp].
    eapply untouched_trans; [exact Hs|]. apply untouched_upd. exact Hp.
  - destruct (threads w !! tid) as [t|] eqn:Ht; [|discriminate]. cbn in H.
    destruct t as [e pc|kind fr pc|deadline pc|kind parent server deadline finished|call pc];
      cbn [step_thread] in H.
    + exfalso. eapply Hnc; eauto.
    + destruct (step_request kind fr pc (g w)) as [[g1 t1]|] eqn:Hq; [|discriminate].
      cbn in H. simplify_eq. apply same_view_step_request in Hq as [Hq Hp].
      eapply untouched_trans; [apply untouched_set_g; exact Hq|]. apply untouched_upd. exact Hp.
    + destruct (waitForInflight_step (g w) (now w) tid deadline pc) as [[g1 pc1]|] eqn:Hq;
        [|discriminate].
      cbn in H. simplify_eq. apply same_view_waitForInflight_step in Hq.
      eapply untouched_trans; [apply untouched_set_g; exact Hq|]. apply untouched_upd. reflexivity.
    + discriminate.
    + destruct (step_serve call pc w) as [[w1 pc1]|] eqn:Hq; [|discriminate].
      cbn in H. simplify_eq. apply untouched_step_serve in Hq.
      eapply untouched_trans; [exact Hq|]. apply untouched_upd. reflexivity.
Qed.

Lemma guarded_untouched w w' : guarded w -> untouched w w' -> guarded w'.
Proof.
  intros (k & Hv & H2 & H3 & H4) (A & B & C). exists k. repeat split.
  - rewrite A, B. exact Hv.
  - intros tid e b Ht. eapply H2. apply C; [exact Ht | reflexivity].
  - intros i j e1 e2 b1 b2 Hi Hj. eapply H3; apply C; eauto.
  - intros tid e Ht. eapply H4. apply C; [exact Ht | reflexivity].
Qed.

Lemma view_same k g1 g2 :
  same_view g1 g2 -> shutdown_view g1 = view_at k g1 -> shutdown_view g2 = view_at k g2.
Proof. intros [A B] H. rewrite A, B. exact H. Qed.

Ltac view_tac :=
  match goal with
  | g0 : Graceful |- _ =>
      destruct g0 as [? ? ? ? ? ? ? ? ? ? [m|]];
      unfold shutdown_view, view_at, with_metrics, setReady, Printf in *;
      cbn in *; simplify_eq; cbn; congruence
  end.

(** What one statement of the function does to the guarded view. *)
Lemma step_body_guard self b w w1 pc1 :
  step_body self b w = Some (w1, pc1) ->
  shutdown_view (g w) = view_at (progress b) (g w) ->
  exists k',
    match pc1 with CBody b' => k' = progress b' | CReturned => k' = 5%nat | _ => False end
    /\ shutdown_view (g w1) = view_at k' (g w1)
    /\ (forall i t, threads w1 !! i = Some t -> past_guard t = true ->
                    threads w !! i = Some t)
    /\ (length (threads w) <= length (threads w1))%nat.
Proof.
  intros H Hv. destruct w as [g0 t0 ts hs gs nl]. cbn in Hv.
  destruct b; cbn in H.
  - simplify_eq. exists 2%nat. cbn. repeat split; auto. view_tac.
  - simplify_eq. exists 3%nat. cbn. repeat split; auto. view_tac.
  - case_match; simplify_eq; exists 3%nat; cbn; repeat split; auto.
  - case_match; simplify_eq; exists 3%nat; cbn; repeat split; auto.
  - simplify_eq. exists 3%nat. cbn. repeat split; auto.
    + intros i t Hi Hp. apply lookup_app_Some in Hi as [Hi | [_ Hi]]; [exact Hi|].
      apply list_elem_of_lookup_2 in Hi. unfold gracefulShutdown_spawn in Hi.
      apply elem_of_app in Hi as [Hi | Hi]; apply list_elem_of_fmap in Hi as (? & -> & _);
        discriminate.
    + rewrite length_app. lia.
  - case_match; simplify_eq; exists 3%nat; cbn; repeat split; auto.
  - destruct pc as [|timer|ok].
    + cbn in H.
      destruct (waitForInflight_loop g0 t0 self drainDeadline) as [g1 pc'] eqn:E.
      cbn in H. simplify_eq. exists 3%nat. cbn. repeat split; auto.
      pose proof (same_view_waitForInflight_loop g0 t0 self drainDeadline) as S.
      rewrite E in S. eapply view_same; eauto.
    + cbn in H. case_match; [discriminate|].
      destruct (waitForInflight_loop g0 t0 self drainDeadline) as [g1 pc'] eqn:E.
      cbn in H. simplify_eq. exists 3%nat. cbn. repeat split; auto.
      pose proof (same_view_waitForInflight_loop g0 t0 self drainDeadline) as S.
      rewrite E in S. eapply view_same; eauto.
    + simplify_eq. exists 3%nat. destruct ok; cbn; repeat split; auto.
  - case_match; simplify_eq; exists 3%nat; cbn; repeat split; auto.
  - case_match; simplify_eq; exists 3%nat; cbn; repeat split; auto.
  - simplify_eq. exists 4%nat. cbn. repeat split; auto. view_tac.
  - simplify_eq. exists 5%nat. cbn. repeat split; auto. view_tac.
Qed.

Lemma view_once k g0 :
  shutdown_view g0 = view_at k g0 ->
  stopOnce g0 = (if (k =? 0)%nat then OnceNew
                 else if (5 <=? k)%nat then OnceDone else OnceRunning).
Proof. unfold shutdown_view, view_at. intros H. congruence. Qed.

Lemma progress_bounds b : (1 <= progress b <= 4)%nat.
Proof. destruct b; cbn; lia. Qed.

Lemma view_at_done k g0 : (5 <= k)%nat -> view_at k g0 = view_at 5 g0.
Proof.
  intros H. unfold view_at.
  destruct k as [|[|[|[|[|k]]]]]; try lia. reflexivity.
Qed.

(** A move of a caller of [shutdown] keeps the guard. *)
Lemma guarded_step_caller w tid e pc w' :
  guarded w ->
  threads w !! tid = Some (TCaller e pc) ->
  step_caller tid e pc w = Some w' ->
  guarded w'.
Proof.
  intros (k & Hv & H2 & H3 & H4) Ht H.
  pose proof (lookup_lt_Some _ _ _ Ht) as Hlt.
  unfold step_caller in H. destruct pc as [| |b|]; try discriminate.
  - pose proof (view_once _ _ Hv) as Ho.
    destruct (stopOnce (g w)) eqn:Eo; try discriminate; simplify_eq.
    + (* first caller: enters the function *)
      assert (k = 0%nat) as ->.
      { destruct (k =? 0)%nat eqn:E; [apply Nat.eqb_eq in E; exact E|].
        destruct (5 <=? k)%nat; discriminate. }
      exists 1%nat. cbn [threads upd_thread set_threads with_g set_g g]. repeat split.
      * unfold shutdown_view, view_at in *. cbn in *. congruence.
      * intros i e' b Hi.
        apply list_lookup_insert_Some in Hi as [(-> & Hi & _) | [_ Hi]].
        -- simplify_eq. reflexivity.
        -- apply H2 in Hi. pose proof (progress_bounds b). lia.
      * intros i j e1 e2 b1 b2 Hi Hj.
        apply list_lookup_insert_Some in Hi as [(-> & Hi & _) | [_ Hi]];
        apply list_lookup_insert_Some in Hj as [(-> & Hj & _) | [_ Hj]]; auto.
        -- apply H2 in Hj. pose proof (progress_bounds b2). lia.
        -- apply H2 in Hi. pose proof (progress_bounds b1). lia.
        -- apply H2 in Hi. pose proof (progress_bounds b1). lia.
      * intros i e' Hi.
        apply list_lookup_insert_Some in Hi as [(-> & Hi & _) | [_ Hi]]; [discriminate|].
        apply H4 in Hi. discriminate.
    + (* later caller: the function has returned *)
      assert (5 <= k)%nat as Hk.
      { destruct (k =? 0)%nat; [discriminate|].
        destruct (5 <=? k)%nat eqn:E; [apply Nat.leb_le in E; exact E | discriminate]. }
      exists 5%nat. cbn [threads upd_thread set_threads g]. repeat split.
      * rewrite Hv. apply view_at_done. exact Hk.
      * intros i e' b Hi.
        apply list_lookup_insert_Some in Hi as [(-> & Hi & _) | [_ Hi]]; [discriminate|].
        apply H2 in Hi. pose proof (progress_bounds b). lia.
      * intros i j e1 e2 b1 b2 Hi Hj.
        apply list_lookup_insert_Some in Hi as [(-> & Hi & _) | [_ Hi]]; [discriminate|].
        apply H2 in Hi. pose proof (progress_bounds b1). lia.
  - (* the caller that runs the function *)
    destruct (step_body tid b w) as [[w1 pc1]|] eqn:Hb; [|discriminate].
    cbn in H. simplify_eq.
    pose proof (H2 _ _ _ Ht) as ->.
    destruct (step_body_guard _ _ _ _ _ Hb Hv) as (k' & Hpc & Hv' & Hfr & Hlen).
    assert (Hother : forall i t, i <> tid -> threads w1 !! i = Some t ->
                                 past_guard t = true -> False).
    { intros i t Hne Hi Hp. apply Hfr in Hi; [|exact Hp].
      destruct t as [e' pc'| | | |]; try discriminate.
      destruct pc' as [| |b'|]; try discriminate.
      - apply Hne. eapply H3; eauto.
      - apply H4 in Hi. pose proof (progress_bounds b). lia. }
    exists k'. cbn [threads upd_thread set_threads g]. repeat split.
    + exact Hv'.
    + intros i e' b' Hi.
      apply list_lookup_insert_Some in Hi as [(-> & Hi & _) | [Hne Hi]].
      * simplify_eq; first [reflexivity | assumption].
      * exfalso. eapply Hother; eauto.
    + intros i j e1 e2 b1 b2 Hi Hj.
      apply list_lookup_insert_Some in Hi as [(-> & Hi & _) | [Hne Hi]];
      apply list_lookup_insert_Some in Hj as [(-> & Hj & _) | [Hne' Hj]]; auto;
        exfalso; eapply Hother; eauto.
    + intros i e' Hi.
      apply list_lookup_insert_Some in Hi as [(-> & Hi & _) | [Hne Hi]].
      * simplify_eq; first [reflexivity | assumption].
      * exfalso. eapply Hother; eauto.
Qed.

Lemma guarded_step w ev w' : guarded w -> step w ev = Some w' -> guarded w'.
Proof.
  intros Hg H.
  assert (Hcases : (exists tid e pc, ev = EvStep tid /\ threads w !! tid = Some (TCaller e pc))
                   \/ (forall tid e pc, ev = EvStep tid ->
                                        threads w !! tid = Some (TCaller e pc) -> False)).
  { destruct ev; try (right; intros; discriminate).
    destruct (threads w !! tid) as [[e pc| | | |]|] eqn:Ht;
      try (right; intros ? ? ? [= <-] ?; congruence).
    left. eauto. }
  destruct Hcases as [(tid & e & pc & -> & Ht) | Hn].
  - cbn in H. rewrite Ht in H. cbn in H. eapply guarded_step_caller; eauto.
  - eapply guarded_untouched; [exact Hg|]. eapply untouched_step; eauto.
Qed.

Lemma guarded_init cfg t0 net : guarded (init cfg t0 net).
Proof.
  exists 0%nat. repeat split; try (intros; discriminate).
  unfold init, New, shutdown_view, view_at. cbn.
  destruct (EnableMetrics _); reflexivity.
Qed.

Lemma guarded_run cfg t0 net evs w :
  run (init cfg t0 net) evs = Some w -> guarded w.
Proof. apply run_invariant; [apply guarded_step | apply guarded_init]. Qed.

Lemma view_facts k g0 :
  shutdown_view g0 = view_at k g0 ->
  stopOnce g0 = (if (k =? 0)%nat then OnceNew
                 else if (5 <=? k)%nat then OnceDone else OnceRunning)
  /\ ready g0 = (k <? 3)%nat
  /\ logged LogNotReady (logger g0) = (if (3 <=? k)%nat then 1%nat else O)
  /\ logged LogShutdownCompleted (logger g0) = (if (5 <=? k)%nat then 1%nat else O)
  /\ forall m, gmetrics g0 = Some m ->
       shutdownsTotal m = (if (2 <=? k)%nat then 1%nat else O)
       /\ length (shutdownDuration m) = (if (4 <=? k)%nat then 1%nat else O).
Proof.
  unfold shutdown_view, view_at. intros H.
  injection H as H1 H2 H3 H4 H5.
  split; [exact H1|]. split; [exact H2|]. split; [exact H4|]. split; [exact H5|].
  intros m E. rewrite E in H3. cbn in H3. injection H3 as -> ->. split; reflexivity.
Qed.

(** C2: in every state the process can reach, whatever the number, the
    entry points ([Shutdown], [Wait]) and the interleaving of the
    invocations of [shutdown]: the function handed to [stopOnce.Do] has
    started and completed at most once (its first and last log lines, the
    shutdown counter and the duration observations, published when metrics
    are enabled, are each at most one), and at most one goroutine is inside
    it; as soon as any invocation has returned, each of them is exactly
    one; an invocation that arrives at the guard while the function runs
    cannot move, and one that arrives after it has run returns and changes
    nothing but its own program counter. *)
Theorem shutdown_runs_once (cfg : option Config) (t0 : Z)
    (net : string -> string -> Listener + NetError) (evs : list Event) (w : World) :
  run (init cfg t0 net) evs = Some w ->
  (* the function starts and completes at most once *)
  (logged LogNotReady (logger (g w)) <= 1)%nat
  /\ (logged LogShutdownCompleted (logger (g w)) <= 1)%nat
  /\ (forall m, gmetrics (g w) = Some m ->
        (shutdownsTotal m <= 1)%nat /\ (length (shutdownDuration m) <= 1)%nat)
  (* at most one goroutine is inside the function *)
  /\ (forall i j e1 e2 b1 b2,
        threads w !! i = Some (TCaller e1 (CBody b1)) ->
        threads w !! j = Some (TCaller e2 (CBody b2)) -> i = j)
  (* as soon as any invocation has returned it has run exactly once *)
  /\ (forall tid e,
        threads w !! tid = Some (TCaller e CReturned) ->
        stopOnce (g w) = OnceDone
        /\ Ready (g w) = false
        /\ logged LogNotReady (logger (g w)) = 1%nat
        /\ logged LogShutdownCompleted (logger (g w)) = 1%nat
        /\ forall m, gmetrics (g w) = Some m ->
             shutdownsTotal m = 1%nat /\ length (shutdownDuration m) = 1%nat)
  (* an invocation arriving at the guard: runs the function, blocks while
     it is running, returns with nothing changed once it has run *)
  /\ (forall tid e,
        threads w !! tid = Some (TCaller e COnceDo) ->
        match stopOnce (g w) with
        | OnceNew =>
            step w (EvStep tid)
            = Some (upd_thread tid (TCaller e (CBody BStart))
                               (with_g (set_stopOnce OnceRunning) w))
        | OnceRunning => step w (EvStep tid) = None
        | OnceDone => step w (EvStep tid) = Some (upd_thread tid (TCaller e CReturned) w)
        end).
Proof.
  intros Hrun. destruct (guarded_run _ _ _ _ _ Hrun) as (k & Hv & H2 & H3 & H4).
  destruct (view_facts _ _ Hv) as (Ho & Hr & Hn & Hc & Hm).
  split; [rewrite Hn; destruct (3 <=? k)%nat; lia|].
  split; [rewrite Hc; destruct (5 <=? k)%nat; lia|].
  split.
  { intros m Em. destruct (Hm m Em) as [-> ->].
    split; [destruct (2 <=? k)%nat | destruct (4 <=? k)%nat]; lia. }
  split; [exact H3|].
  split.
  { intros tid e Ht. apply H4 in Ht as ->. unfold Ready.
    split; [exact Ho|]. split; [exact Hr|]. split; [exact Hn|]. split; [exact Hc|].
    exact Hm. }
  intros tid e Ht. rewrite (step_EvStep _ _ _ Ht). cbn [step_thread step_caller].
  destruct (stopOnce (g w)); reflexivity.
Qed.

(** The theorem after three invocations, of which [Wait] ran the function. *)
Lemma shutdown_runs_once_witness :
  let w := world_after cfg_quick evs_three_callers in
  threads w = [TCaller ViaShutdown CReturned; TCaller ViaWait CReturned;
               TCaller ViaShutdown CReturned]
  /\ stopOnce (g w) = OnceDone
  /\ Ready (g w) = false
  /\ logged LogNotReady (logger (g w)) = 1%nat
  /\ logged LogShutdownCompleted (logger (g w)) = 1%nat
  /\ forall m, gmetrics (g w) = Some m ->
       shutdownsTotal m = 1%nat /\ length (shutdownDuration m) = 1%nat.
Proof.
  intros w. split; [vm_compute; reflexivity|].
  assert (Hrun : run (init (Some cfg_quick) 0 net_example) evs_three_callers = Some w)
    by (vm_compute; reflexivity).
  destruct (shutdown_runs_once (Some cfg_quick) 0 net_example evs_three_callers w Hrun)
    as (_ & _ & _ & _ & Hret & _).
  apply (Hret 2%nat ViaShutdown). vm_compute. reflexivity.
Defined.

(** The statements of the function run in program order. *)
Lemma step_body_rank self b w0 w1 b' :
  step_body self b w0 = Some (w1, CBody b') ->
  (rank b <= rank b')%nat /\ (rank b = rank b' -> rank b = 6%nat).
Proof.
  intros H. destruct b; cbn in H; inv_step H; cbn; lia.
Qed.

(** C8, where the claim fails: after the first statement of the function
    the shutdown counter is already 1, while readiness is still true, the
    flip is not logged and no phase of the drain has begun. *)
Lemma shutdown_count_incremented_before_flip :
  let w := world_after cfg_quick evs_first_statement in
  run (init (Some cfg_quick) 0 net_example) evs_first_statement = Some w
  /\ threads w = [TCaller ViaShutdown (CBody (BSetReady 0))]
  /\ shutdownsTotal <$> gmetrics (g w) = Some 1%nat
  /\ shutdownDuration <$> gmetrics (g w) = Some []
  /\ Ready (g w) = true
  /\ logged LogNotReady (logger (g w)) = O.
Proof. vm_compute. repeat split; reflexivity. Qed.

(** C8, amended. With metrics enabled, in every state the process can
    reach: the shutdown counter is incremented by the first statement of
    the function, so it is 0 only while the function has not been entered
    or stands at that statement, and it is 1 while readiness is still true
    before the flip (the second statement); the duration is observed by
    the statement that follows the hard-stop sleep, so no observation
    exists while the function stands at the flip, the load-balancer sleep,
    the per-server stop phase, the in-flight wait or the hard-stop sleep,
    and exactly one exists, equal to now - start, before the completion
    line is logged and the guard is marked done. *)
Theorem shutdown_metrics_order (cfg : option Config) (t0 : Z)
    (net : string -> string -> Listener + NetError) (evs : list Event) (w : World)
    (m : metrics) :
  run (init cfg t0 net) evs = Some w ->
  gmetrics (g w) = Some m ->
  (* before the function is entered *)
  (stopOnce (g w) = OnceNew ->
     shutdownsTotal m = O /\ length (shutdownDuration m) = O /\ Ready (g w) = true)
  (* while a goroutine is at statement [b] of the function *)
  /\ (forall tid e b,
        threads w !! tid = Some (TCaller e (CBody b)) ->
        shutdownsTotal m = (if (rank b =? 0)%nat then O else 1%nat)
        /\ Ready (g w) = (rank b <=? 1)%nat
        /\ length (shutdownDuration m) = (if (rank b <=? 9)%nat then O else 1%nat)
        /\ logged LogShutdownCompleted (logger (g w)) = O)
  (* after it has returned *)
  /\ (stopOnce (g w) = OnceDone ->
        shutdownsTotal m = 1%nat /\ length (shutdownDuration m) = 1%nat
        /\ Ready (g w) = false)
  (* the statements run in program order, only the wait loop repeats *)
  /\ (forall self b w0 w1 b',
        step_body self b w0 = Some (w1, CBody b') ->
        (rank b <= rank b')%nat /\ (rank b = rank b' -> rank b = 6%nat))
  (* the observation is now - start *)
  /\ (forall self start w0,
        step_body self (BObserve start) w0
        = Some (with_g (with_metrics (observeShutdownDuration (now w0 - start))) w0,
                CBody BCompleted)).
Proof.
  intros Hrun Em. destruct (guarded_run _ _ _ _ _ Hrun) as (k & Hv & H2 & H3 & H4).
  destruct (view_facts _ _ Hv) as (Ho & Hr & Hn & Hc & Hm).
  destruct (Hm m Em) as [Ht Hd]. unfold Ready.
  split.
  { intros E. rewrite E in Ho.
    destruct (Nat.eqb_spec k 0) as [->|Hk]; [cbn in *; auto|].
    destruct (5 <=? k)%nat; discriminate. }
  split.
  { intros tid e b Hb. apply H2 in Hb as ->.
    rewrite Ht, Hr, Hd, Hc. destruct b; cbn; auto. }
  split.
  { intros E. rewrite E in Ho.
    destruct k as [|[|[|[|[|k]]]]]; cbn in Ho; try discriminate.
    cbn in *. auto. }
  split; [apply step_body_rank|].
  intros self start w0. reflexivity.
Qed.

(** The theorem after a completed shutdown. *)
Lemma shutdown_metrics_order_witness :
  shutdownsTotal metrics_after_shutdown = 1%nat
  /\ length (shutdownDuration metrics_after_shutdown) = 1%nat
  /\ Ready (g (world_after cfg_quick evs_three_callers)) = false.
Proof.
  assert (Hrun : run (init (Some cfg_quick) 0 net_example) evs_three_callers
                 = Some (world_after cfg_quick evs_three_callers))
    by (vm_compute; reflexivity).
  assert (Em : gmetrics (g (world_after cfg_quick evs_three_callers))
               = Some metrics_after_shutdown)
    by (vm_compute; reflexivity).
  destruct (shutdown_metrics_order (Some cfg_quick) 0 net_example evs_three_callers
              (world_after cfg_quick evs_three_callers) metrics_after_shutdown
              Hrun Em) as (_ & _ & Hdone & _).
  apply Hdone. vm_compute. reflexivity.
Defined.

(** * Further properties *)

(** ** Case analysis of a step *)

Ltac step_cases H :=
  unfold step, step_thread, step_caller, step_body, step_request, step_serve,
    step_stop, waitForInflight_step, waitForInflight_loop,
    WrapHTTP, WrapHTTPWithListener, WrapGRPC, ServeGRPC, NewGRPCServer in H;
  inv_step H.

Ltac goal_cases :=
  repeat match goal with
  | |- context [net_Listen ?w ?a ?b] => destruct (net_Listen w a b)
  | |- context [g (if ?b then _ else _)] => destruct b
  | |- context [threads (if ?b then _ else _)] => destruct b
  | |- context [http (if ?b then _ else _)] => destruct b
  | |- context [grpc (if ?b then _ else _)] => destruct b
  | |- context [threads (match ?b with _ => _ end)] => destruct b
  | |- context [g (match ?b with _ => _ end)] => destruct b
  | |- context [http (match ?b with _ => _ end)] => destruct b
  | |- context [grpc (match ?b with _ => _ end)] => destruct b
  end.

Ltac wproj :=
  cbn [g now threads http grpc net_Listen with_g set_g set_now set_threads set_http
       set_grpc spawn upd_thread fst snd].

Ltac gproj :=
  cbn [config logger ready started inflight_n inflight_cv httpServers grpcServers
       listeners stopOnce gmetrics Printf set_inflight_n set_inflight_cv
       set_httpServers set_grpcServers set_listeners set_stopOnce set_ready
       set_gmetrics fst snd].

Ltac gunfold :=
  unfold setReady, publishInflight, incInflight_locked, decInflight_locked, cv_Broadcast,
    with_metrics.

Ltac mcases :=
  repeat match goal with
  | |- context [match gmetrics ?x with _ => _ end] => destruct (gmetrics x) eqn:?
  | |- context [match ?k with HTTPRequest => _ | _ => _ end] => destruct k
  | |- context [if ?b then _ else _] => destruct b
  end.

(** ** The in-flight counter under interleaving *)

Lemma sum_nat_app l l' : sum_nat (l ++ l') = (sum_nat l + sum_nat l')%nat.
Proof.
  unfold sum_nat. induction l as [|x l IH]; cbn [app fold_right]; [reflexivity|].
  rewrite IH. apply Nat.add_assoc.
Qed.

Lemma total_open_app ts ts' : total_open (ts ++ ts') = (total_open ts + total_open ts')%nat.
Proof. unfold total_open. rewrite map_app. apply sum_nat_app. Qed.

Lemma total_open_cons t ts : total_open (t :: ts) = (open_adapters t + total_open ts)%nat.
Proof. reflexivity. Qed.

Lemma total_open_insert ts i t t' :
  ts !! i = Some t ->
  (total_open (<[i:=t']> ts) + open_adapters t = total_open ts + open_adapters t')%nat.
Proof.
  revert i. induction ts as [|x ts IH]; intros [|i] H; try discriminate.
  - cbn in H. simplify_eq. change (<[0%nat:=t']> (t :: ts)) with (t' :: ts).
    rewrite !total_open_cons. lia.
  - cbn in H. specialize (IH i H).
    change (<[S i:=t']> (x :: ts)) with (x :: <[i:=t']> ts).
    rewrite !total_open_cons. lia.
Qed.

Lemma total_open_insert_same ts i t t' :
  ts !! i = Some t -> open_adapters t' = open_adapters t ->
  total_open (<[i:=t']> ts) = total_open ts.
Proof. intros H E. pose proof (total_open_insert ts i t t' H). lia. Qed.

Lemma total_open_zero ts :
  Forall (fun t => open_adapters t = O) ts -> total_open ts = O.
Proof.
  induction 1 as [|t ts Ht _ IH]; [reflexivity|].
  rewrite total_open_cons, Ht, IH. reflexivity.
Qed.

Lemma total_open_stoppers self dl g0 : total_open (gracefulShutdown_spawn self dl g0) = O.
Proof.
  apply total_open_zero. unfold gracefulShutdown_spawn.
  apply Forall_app. split; apply Forall_fmap, Forall_true; reflexivity.
Qed.

Lemma inflight_n_with_metrics f g0 : inflight_n (with_metrics f g0) = inflight_n g0.
Proof. unfold with_metrics. destruct (gmetrics g0); reflexivity. Qed.

Lemma counts_open_step w ev w' : counts_open w -> step w ev = Some w' -> counts_open w'.
Proof.
  unfold counts_open. intros IH H. step_cases H; wproj; goal_cases; wproj;
    unfold setReady, publishInflight, incInflight_locked, decInflight_locked, cv_Broadcast;
    rewrite ?inflight_n_with_metrics; gproj;
    rewrite ?inflight_n_with_metrics;
    try match goal with
    | |- context [<[?i:=_]> (_ ++ _)] =>
        rewrite insert_app_l by (eapply lookup_lt_Some; eassumption)
    end;
    rewrite ?total_open_app, ?total_open_stoppers; cbn [total_open sum_nat map fold_right open_adapters];
    rewrite ?Nat.add_0_r;
    try (erewrite total_open_insert_same by (first [eassumption | reflexivity]));
    try exact IH.
  all: try match goal with
       | L : threads ?w0 !! ?i = Some ?t |- context [<[?i:=?t']> (threads ?w0)] =>
           pose proof (total_open_insert (threads w0) i t t' L) as Hins;
           cbn [open_adapters] in Hins
       end.
  all: try (case_match; gproj).
  all: unfold Z.sub; rewrite IH, wrap64_add_l; f_equal; lia.
Qed.

Lemma counts_open_init cfg t0 net : counts_open (init cfg t0 net).
Proof. reflexivity. Qed.

(** X1: in every state the process can reach, under every interleaving of
    requests, wrap operations and shutdown, the in-flight counter is the
    number of tracking adapters that requests are currently inside of (as
    an [int64]): no increment is lost, no decrement is missing or doubled.
    It is that number itself as long as it fits, and zero whenever no
    request is inside an adapter. *)
Theorem inflight_counts_open_adapters (cfg : option Config) (t0 : Z)
    (net : string -> string -> Listener + NetError) (evs : list Event) (w : World) :
  run (init cfg t0 net) evs = Some w ->
  inflight_n (g w) = wrap64 (Z.of_nat (total_open (threads w)))
  /\ (Z.of_nat (total_open (threads w)) <= max_int64 ->
      inflight_n (g w) = Z.of_nat (total_open (threads w)))
  /\ (Forall (fun t => open_adapters t = O) (threads w) -> inflight_n (g w) = 0).
Proof.
  intros Hrun.
  assert (E : counts_open w).
  { revert Hrun. apply run_invariant; [|apply counts_open_init].
    intros. eapply counts_open_step; eauto. }
  unfold counts_open in E. split; [exact E|]. split.
  - intros Hmax. rewrite E. apply wrap64_id. unfold min_int64. lia.
  - intros Hall. rewrite E, (total_open_zero _ Hall). reflexivity.
Qed.

(** The theorem with two requests inside their handlers. *)
Lemma inflight_counts_open_adapters_witness :
  let w := world_after cfg_quick evs_serving in
  inflight_n (g w) = wrap64 (Z.of_nat (total_open (threads w)))
  /\ (Z.of_nat (total_open (threads w)) <= max_int64 ->
      inflight_n (g w) = Z.of_nat (total_open (threads w)))
  /\ (Forall (fun t => open_adapters t = O) (threads w) -> inflight_n (g w) = 0).
Proof.
  intros w.
  apply (inflight_counts_open_adapters (Some cfg_quick) 0 net_example evs_serving w).
  vm_compute. reflexivity.
Defined.

(** ** What [New] fixes *)

Lemma fixed_parts_step w ev w' : step w ev = Some w' -> fixed_parts w' = fixed_parts w.
Proof.
  unfold fixed_parts. intros H. step_cases H; wproj; goal_cases; wproj; gunfold; gproj;
    mcases; gproj; try reflexivity; try congruence.
Qed.

Lemma fixed_parts_run evs : forall w w', run w evs = Some w' -> fixed_parts w' = fixed_parts w.
Proof.
  induction evs as [|ev evs IH]; intros w w' H; cbn in H; [congruence|].
  destruct (step w ev) as [w1|] eqn:E; [|discriminate].
  rewrite (IH _ _ H). eapply fixed_parts_step; eauto.
Qed.

Lemma gauge_zero_step w ev w' : gauge_zero w -> step w ev = Some w' -> gauge_zero w'.
Proof.
  unfold gauge_zero. intros IH H m. step_cases H; wproj; goal_cases; wproj; gunfold; gproj;
    mcases; gproj; intros Em; simplify_eq; cbn; eauto.
Qed.

Lemma gauge_zero_init cfg t0 net : gauge_zero (init cfg t0 net).
Proof.
  unfold gauge_zero, init, New. cbn. intros m.
  destruct (EnableMetrics _); intros [= <-]; reflexivity.
Qed.

(** X2: the readiness gauge never shows 1. [newMetrics] creates it at
    zero, [New] sets [ready] to true without touching it, and the only call
    of [setReady] passes false: in every reachable state with metrics
    enabled the gauge reads 0, also while [Ready] answers true. *)
Theorem readiness_gauge_stays_zero (cfg : option Config) (t0 : Z)
    (net : string -> string -> Listener + NetError) (evs : list Event) (w : World) :
  run (init cfg t0 net) evs = Some w ->
  readinessStatus <$> gmetrics (g w) = (fun _ => 0) <$> gmetrics (g w).
Proof.
  intros Hrun.
  assert (E : gauge_zero w).
  { revert Hrun. apply run_invariant; [|apply gauge_zero_init].
    intros. eapply gauge_zero_step; eauto. }
  destruct (gmetrics (g w)) as [m|] eqn:Em; [|reflexivity].
  cbn. f_equal. apply E. exact Em.
Qed.

Lemma fixed_parts_init cfg t0 net :
  fixed_parts (init cfg t0 net)
  = (default DefaultConfig cfg,
     if EnableMetrics (default DefaultConfig cfg) then Some tt else None,
     net).
Proof.
  unfold fixed_parts, init, New. cbn [g config gmetrics net_Listen].
  destruct cfg as [c|]; cbn [default from_option id]; [|reflexivity].
  destruct (EnableMetrics c); reflexivity.
Qed.

(** X3: nothing the process does changes what [New] fixed: in every
    reachable state the configuration is the one handed to [New] (the
    defaults for nil), the metrics exist exactly when [EnableMetrics] was
    set, and so the metrics handler answers 200 or 404 for good. *)
Theorem config_and_metrics_fixed (cfg : option Config) (t0 : Z)
    (net : string -> string -> Listener + NetError) (evs : list Event) (w : World) :
  run (init cfg t0 net) evs = Some w ->
  config (g w) = default DefaultConfig cfg
  /\ (is_Some (gmetrics (g w)) <-> EnableMetrics (default DefaultConfig cfg) = true)
  /\ MetricsHandler (g w) = (if EnableMetrics (default DefaultConfig cfg) then 200 else 404).
Proof.
  intros Hrun. apply fixed_parts_run in Hrun. rewrite fixed_parts_init in Hrun.
  unfold fixed_parts in Hrun. injection Hrun as Hc Hm _.
  unfold MetricsHandler. rewrite Hc.
  destruct (EnableMetrics (default DefaultConfig cfg)), (gmetrics (g w)) as [m|];
    try (inversion Hm; fail); cbn.
  - split; [reflexivity|]. split; [|reflexivity].
    split; [reflexivity | eexists; reflexivity].
  - split; [reflexivity|]. split; [|reflexivity].
    split; [intros [? ?]; discriminate | discriminate].
Qed.

(** The theorem while two requests are being served: ready, gauge at 0. *)
Lemma readiness_gauge_stays_zero_witness :
  let w := world_after cfg_quick evs_serving in
  readinessStatus <$> gmetrics (g w) = (fun _ => 0) <$> gmetrics (g w).
Proof.
  intros w.
  apply (readiness_gauge_stays_zero (Some cfg_quick) 0 net_example evs_serving w).
  vm_compute. reflexivity.
Defined.

(** The theorem after a shutdown and the activity that followed it. *)
Lemma config_and_metrics_fixed_witness :
  let w := world_after cfg_quick (evs_three_callers ++ evs_afterwards) in
  config (g w) = default DefaultConfig (Some cfg_quick)
  /\ (is_Some (gmetrics (g w)) <-> EnableMetrics (default DefaultConfig (Some cfg_quick)) = true)
  /\ MetricsHandler (g w)
     = (if EnableMetrics (default DefaultConfig (Some cfg_quick)) then 200 else 404).
Proof.
  intros w.
  apply (config_and_metrics_fixed (Some cfg_quick) 0 net_example
           (evs_three_callers ++ evs_afterwards) w).
  vm_compute. reflexivity.
Defined.

(** ** The registries, and what starts a shutdown *)

Lemma registry_extends_step w ev w' : step w ev = Some w' -> registry_extends w w'.
Proof.
  unfold registry_extends. intros H.
  step_cases H; wproj; goal_cases; wproj; gunfold; gproj; mcases; gproj;
    repeat split; first [reflexivity | apply prefix_app_r; reflexivity].
Qed.

(** X4: the three registries of the coordinator (HTTP servers, gRPC
    servers, listeners) only grow, at their end: whatever happens between
    two states, shutdown included, the registries of the earlier one are
    prefixes of those of the later one. Nothing is ever unregistered or
    reordered. *)
Theorem registry_append_only (w w' : World) (evs : list Event) :
  run w evs = Some w' ->
  httpServers (g w) `prefix_of` httpServers (g w')
  /\ grpcServers (g w) `prefix_of` grpcServers (g w')
  /\ listeners (g w) `prefix_of` listeners (g w').
Proof.
  revert w. induction evs as [|ev evs IH]; intros w H; cbn in H.
  - simplify_eq. repeat split; reflexivity.
  - destruct (step w ev) as [w1|] eqn:E; [|discriminate].
    destruct (registry_extends_step _ _ _ E) as (A & B & C).
    destruct (IH _ H) as (A' & B' & C').
    repeat split; etrans; eauto.
Qed.

Ltac idle_contra :=
  match goal with
  | L : threads ?w !! ?i = Some ?t, F : Forall _ (threads ?w) |- _ =>
      let X := fresh in
      pose proof (Forall_lookup_1 _ _ _ _ F L) as X; cbn in X;
      repeat case_match; discriminate X
  end.

Lemma idle_step w ev w' :
  idle w -> starts_shutdown ev = false -> step w ev = Some w' -> idle w'.
Proof.
  unfold idle. intros (Hr & Ho & Hl & Hf) Hq H.
  step_cases H; try discriminate Hq; try idle_contra;
    wproj; goal_cases; wproj; gunfold; gproj; mcases; gproj;
    (split; [assumption|split; [assumption|split; [cbn [logged LogMsg_eqb]; assumption|]]]);
    first [assumption
          | apply Forall_insert; [assumption|reflexivity]
          | apply Forall_app; split; [assumption|repeat constructor]].
Qed.

Lemma idle_init cfg t0 net : idle (init cfg t0 net).
Proof.
  unfold idle, init, New. cbn. repeat split; try constructor.
  all: destruct (EnableMetrics _); cbn; try reflexivity.
Qed.

Lemma idle_run evs : forall w w',
  idle w -> forallb (fun ev => negb (starts_shutdown ev)) evs = true ->
  run w evs = Some w' -> idle w'.
Proof.
  induction evs as [|ev evs IH]; intros w w' Hi Hq H; cbn in H, Hq.
  - congruence.
  - apply andb_true_iff in Hq as [Hq1 Hq2]. apply negb_true_iff in Hq1.
    destruct (step w ev) as [w1|] eqn:E; [|discriminate].
    apply (IH w1 w'); [eapply idle_step; eauto|exact Hq2|exact H].
Qed.

(** X5: the drain sequence starts only on request. As long as nobody
    calls [Shutdown] and neither the context nor a signal reaches a [Wait],
    whatever else happens (servers wrapped, requests, direct calls of
    [waitForInflight], time passing): the coordinator stays ready, the
    health handler answers 200, the one-time guard is untouched, no stop
    goroutine exists, and every caller of [Wait] is blocked in its select. *)
Theorem no_shutdown_without_trigger (cfg : option Config) (t0 : Z)
    (net : string -> string -> Listener + NetError) (evs : list Event) (w : World) :
  forallb (fun ev => negb (starts_shutdown ev)) evs = true ->
  run (init cfg t0 net) evs = Some w ->
  Ready (g w) = true
  /\ HealthHandler (g w) = (200, "ready" ++ newline)%string
  /\ stopOnce (g w) = OnceNew
  /\ logged LogNotReady (logger (g w)) = O
  /\ (forall tid e pc, threads w !! tid = Some (TCaller e pc) ->
        e = ViaWait /\ pc = CSelect /\ step w (EvStep tid) = None)
  /\ (forall tid kind parent server deadline finished,
        threads w !! tid <> Some (TStop kind parent server deadline finished)).
Proof.
  intros Hq Hrun.
  destruct (idle_run _ _ _ (idle_init cfg t0 net) Hq Hrun) as (Hr & Ho & Hl & Hf).
  split; [exact Hr|]. split; [unfold HealthHandler, Ready; rewrite Hr; reflexivity|].
  split; [exact Ho|]. split; [exact Hl|]. split.
  - intros tid e pc L. pose proof (Forall_lookup_1 _ _ _ _ Hf L) as X.
    destruct e, pc; try discriminate X.
    repeat split. cbn [step]. rewrite L. reflexivity.
  - intros tid kind parent server deadline finished L.
    pose proof (Forall_lookup_1 _ _ _ _ Hf L) as X. discriminate X.
Qed.

(** The theorem from two servers serving to a third one wrapped and a
    shutdown begun. *)
Lemma registry_append_only_witness :
  let w := world_after cfg_quick evs_serving in
  let w' := world_after cfg_quick (evs_serving ++ evs_wrap_more) in
  httpServers (g w) `prefix_of` httpServers (g w')
  /\ grpcServers (g w) `prefix_of` grpcServers (g w')
  /\ listeners (g w) `prefix_of` listeners (g w').
Proof.
  intros w w'. apply (registry_append_only w w' evs_wrap_more).
  vm_compute. reflexivity.
Defined.

(** The theorem with servers serving, requests in flight and a [Wait]
    that nothing has reached. *)
Lemma no_shutdown_without_trigger_witness :
  let w := world_after cfg_quick (evs_serving ++ [EvGo ViaWait; EvTick 5]) in
  Ready (g w) = true
  /\ HealthHandler (g w) = (200, "ready" ++ newline)%string
  /\ stopOnce (g w) = OnceNew
  /\ logged LogNotReady (logger (g w)) = O
  /\ (forall tid e pc, threads w !! tid = Some (TCaller e pc) ->
        e = ViaWait /\ pc = CSelect /\ step w (EvStep tid) = None)
  /\ (forall tid kind parent server deadline finished,
        threads w !! tid <> Some (TStop kind parent server deadline finished)).
Proof.
  intros w.
  apply (no_shutdown_without_trigger (Some cfg_quick) 0 net_example
           (evs_serving ++ [EvGo ViaWait; EvTick 5]) w).
  - vm_compute. reflexivity.
  - vm_compute. reflexivity.
Defined.

(** ** The serving goroutines *)





(** ** The in-flight gauge *)








(** ** The stop phase *)

Ltac heap_lookup :=
  match goal with
  | |- context [<[?j:=?x]> ?l !! ?p] =>
      destruct (decide (p = j)) as [->|?];
      [ rewrite (list_lookup_insert_eq l j x) by (eapply lookup_lt_Some; eassumption)
      | rewrite (list_lookup_insert_ne l j p x) by congruence ]
  | |- context [(?l ++ ?l') !! ?p] =>
      let E := fresh "E" in
      destruct (l !! p) eqn:E;
      [ rewrite (lookup_app_l_Some l l' p _ E) | try discriminate ]
  end.

Lemma server_stopped_step w ev w' k p :
  step w ev = Some w' -> server_stopped w k p = true -> server_stopped w' k p = true.
Proof.
  intros H. step_cases H; unfold server_stopped; wproj; goal_cases; wproj;
    destruct k; try (intros X; exact X); try heap_lookup;
    repeat match goal with
           | E : ?x = Some _ |- context [?x] => rewrite E
           end;
    cbn; try (intros X; exact X); try discriminate; try reflexivity.
Qed.

Lemma in_stop_wait_app l l' par dl :
  in_stop_wait l par dl = true -> in_stop_wait (l ++ l') par dl = true.
Proof.
  unfold in_stop_wait. destruct (l !! par) as [t|] eqn:E; [|discriminate].
  rewrite (lookup_app_l_Some _ _ _ _ E). auto.
Qed.

Lemma in_stop_wait_insert l tid told tnew par dl :
  l !! tid = Some told ->
  (forall e s d, told <> TCaller e (CBody (BStopWait s d))) ->
  in_stop_wait l par dl = true -> in_stop_wait (<[tid:=tnew]> l) par dl = true.
Proof.
  unfold in_stop_wait. intros L Hn.
  destruct (decide (par = tid)) as [->|Hne].
  - rewrite L. destruct told as [e [| |[]|]| | | |]; try discriminate.
    intros _. exfalso. eapply Hn; reflexivity.
  - rewrite list_lookup_insert_ne by congruence. auto.
Qed.

Lemma wg_done_finished self ts j kind p dl fin :
  wg_done self ts = true -> ts !! j = Some (TStop kind self p dl fin) -> fin = true.
Proof.
  unfold wg_done. intros H L. rewrite forallb_forall in H.
  assert (Hin : In (TStop kind self p dl fin) ts).
  { apply list_elem_of_In. eapply list_elem_of_lookup_2; eauto. }
  specialize (H _ Hin). cbn in H. rewrite Nat.eqb_refl in H. exact H.
Qed.

Lemma stopper_ok_keep w w' t :
  (forall k p, server_stopped w k p = true -> server_stopped w' k p = true) ->
  (forall par dl, in_stop_wait (threads w) par dl = true ->
                  in_stop_wait (threads w') par dl = true) ->
  stopper_ok w t -> stopper_ok w' t.
Proof.
  intros A B. destruct t as [| | |k par p dl [|]|]; cbn; auto.
Qed.

Lemma in_stop_wait_self l tid e s dl :
  (tid < length l)%nat ->
  in_stop_wait (<[tid:=TCaller e (CBody (BStopWait s dl))]> l) tid dl = true.
Proof.
  intros Hlt. unfold in_stop_wait. rewrite list_lookup_insert_eq by exact Hlt.
  apply Z.eqb_refl.
Qed.

Lemma stoppers_ok_spawn w w' tid dl :
  in_stop_wait (threads w') tid dl = true ->
  Forall (stopper_ok w') (gracefulShutdown_spawn tid dl (g w)).
Proof.
  intros Hw. unfold gracefulShutdown_spawn. apply Forall_app; split;
    apply Forall_fmap, Forall_true; intros p; cbn; exact Hw.
Qed.

Lemma stoppers_ok_step w ev w' : stoppers_ok w -> step w ev = Some w' -> stoppers_ok w'.
Proof.
  unfold stoppers_ok. intros IH H.
  pose proof (fun k p => server_stopped_step _ _ _ k p H) as Hmono.
  step_cases H; revert Hmono; wproj; goal_cases; wproj; intros Hmono.
  all: try (eapply Forall_impl; [exact IH|]; intros t; apply stopper_ok_keep;
            [exact Hmono|wproj; auto]).
  all: try (apply Forall_app; split;
            [ eapply Forall_impl; [exact IH|]; intros t; apply stopper_ok_keep;
              [exact Hmono|wproj; intros ? ?; apply in_stop_wait_app]
            | repeat constructor ]).
  all: try (apply Forall_insert;
            [ eapply Forall_impl; [exact IH|]; intros t; apply stopper_ok_keep;
              [exact Hmono|wproj; intros ? ?; eapply in_stop_wait_insert; [eassumption|congruence]]
            | first [ exact I
                    | cbn [stopper_ok]; unfold server_stopped; wproj;
                      rewrite list_lookup_insert_eq by (eapply lookup_lt_Some; eassumption);
                      reflexivity ] ]).
  all: match goal with
       | |- Forall _ (<[_:=_]> (_ ++ _)) =>
           assert (Hlt : (tid < length (threads w))%nat) by (eapply lookup_lt_Some; eassumption);
           apply Forall_insert; [|exact I]; apply Forall_app; split;
           [ eapply Forall_impl; [exact IH|]; intros t; apply stopper_ok_keep;
             [exact Hmono|wproj; intros ? ? ?; eapply in_stop_wait_insert;
                          [apply lookup_app_l_Some; eassumption|congruence
                          |apply in_stop_wait_app; assumption]]
           | apply stoppers_ok_spawn; wproj; apply in_stop_wait_self;
             rewrite length_app; lia ]
       | |- _ => idtac
       end.
  all: apply Forall_insert; [|exact I]; apply Forall_lookup; intros j t Lj;
    pose proof (Forall_lookup_1 _ _ _ _ IH Lj) as Ht;
    destruct t as [| | |k par p dl [|]|]; cbn; auto; cbn in Ht; wproj;
    destruct (decide (par = tid)) as [->|Hne];
    [ match goal with
      | W : wg_done _ _ = true |- _ => discriminate (wg_done_finished _ _ _ _ _ _ _ W Lj)
      end
    | unfold in_stop_wait; rewrite list_lookup_insert_ne by congruence; exact Ht ].
Qed.

Lemma stopper_persists w ev w' i k par p dl fin :
  step w ev = Some w' ->
  threads w !! i = Some (TStop k par p dl fin) ->
  exists fin', threads w' !! i = Some (TStop k par p dl fin').
Proof.
  intros H L.
  assert (Hlt : (i < length (threads w))%nat) by (eapply lookup_lt_Some; eassumption).
  step_cases H; wproj; goal_cases; wproj;
    try (eexists; exact L);
    try (eexists; apply lookup_app_l_Some; exact L);
    try (destruct (decide (i = tid)) as [->|Hne];
         [ simplify_eq; rewrite list_lookup_insert_eq by first [exact Hlt|rewrite length_app; lia];
           eexists; reflexivity
         | rewrite list_lookup_insert_ne by congruence;
           eexists; first [exact L|apply lookup_app_l_Some; exact L] ]).
Qed.

Lemma stopper_persists_run evs : forall w w' i k par p dl fin,
  run w evs = Some w' ->
  threads w !! i = Some (TStop k par p dl fin) ->
  exists fin', threads w' !! i = Some (TStop k par p dl fin').
Proof.
  induction evs as [|ev evs IH]; intros w w' i k par p dl fin H L; cbn in H.
  - simplify_eq. eauto.
  - destruct (step w ev) as [w1|] eqn:E; [|discriminate].
    destruct (stopper_persists _ _ _ _ _ _ _ _ _ E L) as [fin1 L1]. eauto.
Qed.

Lemma stoppers_ok_init cfg t0 net : stoppers_ok (init cfg t0 net).
Proof. constructor. Qed.

Lemma spawn_lookup tid dl g0 kind p :
  match kind with
  | KindHTTP => p ∈ httpServers g0
  | KindGRPC => p ∈ grpcServers g0
  end ->
  exists i, gracefulShutdown_spawn tid dl g0 !! i = Some (TStop kind tid p dl false).
Proof.
  intros Hin. apply list_elem_of_lookup_1. unfold gracefulShutdown_spawn.
  apply elem_of_app. destruct kind; [left|right];
    apply (list_elem_of_fmap_2 (fun srv => TStop _ tid srv dl false)); exact Hin.
Qed.

(** X8: [gracefulShutdown] returns only when every server that was
    registered when it was called has answered its stop call. From the
    state in which the caller is about to enter [gracefulShutdown], through
    any continuation: once that caller is past it (waiting for requests,
    sleeping the hard stop, or returned), each HTTP server of the registry
    of that moment has had [Shutdown] called and each gRPC server is
    stopped, gracefully or by force. *)
Theorem servers_stopped_before_waiting_for_requests (cfg : option Config) (t0 : Z)
    (net : string -> string -> Listener + NetError) (evs1 evs2 : list Event)
    (w1 w3 : World) (tid : nat) (e e' : Entry) (start : Z) (pc : CallerPC)
    (kind : SrvKind) (p : nat) :
  run (init cfg t0 net) evs1 = Some w1 ->
  threads w1 !! tid = Some (TCaller e (CBody (BDrain start))) ->
  run w1 (EvStep tid :: evs2) = Some w3 ->
  threads w3 !! tid = Some (TCaller e' pc) ->
  after_stop_wait pc = true ->
  p ∈ match kind with
      | KindHTTP => httpServers (g w1)
      | KindGRPC => grpcServers (g w1)
      end ->
  server_stopped w3 kind p = true.
Proof.
  intros Hrun1 L1 Hrun2 L3 Hpc Hin.
  assert (Hok : stoppers_ok w3).
  { assert (Hrun : run (init cfg t0 net) (evs1 ++ EvStep tid :: evs2) = Some w3)
      by (rewrite run_app, Hrun1; exact Hrun2).
    revert Hrun. apply run_invariant; [|apply stoppers_ok_init].
    intros. eapply stoppers_ok_step; eauto. }
  cbn [run] in Hrun2. rewrite (step_EvStep _ _ _ L1) in Hrun2.
  cbn [step_thread step_caller step_body] in Hrun2. cbn in Hrun2.
  set (dl := now w1 + DrainTimeout (config (g w1))) in *.
  destruct (spawn_lookup tid dl (g w1) kind p) as [i Li]; [destruct kind; exact Hin|].
  match type of Hrun2 with
  | run ?w2 _ = _ =>
      assert (L2 : threads w2 !! (length (threads w1) + i)%nat
                   = Some (TStop kind tid p dl false))
  end.
  { cbn [threads upd_thread set_threads].
    rewrite list_lookup_insert_ne
      by (apply lookup_lt_Some in L1; lia).
    rewrite lookup_app_r by lia.
    replace (length (threads w1) + i - length (threads w1))%nat with i by lia.
    exact Li. }
  destruct (stopper_persists_run _ _ _ _ _ _ _ _ _ Hrun2 L2) as [fin L].
  pose proof (Forall_lookup_1 _ _ _ _ Hok L) as Hs. cbn in Hs.
  destruct fin; [exact Hs|].
  unfold in_stop_wait in Hs. rewrite L3 in Hs.
  destruct pc as [| |b|]; try discriminate. destruct b; discriminate.
Qed.

(** The theorem for the wrapped HTTP server, [Shutdown] at
    [waitForInflight]. *)
Lemma servers_stopped_before_waiting_for_requests_witness :
  server_stopped
    (world_after cfg_quick (evs_to_drain ++ [EvStep 1; EvStop 2 true; EvStep 0; EvStep 1]))
    KindHTTP 0 = true.
Proof.
  apply (servers_stopped_before_waiting_for_requests (Some cfg_quick) 0 net_example
           evs_to_drain [EvStop 2 true; EvStep 0; EvStep 1]
           (world_after cfg_quick evs_to_drain)
           (world_after cfg_quick
              (evs_to_drain ++ [EvStep 1; EvStop 2 true; EvStep 0; EvStep 1]))
           1 ViaShutdown ViaShutdown 0
           (CBody (BInflight 0 (100 * Millisecond) WEnter)) KindHTTP 0).
  - vm_compute. reflexivity.
  - vm_compute. reflexivity.
  - vm_compute. reflexivity.
  - vm_compute. reflexivity.
  - reflexivity.
  - vm_compute. constructor.
Defined.

(** ** Readiness and the stop phase *)

Ltac flip_contra :=
  match goal with
  | L : threads ?w !! ?i = Some ?t, F : Forall (fun t => before_flip t = true) (threads ?w) |- _ =>
      let X := fresh in
      pose proof (Forall_lookup_1 _ _ _ _ F L) as X; cbn in X;
      repeat case_match; discriminate X
  end.

Lemma serving_while_ready_step w ev w' :
  serving_while_ready w -> step w ev = Some w' -> serving_while_ready w'.
Proof.
  unfold serving_while_ready. intros IH H.
  step_cases H; wproj; goal_cases; wproj; gunfold; gproj; mcases; gproj;
    intros Hr; try discriminate Hr;
    destruct (IH Hr) as (A & B & C & D); try flip_contra; try congruence;
    (split; [first [assumption|congruence]|]);
    (split; [first [assumption
                   | apply Forall_insert; [assumption|reflexivity]
                   | apply Forall_app; split; [assumption|repeat constructor] ]|]);
    (split; [first [assumption
                   | apply Forall_app; split; [assumption|repeat constructor]
                   | apply Forall_insert; [assumption|];
                     match goal with
                     | L : http _ !! _ = Some _ |- _ => exact (Forall_lookup_1 _ _ _ _ C L)
                     end ]|]);
    first [assumption | apply Forall_app; split; [assumption|repeat constructor] ].
Qed.

Lemma serving_while_ready_init cfg t0 net : serving_while_ready (init cfg t0 net).
Proof. intros _. cbn. repeat split; try constructor. discriminate. Qed.

Lemma server_stopped_live w kind p :
  Forall (fun s => live_http s = true) (http w) ->
  Forall (fun s => live_grpc s = true) (grpc w) ->
  server_stopped w kind p = false.
Proof.
  intros C D. unfold server_stopped. destruct kind.
  - destruct (http w !! p) as [s|] eqn:E; [|reflexivity].
    pose proof (Forall_lookup_1 _ _ _ _ C E) as X. unfold live_http in X.
    destruct (inShutdown s); [discriminate|reflexivity].
  - destruct (grpc w !! p) as [s|] eqn:E; [|reflexivity].
    pose proof (Forall_lookup_1 _ _ _ _ D E) as X. unfold live_grpc in X.
    destruct (grpc_state s); [reflexivity|discriminate..].
Qed.

(** X9: readiness is withdrawn before any server is told to stop. In
    every reachable state in which some server has had its stop call (an
    HTTP server in shutdown, a gRPC server no longer live), the coordinator
    is not ready, the health handler answers 503 "draining" and the line
    "marked as not ready" has been logged. *)
Theorem not_ready_before_any_stop (cfg : option Config) (t0 : Z)
    (net : string -> string -> Listener + NetError) (evs : list Event) (w : World)
    (kind : SrvKind) (p : nat) :
  run (init cfg t0 net) evs = Some w ->
  server_stopped w kind p = true ->
  Ready (g w) = false
  /\ HealthHandler (g w) = (503, "draining" ++ newline)%string
  /\ (0 < logged LogNotReady (logger (g w)))%nat.
Proof.
  intros Hrun Hs.
  assert (Hr : ready (g w) = false).
  { assert (E : serving_while_ready w).
    { revert Hrun. apply run_invariant; [|apply serving_while_ready_init].
      intros. eapply serving_while_ready_step; eauto. }
    destruct (ready (g w)) eqn:Hr; [|reflexivity].
    destruct (E Hr) as (_ & _ & C & D).
    rewrite (server_stopped_live w kind p C D) in Hs. discriminate. }
  split; [exact Hr|]. split; [unfold HealthHandler, Ready; rewrite Hr; reflexivity|].
  destruct (guarded_run _ _ _ _ _ Hrun) as (k & Hv & _).
  unfold shutdown_view, view_at in Hv. simplify_eq.
  match goal with
  | X : ready (g w) = _ |- _ => rewrite Hr in X; symmetry in X; apply Nat.ltb_ge in X
  end.
  match goal with
  | X : logged LogNotReady _ = _ |- _ => rewrite X
  end.
  destruct (Nat.leb_spec 3 k); lia.
Qed.

(** The theorem right after the HTTP server was shut down. *)
Lemma not_ready_before_any_stop_witness :
  let w := world_after cfg_quick (evs_to_drain ++ [EvStep 1; EvStop 2 true]) in
  Ready (g w) = false
  /\ HealthHandler (g w) = (503, "draining" ++ newline)%string
  /\ (0 < logged LogNotReady (logger (g w)))%nat.
Proof.
  intros w.
  apply (not_ready_before_any_stop (Some cfg_quick) 0 net_example
           (evs_to_drain ++ [EvStep 1; EvStop 2 true]) w KindHTTP 0).
  - vm_compute. reflexivity.
  - vm_compute. reflexivity.
Defined.

(** ** The clock of the shutdown function *)

Lemma thread_time_mono c n n' t : n <= n' -> thread_time c n t -> thread_time c n' t.
Proof.
  intros Hn. destruct t as [e [| |b|]| | | |]; cbn; auto.
  destruct b; cbn; lia.
Qed.

Ltac zify_tests :=
  repeat match goal with
         | H : (_ <? _) = true |- _ => apply Z.ltb_lt in H
         | H : (_ <? _) = false |- _ => apply Z.ltb_ge in H
         | H : (_ <=? _) = true |- _ => apply Z.leb_le in H
         | H : (_ <=? _) = false |- _ => apply Z.leb_gt in H
         end.

Lemma timed_step w ev w' : timed w -> step w ev = Some w' -> timed w'.
Proof.
  unfold timed. intros [IH1 IH2] H.
  step_cases H; wproj; goal_cases; wproj; gunfold; gproj; mcases; gproj;
    (split; [|let m1 := fresh "m" in let Em := fresh "Em" in intros m1 Em; simplify_eq; cbn; eauto]).
  all: try assumption.
  all: try match goal with
           | L : threads ?w0 !! ?i = Some (TCaller _ (CBody _)) |- _ =>
               let X := fresh "X" in
               pose proof (Forall_lookup_1 _ _ _ _ IH1 L) as X; cbn in X
           end.
  all: zify_tests; unfold lb_sleep, hard_sleep in *.
  all: try (eapply Forall_impl; [exact IH1|]; intros t; apply thread_time_mono; lia).
  all: try (apply Forall_app; split; [assumption|repeat constructor]).
  all: try (apply Forall_insert; [assumption|cbn; try exact I; unfold lb_sleep, hard_sleep; lia]).
  all: try (constructor; [lia|eauto]).
  all: apply Forall_insert; [|cbn; unfold lb_sleep, hard_sleep; lia]; apply Forall_app; split; [assumption|];
    unfold gracefulShutdown_spawn; apply Forall_app; split;
    apply Forall_fmap, Forall_true; intros; exact I.
Qed.

Lemma timed_init cfg t0 net : timed (init cfg t0 net).
Proof.
  split; [constructor|]. unfold init, New. cbn. intros m.
  destruct (EnableMetrics _); intros [= <-]; constructor.
Qed.

(** X10: every shutdown duration the histogram receives covers the two
    sleeps of the drain sequence: it is at least the load-balancer delay
    plus the hard-stop timeout of the configuration (each counted when
    positive), whatever the interleaving and however fast servers and
    requests finish. *)
Theorem shutdown_duration_covers_sleeps (cfg : option Config) (t0 : Z)
    (net : string -> string -> Listener + NetError) (evs : list Event) (w : World)
    (m : metrics) (d : Z) :
  run (init cfg t0 net) evs = Some w ->
  gmetrics (g w) = Some m ->
  d ∈ shutdownDuration m ->
  Z.max 0 (LoadBalancerDelay (default DefaultConfig cfg))
  + Z.max 0 (HardStopTimeout (default DefaultConfig cfg)) <= d.
Proof.
  intros Hrun Em Hd.
  assert (E : timed w).
  { revert Hrun. apply run_invariant; [|apply timed_init].
    intros. eapply timed_step; eauto. }
  destruct E as [_ E]. specialize (E m Em). rewrite Forall_forall in E.
  specialize (E d Hd).
  pose proof (fixed_parts_run _ _ _ Hrun) as F. rewrite fixed_parts_init in F.
  unfold fixed_parts in F. injection F as F _ _. rewrite F in E. exact E.
Qed.

(** The theorem at the one observation of that shutdown, 30ms. *)
Lemma shutdown_duration_covers_sleeps_witness :
  Z.max 0 (LoadBalancerDelay (default DefaultConfig (Some cfg_slow)))
  + Z.max 0 (HardStopTimeout (default DefaultConfig (Some cfg_slow)))
  <= 30 * Millisecond.
Proof.
  apply (shutdown_duration_covers_sleeps (Some cfg_slow) 0 net_example evs_slow_shutdown
           (world_after cfg_slow evs_slow_shutdown)
           (mkMetrics 0 O O [30 * Millisecond] 0 1%nat None)).
  - vm_compute. reflexivity.
  - vm_compute. reflexivity.
  - vm_compute. constructor.
Defined.

(** ** The drain deadline *)

Lemma stoppers_ok_run cfg t0 net evs w :
  run (init cfg t0 net) evs = Some w -> stoppers_ok w.
Proof.
  apply run_invariant; [|apply stoppers_ok_init].
  intros. eapply stoppers_ok_step; eauto.
Qed.

Lemma timed_run cfg t0 net evs w :
  run (init cfg t0 net) evs = Some w -> timed w.
Proof.
  apply run_invariant; [|apply timed_init].
  intros. eapply timed_step; eauto.
Qed.

Lemma config_run cfg t0 net evs w :
  run (init cfg t0 net) evs = Some w -> config (g w) = default DefaultConfig cfg.
Proof.
  intros Hrun. pose proof (fixed_parts_run _ _ _ Hrun) as F.
  rewrite fixed_parts_init in F. unfold fixed_parts in F. congruence.
Qed.

(** X11: a gRPC server is stopped by force ([srv.Stop] after the timer)
    only for a caller that is waiting in [gracefulShutdown], and only once
    the drain deadline of that caller has come: at least the drain timeout
    after [gracefulShutdown] was entered, which is itself at least the
    load-balancer delay after the shutdown began. The server is then
    stopped. *)
Theorem grpc_forced_stop_after_drain_timeout (cfg : option Config) (t0 : Z)
    (net : string -> string -> Listener + NetError) (evs : list Event) (w w' : World)
    (i par p : nat) (dl : Z) :
  run (init cfg t0 net) evs = Some w ->
  threads w !! i = Some (TStop KindGRPC par p dl false) ->
  step w (EvStop i false) = Some w' ->
  exists e start,
    threads w !! par = Some (TCaller e (CBody (BStopWait start dl)))
    /\ start + Z.max 0 (LoadBalancerDelay (default DefaultConfig cfg))
       + DrainTimeout (default DefaultConfig cfg) <= dl
    /\ dl <= now w
    /\ (grpc_state <$> grpc w' !! p) = Some GrpcStopped.
Proof.
  intros Hrun L H.
  pose proof (Forall_lookup_1 _ _ _ _ (stoppers_ok_run _ _ _ _ _ Hrun) L) as Hs.
  cbn in Hs. unfold in_stop_wait in Hs.
  destruct (threads w !! par) as [[e [| |[]|]| | | |]|] eqn:Lp; try discriminate Hs.
  apply Z.eqb_eq in Hs. subst drainDeadline.
  destruct (timed_run _ _ _ _ _ Hrun) as [Ht _].
  pose proof (Forall_lookup_1 _ _ _ _ Ht Lp) as Hb. cbn in Hb.
  rewrite (config_run _ _ _ _ _ Hrun) in Hb. unfold lb_sleep in Hb.
  exists e, start. split; [reflexivity|]. split; [lia|].
  cbn [step] in H. rewrite L in H. cbn in H.
  destruct (grpc w !! p) as [srv|] eqn:Es; cbn in H; [|discriminate].
  destruct (dl <=? now w) eqn:Ed; [|discriminate]. apply Z.leb_le in Ed.
  split; [exact Ed|]. cbn [mbind option_bind] in H. simplify_eq. cbn.
  rewrite list_lookup_insert_eq by (eapply lookup_lt_Some; eassumption). reflexivity.
Qed.

(** The theorem when the timer of that stop goroutine fires. *)
Lemma grpc_forced_stop_after_drain_timeout_witness :
  let w := world_after cfg_quick evs_grpc_deadline in
  let w' := world_after cfg_quick (evs_grpc_deadline ++ [EvStop 2 false]) in
  exists e start,
    threads w !! 1%nat = Some (TCaller e (CBody (BStopWait start (100 * Millisecond))))
    /\ start + Z.max 0 (LoadBalancerDelay (default DefaultConfig (Some cfg_quick)))
       + DrainTimeout (default DefaultConfig (Some cfg_quick)) <= 100 * Millisecond
    /\ 100 * Millisecond <= now w
    /\ (grpc_state <$> grpc w' !! 0%nat) = Some GrpcStopped.
Proof.
  intros w w'.
  apply (grpc_forced_stop_after_drain_timeout (Some cfg_quick) 0 net_example
           evs_grpc_deadline w w' 2 1 0 (100 * Millisecond)).
  - vm_compute. reflexivity.
  - vm_compute. reflexivity.
  - vm_compute. reflexivity.
Defined.

(** ** Parked waiters *)

Ltac other_thread tw Lt Hp Hin :=
  match goal with
  | L : threads _ !! ?tid = Some _ |- _ =>
      tryif constr_eq tid tw then fail else
        (destruct (decide (tid = tw)) as [->|?];
         [ exfalso; rewrite Lt in L; simplify_eq; cbn in Hp;
           first [discriminate Hp | contradiction]
         | ])
  end.

Lemma parked_thread_kept w ev w' tw :
  parked w tw -> step w ev = Some w' -> threads w' !! tw = threads w !! tw.
Proof.
  unfold parked. intros (Hin & t & timer & Lt & Hp) H.
  step_cases H; try other_thread tw Lt Hp Hin; wproj; goal_cases; wproj;
    try reflexivity;
    try (rewrite list_lookup_insert_ne by congruence);
    try (rewrite Lt; apply lookup_app_l_Some; exact Lt);
    try reflexivity.
Qed.

Lemma parked_notify_list w ev w' tw :
  parked w tw -> step w ev = Some w' ->
  tw ∈ inflight_cv (g w') \/ (inflight_n (g w') = 0 /\ inflight_cv (g w') = []).
Proof.
  unfold parked. intros (Hin & t & timer & Lt & Hp) H.
  step_cases H; wproj; goal_cases; wproj; gunfold; gproj;
    repeat match goal with
           | |- context [if ?b then _ else _] => destruct b eqn:?
           | |- context [match gmetrics ?x with _ => _ end] => destruct (gmetrics x) eqn:?
           | |- context [match ?k with HTTPRequest => _ | _ => _ end] => destruct k
           end; gproj;
    try (left; first [exact Hin | apply elem_of_app; left; exact Hin]).
  all: right; split; [apply Z.eqb_eq; assumption|reflexivity].
Qed.

Lemma parked_step w ev w' tw :
  parked w tw -> step w ev = Some w' ->
  (parked w' tw /\ threads w' !! tw = threads w !! tw) \/ inflight_n (g w') = 0.
Proof.
  intros P H.
  pose proof (parked_thread_kept _ _ _ _ P H) as Hk.
  destruct (parked_notify_list _ _ _ _ P H) as [Hin'|[Hz _]]; [left|right; exact Hz].
  split; [|exact Hk]. split; [exact Hin'|].
  destruct P as (_ & t & timer & Lt & Hp). exists t, timer. rewrite Hk. auto.
Qed.

(** X12: a goroutine parked in [cv.Wait()] of [waitForInflight] is woken
    by nothing but the counter reaching zero. From a state in which it is
    parked, through any events whatever (time passing beyond its deadline
    and its timer, requests starting and ending, other waiters, a
    shutdown): either the counter was zero at some state on the way, or
    the goroutine is still on the notify list, where it was, and cannot
    move. *)
Theorem parked_until_count_is_zero (w w' : World) (evs : list Event) (tw : nat)
    (t : Thread) (timer : Z) :
  threads w !! tw = Some t ->
  wait_pc t = Some (WParked timer) ->
  tw ∈ inflight_cv (g w) ->
  run w evs = Some w' ->
  (tw ∈ inflight_cv (g w')
   /\ threads w' !! tw = threads w !! tw
   /\ step w' (EvStep tw) = None)
  \/ (exists evs1 evs2 w1,
        evs = evs1 ++ evs2 /\ run w evs1 = Some w1 /\ inflight_n (g w1) = 0).
Proof.
  intros Lt0 Hp0 Hin.
  assert (P : parked w tw) by (split; [assumption|exists t, timer; split; assumption]).
  clear Lt0 Hp0 Hin. clear t timer.
  revert w P. induction evs as [|ev evs IH]; intros w P H; cbn in H.
  - simplify_eq. left. destruct P as (Hin & t & timer & Lt & Hp).
    split; [exact Hin|]. split; [reflexivity|]. eapply parked_blocked; eauto.
  - destruct (step w ev) as [w1|] eqn:E; [|discriminate].
    destruct (parked_step _ _ _ _ P E) as [[P1 Hk]|Hz].
    + destruct (IH _ P1 H) as [(A & B & C)|(evs1 & evs2 & w2 & -> & R & Hz)].
      * left. rewrite <- Hk. auto.
      * right. exists (ev :: evs1), evs2, w2. split; [reflexivity|].
        split; [cbn; rewrite E; exact R|exact Hz].
    + right. exists [ev], evs, w1. split; [reflexivity|].
      split; [cbn; rewrite E; reflexivity|exact Hz].
Qed.

(** The theorem in the timeout scenario: a minute passes and a second
    stream begins, the first one staying open. *)
Lemma parked_until_count_is_zero_witness :
  let w := world_after cfg_timeout evs_timeout in
  let evs := [EvTick (60 * Second); EvGRPCRequest 0 true; EvStep 2; EvStep 2] in
  let w' := world_after cfg_timeout (evs_timeout ++ evs) in
  (1%nat ∈ inflight_cv (g w')
   /\ threads w' !! 1%nat = threads w !! 1%nat
   /\ step w' (EvStep 1) = None)
  \/ (exists evs1 evs2 w1,
        evs = evs1 ++ evs2 /\ run w evs1 = Some w1 /\ inflight_n (g w1) = 0).
Proof.
  intros w evs w'.
  apply (parked_until_count_is_zero w w' evs 1
           (TCaller ViaShutdown
              (CBody (BInflight 0 (50 * Millisecond) (WParked (50 * Millisecond)))))
           (50 * Millisecond)).
  - vm_compute. reflexivity.
  - reflexivity.
  - vm_compute. constructor.
  - vm_compute. reflexivity.
Defined.

(** ** Servers without adapters *)

Ltac thread_fact Ht :=
  match goal with
  | L : threads ?w !! ?i = Some ?t |- _ =>
      let X := fresh "X" in
      pose proof (Forall_lookup_1 _ _ _ _ Ht L) as X; cbn in X;
      rewrite ?andb_false_r, ?andb_true_r in X;
      try discriminate X;
      try (apply Nat.eqb_eq in X; subst)
  end.

Lemma nothing_tracked_step w ev w' :
  nothing_tracked w -> installs_adapter ev = false -> step w ev = Some w' ->
  nothing_tracked w'.
Proof.
  unfold nothing_tracked. intros (Hn & Hcv & Hm & Ht & Hh & Hg) Hq H.
  step_cases H; try discriminate Hq; try thread_fact Ht;
    try match goal with
        | E : (0 <? inflight_n (g _)) = true |- _ => rewrite Hn in E; discriminate E
        end;
    try match goal with
        | L : http _ !! _ = Some ?s |- _ =>
            let X := fresh "X" in
            pose proof (Forall_lookup_1 _ _ _ _ Hh L) as X; cbn in X
        end;
    try match goal with
        | L : grpc _ !! _ = Some ?s |- _ =>
            let X := fresh "X" in
            pose proof (Forall_lookup_1 _ _ _ _ Hg L) as X; cbn in X
        end.
  all: wproj; goal_cases; wproj; gunfold; gproj; mcases; gproj.
  all: try discriminate.
  all: try ((split; [assumption|]); (split; [assumption|])).
  all: try (split; [let m1 := fresh "m" in let Em := fresh "Em" in
                intros m1 Em; simplify_eq; cbn; eauto|]).
  all: try (split; [first [ assumption
                      | apply Forall_insert; [assumption|reflexivity]
                      | apply Forall_app; split; [assumption|repeat constructor]
                      | idtac ]|]).
  all: try (split; [first [ assumption
                      | apply Forall_app; split; [assumption|repeat constructor]
                      | apply Forall_insert; [assumption|assumption] ]|]).
  all: try first [ assumption
                 | apply Forall_app; split; [assumption|repeat constructor]
                 | apply Forall_insert; [assumption|assumption] ].
  - destruct (Handler H0) as [[| |]|]; try discriminate; reflexivity.
  - apply Forall_insert; [|reflexivity]. apply Forall_app; split; [assumption|].
    unfold gracefulShutdown_spawn. apply Forall_app; split;
      apply Forall_fmap, Forall_true; intros; reflexivity.
  - apply Forall_insert; [|reflexivity]. apply Forall_app; split; [assumption|].
    unfold gracefulShutdown_spawn. apply Forall_app; split;
      apply Forall_fmap, Forall_true; intros; reflexivity.
Qed.

Lemma nothing_tracked_init cfg t0 net : nothing_tracked (init cfg t0 net).
Proof.
  unfold nothing_tracked, init, New. cbn. repeat split; try constructor.
  all: destruct (EnableMetrics _); simplify_eq; reflexivity.
Qed.

Lemma nothing_tracked_run evs : forall w w',
  nothing_tracked w -> forallb (fun ev => negb (installs_adapter ev)) evs = true ->
  run w evs = Some w' -> nothing_tracked w'.
Proof.
  induction evs as [|ev evs IH]; intros w w' Hi Hq H; cbn in H, Hq.
  - congruence.
  - apply andb_true_iff in Hq as [Hq1 Hq2]. apply negb_true_iff in Hq1.
    destruct (step w ev) as [w1|] eqn:E; [|discriminate].
    apply (IH w1 w'); [eapply nothing_tracked_step; eauto|exact Hq2|exact H].
Qed.

(** X13: requests are counted by the adapters and by nothing else. In a
    process that never installs one (no [WrapHTTP] or
    [WrapHTTPWithListener], no server from [NewGRPCServer] or [ServeGRPC];
    servers built by [grpc.NewServer] and handed to [WrapGRPC] are
    allowed), whatever requests it serves: the in-flight counter and gauge
    stay at zero, the request counters stay at zero, and no call of
    [waitForInflight] ever parks, so a shutdown does not wait for the
    requests of such servers. *)
Theorem nothing_tracked_without_adapters (cfg : option Config) (t0 : Z)
    (net : string -> string -> Listener + NetError) (evs : list Event) (w : World) :
  forallb (fun ev => negb (installs_adapter ev)) evs = true ->
  run (init cfg t0 net) evs = Some w ->
  inflight_n (g w) = 0
  /\ inflight_cv (g w) = []
  /\ (forall m, gmetrics (g w) = Some m ->
        inflightRequests m = 0 /\ httpRequestsTotal m = O /\ grpcRequestsTotal m = O)
  /\ (forall tid t timer, threads w !! tid = Some t -> wait_pc t <> Some (WParked timer)).
Proof.
  intros Hq Hrun.
  destruct (nothing_tracked_run _ _ _ (nothing_tracked_init cfg t0 net) Hq Hrun)
    as (Hn & Hcv & Hm & Ht & _).
  split; [exact Hn|]. split; [exact Hcv|]. split; [exact Hm|].
  intros tid t timer L Hp. pose proof (Forall_lookup_1 _ _ _ _ Ht L) as X.
  apply wait_pc_parked in Hp as [(dl & ->) | (e & s & dl & ->)]; discriminate X.
Qed.

(** The theorem with that stream open: [waitForInflight] has returned
    true. *)
Lemma nothing_tracked_without_adapters_witness :
  let w := world_after cfg_quick evs_plain_grpc in
  inflight_n (g w) = 0
  /\ inflight_cv (g w) = []
  /\ (forall m, gmetrics (g w) = Some m ->
        inflightRequests m = 0 /\ httpRequestsTotal m = O /\ grpcRequestsTotal m = O)
  /\ (forall tid t timer, threads w !! tid = Some t -> wait_pc t <> Some (WParked timer)).
Proof.
  intros w.
  apply (nothing_tracked_without_adapters (Some cfg_quick) 0 net_example evs_plain_grpc w).
  - vm_compute. reflexivity.
  - vm_compute. reflexivity.
Defined.

(** ** A shutdown that runs to its end *)

Lemma spawn_stoppers self dl g0 :
  gracefulShutdown_spawn self dl g0 = map (stopper self dl false) (stop_targets g0).
Proof.
  unfold gracefulShutdown_spawn, stop_targets. rewrite map_app, !map_map. reflexivity.
Qed.

Lemma insert_middle {A} (l : list A) x y l' : <[length l:=y]> (l ++ x :: l') = l ++ y :: l'.
Proof.
  replace (length l) with (length l + 0)%nat at 1 by lia.
  rewrite insert_app_r. reflexivity.
Qed.

Lemma run_stops self dl : forall ks pre w,
  threads w = pre ++ map (stopper self dl false) ks ->
  forallb (valid_target w) ks = true ->
  exists w',
    run w (map (fun i => EvStop i true) (seq (length pre) (length ks))) = Some w'
    /\ threads w' = pre ++ map (stopper self dl true) ks
    /\ now w' = now w
    /\ net_Listen w' = net_Listen w
    /\ forget_log (g w') = forget_log (g w)
    /\ logged LogNotDrained (logger (g w')) = logged LogNotDrained (logger (g w))
    /\ length (http w') = length (http w)
    /\ length (grpc w') = length (grpc w)
    /\ (forall k p, server_stopped w k p = true -> server_stopped w' k p = true)
    /\ forallb (fun kp => server_stopped w' (fst kp) (snd kp)) ks = true.
Proof.
  induction ks as [|[k p] ks IH]; intros pre w Ht Hv.
  - exists w. cbn. rewrite Ht. repeat split; auto.
  - cbn [length seq map run]. cbn [forallb] in Hv. apply andb_true_iff in Hv as [Hv1 Hv2].
    assert (L : threads w !! length pre = Some (TStop k self p dl false)).
    { rewrite Ht. cbn [map]. apply list_lookup_middle. reflexivity. }
    cbn [step]. rewrite L. cbn [mbind option_bind].
    unfold valid_target in Hv1. cbn [fst snd] in Hv1.
    destruct k; apply Nat.ltb_lt in Hv1; cbn [step_stop].
    + destruct (lookup_lt_is_Some_2 _ _ Hv1) as [srv Es]. rewrite Es.
      cbn [mbind option_bind].
      match goal with |- context [run ?w1 _] => set (w1' := w1) end.
      destruct (IH (pre ++ [stopper self dl true (KindHTTP, p)]) w1') as (w' & R & A).
      { subst w1'. cbn [threads upd_thread set_threads with_g set_g set_http].
        rewrite Ht. cbn [map]. rewrite insert_middle, <- app_assoc. reflexivity. }
      { subst w1'. unfold valid_target in *.
        cbn [http grpc upd_thread set_threads with_g set_g set_http].
        rewrite length_insert. exact Hv2. }
      rewrite length_app in R. cbn [length] in R. rewrite Nat.add_1_r in R.
      exists w'. split; [exact R|].
      destruct A as (A1 & A2 & A3 & A4 & A5 & A6 & A7 & A8 & A9).
      assert (S1 : server_stopped w1' KindHTTP p = true).
      { subst w1'. unfold server_stopped.
        cbn [http upd_thread set_threads with_g set_g set_http].
        rewrite list_lookup_insert_eq by exact Hv1. reflexivity. }
      assert (M1 : forall k0 p0, server_stopped w k0 p0 = true -> server_stopped w1' k0 p0 = true).
      { intros k0 p0. subst w1'. unfold server_stopped.
        cbn [http grpc upd_thread set_threads with_g set_g set_http].
        destruct k0; [|auto].
        destruct (decide (p0 = p)) as [->|Hne].
        - rewrite list_lookup_insert_eq by exact Hv1. reflexivity.
        - rewrite list_lookup_insert_ne by congruence. auto. }
      subst w1'. cbn [threads now net_Listen g http grpc upd_thread set_threads with_g set_g
                      set_http logger Printf logged LogMsg_eqb] in *.
      rewrite length_insert in A6.
      split; [rewrite A1, <- app_assoc; reflexivity|].
      split; [exact A2|]. split; [exact A3|].
      split; [rewrite A4; destruct (g w); reflexivity|].
      split; [exact A5|]. split; [exact A6|]. split; [exact A7|].
      split; [intros k0 p0 Hs; apply A8, M1, Hs|].
      cbn [forallb fst snd]. rewrite A9, (A8 _ _ S1). reflexivity.
    + destruct (lookup_lt_is_Some_2 _ _ Hv1) as [srv Es]. rewrite Es.
      cbn [mbind option_bind].
      match goal with |- context [run ?w1 _] => set (w1' := w1) end.
      destruct (IH (pre ++ [stopper self dl true (KindGRPC, p)]) w1') as (w' & R & A).
      { subst w1'. cbn [threads upd_thread set_threads with_g set_g set_grpc].
        rewrite Ht. cbn [map]. rewrite insert_middle, <- app_assoc. reflexivity. }
      { subst w1'. unfold valid_target in *.
        cbn [http grpc upd_thread set_threads with_g set_g set_grpc].
        rewrite length_insert. exact Hv2. }
      rewrite length_app in R. cbn [length] in R. rewrite Nat.add_1_r in R.
      exists w'. split; [exact R|].
      destruct A as (A1 & A2 & A3 & A4 & A5 & A6 & A7 & A8 & A9).
      assert (S1 : server_stopped w1' KindGRPC p = true).
      { subst w1'. unfold server_stopped.
        cbn [grpc upd_thread set_threads with_g set_g set_grpc].
        rewrite list_lookup_insert_eq by exact Hv1. reflexivity. }
      assert (M1 : forall k0 p0, server_stopped w k0 p0 = true -> server_stopped w1' k0 p0 = true).
      { intros k0 p0. subst w1'. unfold server_stopped.
        cbn [http grpc upd_thread set_threads with_g set_g set_grpc].
        destruct k0; [auto|].
        destruct (decide (p0 = p)) as [->|Hne].
        - rewrite list_lookup_insert_eq by exact Hv1. reflexivity.
        - rewrite list_lookup_insert_ne by congruence. auto. }
      subst w1'. cbn [threads now net_Listen g http grpc upd_thread set_threads with_g set_g
                      set_grpc logger Printf logged LogMsg_eqb] in *.
      rewrite length_insert in A7.
      split; [rewrite A1, <- app_assoc; reflexivity|].
      split; [exact A2|]. split; [exact A3|].
      split; [rewrite A4; destruct (g w); reflexivity|].
      split; [exact A5|]. split; [exact A6|]. split; [exact A7|].
      split; [intros k0 p0 Hs; apply A8, M1, Hs|].
      cbn [forallb fst snd]. rewrite A9, (A8 _ _ S1). reflexivity.
Qed.

Lemma run_cons w ev evs :
  run w (ev :: evs) = match step w ev with Some w' => run w' evs | None => None end.
Proof. reflexivity. Qed.

Ltac wcbn :=
  cbn [app step_thread step_caller step_body mbind option_bind
       g now threads http grpc net_Listen with_g set_g set_now set_threads set_http
       set_grpc spawn upd_thread
       config logger ready started inflight_n inflight_cv httpServers grpcServers
       listeners stopOnce gmetrics Printf set_inflight_n set_inflight_cv
       set_httpServers set_grpcServers set_listeners set_stopOnce set_ready
       set_gmetrics setReady fst snd].

Ltac wnorm :=
  lazymatch goal with
  | |- context [run ?W _] =>
      let W' := eval cbv beta iota delta
        [g now threads http grpc net_Listen with_g set_g set_now set_threads set_http
         set_grpc spawn upd_thread
         config logger ready started inflight_n inflight_cv httpServers grpcServers
         listeners stopOnce gmetrics Printf set_inflight_n set_inflight_cv
         set_httpServers set_grpcServers set_listeners set_stopOnce set_ready
         set_gmetrics setReady with_metrics] in W in
      change W with W'
  end; rewrite ?insert_middle.

Ltac caller_step :=
  rewrite run_cons;
  erewrite step_EvStep by (cbn [threads]; apply list_lookup_middle; reflexivity);
  wcbn; rewrite ?Z.leb_refl;
  repeat match goal with
         | E : ?b = _ |- context [if ?b then _ else _] => rewrite E
         end;
  wcbn; wnorm.

Lemma step_EvTrigger w tid src :
  threads w !! tid = Some (TCaller ViaWait CSelect) ->
  step w (EvTrigger tid src)
  = Some (upd_thread tid (TCaller ViaWait COnceDo)
            (with_g (Printf match src with
                            | CtxDone => LogContextCanceled
                            | Signalled sig => LogReceivedSignal sig
                            end) w)).
Proof. intros H. cbn [step]. rewrite H. reflexivity. Qed.

Lemma run_to_stop_wait (w : World) (e : Entry) (src : TriggerSrc) :
  stopOnce (g w) = OnceNew ->
  exists w2,
    run w (entry_events (length (threads w)) e src
           ++ [EvStep (length (threads w)); EvStep (length (threads w));
               EvStep (length (threads w)); EvStep (length (threads w))]
           ++ (if 0 <? LoadBalancerDelay (config (g w))
               then [EvTick (LoadBalancerDelay (config (g w))); EvStep (length (threads w))]
               else [])
           ++ [EvStep (length (threads w))]) = Some w2
    /\ threads w2
       = (threads w
          ++ [TCaller e
                (CBody (BStopWait (now w)
                          (now w + lb_sleep (config (g w)) + DrainTimeout (config (g w)))))])
         ++ gracefulShutdown_spawn (length (threads w))
              (now w + lb_sleep (config (g w)) + DrainTimeout (config (g w))) (g w)
    /\ now w2 = now w + lb_sleep (config (g w))
    /\ http w2 = http w /\ grpc w2 = grpc w
    /\ config (g w2) = config (g w)
    /\ inflight_n (g w2) = inflight_n (g w)
    /\ ready (g w2) = false
    /\ logged LogNotDrained (logger (g w2)) = logged LogNotDrained (logger (g w)).
Proof.
  destruct w as [[c log rdy st n cv hs gs ls once gm] N TS H GR NL].
  cbn [g stopOnce threads now config http grpc inflight_n ready logger]. intros ->.
  destruct e; cbn [entry_events app].
  2: { rewrite run_cons. cbn [step]. wcbn. wnorm.
       rewrite run_cons.
       erewrite step_EvTrigger by (cbn [threads]; apply list_lookup_middle; reflexivity).
       wcbn. wnorm. destruct src.
       all: destruct gm as [m|]; caller_step; caller_step; caller_step;
         destruct (0 <? LoadBalancerDelay c) eqn:ELB;
         [ caller_step; rewrite run_cons, step_EvTick by (apply Z.ltb_lt in ELB; lia); wnorm;
           caller_step; caller_step; apply Z.ltb_lt in ELB
         | caller_step; caller_step; apply Z.ltb_ge in ELB
         | caller_step; rewrite run_cons, step_EvTick by (apply Z.ltb_lt in ELB; lia); wnorm;
           caller_step; caller_step; apply Z.ltb_lt in ELB
         | caller_step; caller_step; apply Z.ltb_ge in ELB ];
         (eexists; split; [reflexivity|]);
         cbn [threads now http grpc g config inflight_n ready logger logged LogMsg_eqb];
         unfold gracefulShutdown_spawn, lb_sleep; cbn [httpServers grpcServers];
         rewrite <- ?app_assoc; cbn [app]; rewrite ?insert_middle;
         rewrite ?Z.max_r, ?Z.max_l by lia; rewrite ?Z.add_0_r;
         repeat split; reflexivity. }
  rewrite run_cons. cbn [step]. wcbn. wnorm.
  destruct gm as [m|]; caller_step; caller_step; caller_step;
    destruct (0 <? LoadBalancerDelay c) eqn:ELB;
    [ caller_step; rewrite run_cons, step_EvTick by (apply Z.ltb_lt in ELB; lia); wnorm;
      caller_step; caller_step; apply Z.ltb_lt in ELB
    | caller_step; caller_step; apply Z.ltb_ge in ELB
    | caller_step; rewrite run_cons, step_EvTick by (apply Z.ltb_lt in ELB; lia); wnorm;
      caller_step; caller_step; apply Z.ltb_lt in ELB
    | caller_step; caller_step; apply Z.ltb_ge in ELB ];
    (eexists; split; [reflexivity|]);
    cbn [threads now http grpc g config inflight_n ready logger logged LogMsg_eqb];
    unfold gracefulShutdown_spawn, lb_sleep; cbn [httpServers grpcServers];
    rewrite <- ?app_assoc; cbn [app]; rewrite ?insert_middle;
    rewrite ?Z.max_r, ?Z.max_l by lia; rewrite ?Z.add_0_r;
    repeat split; reflexivity.
Qed.

Ltac wait_step :=
  rewrite run_cons;
  erewrite step_EvStep by (cbn [threads]; apply list_lookup_middle; reflexivity);
  wcbn; cbn [waitForInflight_step]; unfold waitForInflight_loop; wcbn;
  repeat match goal with
         | E : ?b = _ |- context [if ?b then _ else _] => rewrite E
         end;
  wcbn; wnorm.

Lemma run_from_stop_wait (w : World) (pre post : list Thread) (e : Entry) (s dl : Z) :
  threads w = pre ++ TCaller e (CBody (BStopWait s dl)) :: post ->
  wg_done (length pre) (threads w) = true ->
  inflight_n (g w) <= 0 ->
  exists w',
    run w ([EvStep (length pre); EvStep (length pre); EvStep (length pre);
            EvStep (length pre)]
           ++ (if 0 <? HardStopTimeout (config (g w))
               then [EvTick (HardStopTimeout (config (g w))); EvStep (length pre)]
               else [])
           ++ [EvStep (length pre); EvStep (length pre)]) = Some w'
    /\ threads w' = pre ++ TCaller e CReturned :: post
    /\ now w' = now w + hard_sleep (config (g w))
    /\ http w' = http w /\ grpc w' = grpc w
    /\ stopOnce (g w') = OnceDone
    /\ ready (g w') = ready (g w)
    /\ logged LogNotDrained (logger (g w')) = logged LogNotDrained (logger (g w))
    /\ (shutdownDuration <$> gmetrics (g w'))
       = ((fun m => (now w + hard_sleep (config (g w)) - s) :: shutdownDuration m)
            <$> gmetrics (g w)).
Proof.
  destruct w as [[c log rdy st n cv hs gs ls once gm] N TS H GR NL].
  cbn [g stopOnce threads now config http grpc inflight_n ready logger gmetrics].
  intros -> Hwg Hn.
  assert (En : (0 <? n) = false) by (apply Z.ltb_ge; exact Hn).
  cbn [app].
  destruct gm as [m|]; caller_step; wait_step; caller_step;
    destruct (0 <? HardStopTimeout c) eqn:EHS;
    [ caller_step; rewrite run_cons, step_EvTick by (apply Z.ltb_lt in EHS; lia); wnorm;
      caller_step; caller_step; caller_step; apply Z.ltb_lt in EHS
    | caller_step; caller_step; caller_step; apply Z.ltb_ge in EHS
    | caller_step; rewrite run_cons, step_EvTick by (apply Z.ltb_lt in EHS; lia); wnorm;
      caller_step; caller_step; caller_step; apply Z.ltb_lt in EHS
    | caller_step; caller_step; caller_step; apply Z.ltb_ge in EHS ];
    (eexists; split; [reflexivity|]);
    cbn [threads now http grpc g config inflight_n ready logger logged LogMsg_eqb
         stopOnce gmetrics fmap option_fmap option_map];
    unfold hard_sleep, observeShutdownDuration; cbn [shutdownDuration];
    rewrite ?Z.max_r, ?Z.max_l by lia; rewrite ?Z.add_0_r;
    repeat split; reflexivity.
Qed.

Lemma forget_log_fields g1 g2 :
  forget_log g1 = forget_log g2 ->
  config g1 = config g2 /\ ready g1 = ready g2 /\ inflight_n g1 = inflight_n g2
  /\ gmetrics g1 = gmetrics g2.
Proof. destruct g1, g2. unfold forget_log. cbn. intros [= -> -> -> -> -> -> -> -> -> ->]. auto. Qed.

Lemma wg_done_all_finished self e s dl ts ks :
  no_stoppers ts = true ->
  wg_done self (ts ++ TCaller e (CBody (BStopWait s dl)) :: map (stopper self dl true) ks)
  = true.
Proof.
  intros Hn. unfold wg_done. rewrite forallb_app. cbn [forallb].
  apply andb_true_iff. split.
  - unfold no_stoppers in Hn. rewrite forallb_forall in Hn |- *.
    intros t Hin. specialize (Hn t Hin). destruct t; try reflexivity. discriminate.
  - apply forallb_forall. intros t Hin. apply in_map_iff in Hin as (kp & <- & _).
    cbn. apply orb_true_r.
Qed.

Lemma valid_targets w w2 :
  registry_valid w = true -> http w2 = http w -> grpc w2 = grpc w ->
  forallb (valid_target w2) (stop_targets (g w)) = true.
Proof.
  unfold registry_valid, stop_targets. intros Hv Eh Eg.
  apply andb_true_iff in Hv as [H1 H2].
  rewrite forallb_app. apply andb_true_iff. split; apply forallb_forall; intros kp Hin;
    apply in_map_iff in Hin as (p & <- & Hin); unfold valid_target; cbn [fst snd].
  - rewrite Eh. rewrite forallb_forall in H1. exact (H1 p Hin).
  - rewrite Eg. rewrite forallb_forall in H2. exact (H2 p Hin).
Qed.

Lemma stopped_targets w' g0 :
  forallb (fun kp => server_stopped w' (fst kp) (snd kp)) (stop_targets g0) = true ->
  forallb (server_stopped w' KindHTTP) (httpServers g0) = true
  /\ forallb (server_stopped w' KindGRPC) (grpcServers g0) = true.
Proof.
  unfold stop_targets. rewrite forallb_app. intros H.
  apply andb_true_iff in H as [H1 H2]. rewrite forallb_forall in H1, H2.
  split; apply forallb_forall; intros p Hin.
  - apply (H1 (KindHTTP, p)). apply in_map. exact Hin.
  - apply (H2 (KindGRPC, p)). apply in_map. exact Hin.
Qed.

Lemma server_stopped_heaps w w' k p :
  http w' = http w -> grpc w' = grpc w -> server_stopped w' k p = server_stopped w k p.
Proof. unfold server_stopped. intros -> ->. reflexivity. Qed.

(** X14: a caller of [Shutdown], or of [Wait] once the context or a
    signal reaches it, can always run the drain sequence to its end when
    nothing is in flight. From any state in which the one-time guard is
    untouched, the in-flight count is not positive, no stop goroutine
    exists and the registries hold pointers of servers: if every
    registered server answers its stop call and each sleep lasts as
    configured, the caller goes through the whole sequence and returns. By
    then the coordinator is not ready, every server registered at the call
    has been stopped, the drain timeout was not waited for, nothing was
    logged as not drained, and the clock has advanced by the load-balancer
    delay plus the hard-stop timeout (each when positive), which is also
    the duration observed. *)
Theorem shutdown_completes (w : World) (e : Entry) (src : TriggerSrc) :
  stopOnce (g w) = OnceNew ->
  inflight_n (g w) <= 0 ->
  no_stoppers (threads w) = true ->
  registry_valid w = true ->
  exists w',
    run w (shutdown_schedule w e src) = Some w'
    /\ threads w' !! length (threads w) = Some (TCaller e CReturned)
    /\ stopOnce (g w') = OnceDone
    /\ Ready (g w') = false
    /\ now w' = now w + Z.max 0 (LoadBalancerDelay (config (g w)))
                + Z.max 0 (HardStopTimeout (config (g w)))
    /\ forallb (server_stopped w' KindHTTP) (httpServers (g w)) = true
    /\ forallb (server_stopped w' KindGRPC) (grpcServers (g w)) = true
    /\ logged LogNotDrained (logger (g w')) = logged LogNotDrained (logger (g w))
    /\ (forall m, gmetrics (g w') = Some m ->
          head (shutdownDuration m)
          = Some (Z.max 0 (LoadBalancerDelay (config (g w)))
                  + Z.max 0 (HardStopTimeout (config (g w))))).
Proof.
  intros Ho Hn Hs Hv.
  destruct (run_to_stop_wait w e src Ho)
    as (w2 & R2 & T2 & N2 & Hh2 & Hg2 & C2 & I2 & Rd2 & L2).
  set (self := length (threads w)) in *.
  set (dl := now w + lb_sleep (config (g w)) + DrainTimeout (config (g w))) in *.
  rewrite spawn_stoppers in T2.
  destruct (run_stops self dl (stop_targets (g w))
              (threads w ++ [TCaller e (CBody (BStopWait (now w) dl))]) w2 T2
              (valid_targets w w2 Hv Hh2 Hg2))
    as (w3 & R3 & T3 & N3 & _ & F3 & L3 & _ & _ & _ & S3).
  apply forget_log_fields in F3 as (C3 & Rd3 & I3 & M3).
  rewrite <- app_assoc in T3. cbn [app] in T3.
  destruct (run_from_stop_wait w3 (threads w) (map (stopper self dl true) (stop_targets (g w)))
              e (now w) dl T3)
    as (w' & R' & T' & N' & Hh' & Hg' & O' & Rd' & L' & D').
  { rewrite T3. apply wg_done_all_finished. exact Hs. }
  { rewrite I3, I2. exact Hn. }
  exists w'. split.
  - unfold shutdown_schedule. subst self dl. cbv zeta.
    replace (length (httpServers (g w)) + length (grpcServers (g w)))%nat
      with (length (stop_targets (g w)))
      by (unfold stop_targets; rewrite length_app, !length_map; reflexivity).
    rewrite length_app in R3. cbn [length] in R3. rewrite Nat.add_1_r in R3.
    rewrite C3, C2 in R'.
    match goal with
    | |- run w (?a0 ++ ?a ++ ?b ++ ?c ++ ?d ++ ?e) = _ =>
        replace (a0 ++ a ++ b ++ c ++ d ++ e) with ((a0 ++ a ++ b ++ c) ++ d ++ e)
          by (rewrite <- !app_assoc; reflexivity)
    end.
    rewrite run_app, R2. cbv beta iota. rewrite run_app, R3. exact R'.
  - split; [rewrite T'; apply list_lookup_middle; reflexivity|].
    split; [exact O'|].
    split; [unfold Ready; rewrite Rd', Rd3; exact Rd2|].
    split; [rewrite N', N3, N2, C3, C2; reflexivity|].
    apply stopped_targets in S3 as [S3h S3g].
    split; [rewrite forallb_forall in S3h |- *; intros p Hin;
            rewrite (server_stopped_heaps w3 w' _ _ Hh' Hg'); exact (S3h p Hin)|].
    split; [rewrite forallb_forall in S3g |- *; intros p Hin;
            rewrite (server_stopped_heaps w3 w' _ _ Hh' Hg'); exact (S3g p Hin)|].
    split; [rewrite L', L3; exact L2|].
    intros m Em. rewrite Em, M3 in D'.
    destruct (gmetrics (g w2)) as [m2|]; [|discriminate].
    cbn in D'. injection D' as ->. cbn [head].
    rewrite N3, N2, C3, C2. unfold lb_sleep, hard_sleep. f_equal. lia.
Qed.

(** The theorem from that state, for a [Wait] that receives SIGTERM, with
    sleeps of 10ms and 20ms. *)
Lemma shutdown_completes_witness :
  let w := world_after cfg_slow evs_idle_servers in
  exists w',
    run w (shutdown_schedule w ViaWait (Signalled SIGTERM)) = Some w'
    /\ threads w' !! length (threads w) = Some (TCaller ViaWait CReturned)
    /\ stopOnce (g w') = OnceDone
    /\ Ready (g w') = false
    /\ now w' = now w + Z.max 0 (LoadBalancerDelay (config (g w)))
                + Z.max 0 (HardStopTimeout (config (g w)))
    /\ forallb (server_stopped w' KindHTTP) (httpServers (g w)) = true
    /\ forallb (server_stopped w' KindGRPC) (grpcServers (g w)) = true
    /\ logged LogNotDrained (logger (g w')) = logged LogNotDrained (logger (g w))
    /\ (forall m, gmetrics (g w') = Some m ->
          head (shutdownDuration m)
          = Some (Z.max 0 (LoadBalancerDelay (config (g w)))
                  + Z.max 0 (HardStopTimeout (config (g w))))).
Proof.
  intros w. apply (shutdown_completes w ViaWait (Signalled SIGTERM)).
  - vm_compute. reflexivity.
  - apply Z.leb_le. vm_compute. reflexivity.
  - vm_compute. reflexivity.
  - vm_compute. reflexivity.
Defined.

(** ** Numerals in the environment *)

Lemma parse_digits_numeral (d : Decimal.uint) : forall acc : nat,
  strconv.parse_digits (Z.of_nat acc) (DecimalString.NilEmpty.string_of_uint d)
  = Some (Z.of_nat (Nat.of_uint_acc d acc)).
Proof.
  induction d; intros acc; cbn [DecimalString.NilEmpty.string_of_uint strconv.parse_digits Nat.of_uint_acc];
    [reflexivity|..];
    (match goal with
     | |- context [strconv.digit_of ?c] =>
         let v := eval vm_compute in (strconv.digit_of c) in
         change (strconv.digit_of c) with v
     end);
    cbv beta iota; rewrite <- IHd; f_equal; rewrite Nat.tail_mul_spec; lia.
Qed.

Lemma to_uint_not_Nil n : Nat.to_uint n <> Decimal.Nil.
Proof.
  intros E. pose proof (DecimalNat.Unsigned.of_to n) as H. rewrite E in H. cbn in H. subst n.
  discriminate E.
Qed.

Lemma Atoi_decimal (n : nat) :
  Z.of_nat n <= max_int64 -> strconv.Atoi (decimal n) = Some (Z.of_nat n).
Proof.
  intros Hmax. unfold decimal.
  pose proof (parse_digits_numeral (Nat.to_uint n) 0) as P.
  change (Nat.of_uint_acc (Nat.to_uint n) 0) with (Nat.of_uint (Nat.to_uint n)) in P.
  rewrite DecimalNat.Unsigned.of_to in P. change (Z.of_nat 0) with 0 in P.
  pose proof (to_uint_not_Nil n) as Hnil.
  assert (Hin : in_int64 (Z.of_nat n) = true).
  { unfold in_int64, min_int64. apply andb_true_iff. split; apply Z.leb_le; lia. }
  destruct (Nat.to_uint n) as [|u|u|u|u|u|u|u|u|u|u]; [congruence|..];
    cbn [DecimalString.NilEmpty.string_of_uint] in *; unfold strconv.Atoi;
    (match goal with
     | |- context [Ascii.eqb ?c "-"] =>
         change (Ascii.eqb c "-") with false; change (Ascii.eqb c "+") with false
     end);
    cbv beta iota zeta; cbn [orb]; rewrite P, Hin; reflexivity.
Qed.

Lemma decimal_not_empty n : String.eqb (decimal n) "" = false.
Proof.
  unfold decimal. pose proof (to_uint_not_Nil n).
  destruct (Nat.to_uint n); [congruence|reflexivity..].
Qed.

(** X15: [ConfigFromEnv] reads a number of seconds written as a decimal
    numeral. For every natural number whose nanosecond value fits in a
    [time.Duration]: set as DRAIN_TIMEOUT_SECONDS or
    HARD_STOP_TIMEOUT_SECONDS it becomes the timeout, exactly that many
    seconds, except for zero, which leaves the default (25s, 5s) in place;
    set as LOAD_BALANCER_DELAY_SECONDS it becomes the delay, zero
    included. Each field depends on its own variable only. *)
Theorem ConfigFromEnv_reads_decimal_seconds (env : gmap string string) (n : nat) :
  Z.of_nat n * Second <= max_int64 ->
  (env !! "DRAIN_TIMEOUT_SECONDS"%string = Some (decimal n) ->
   DrainTimeout (ConfigFromEnv env)
   = if (n =? 0)%nat then 25 * Second else Z.of_nat n * Second)
  /\ (env !! "HARD_STOP_TIMEOUT_SECONDS"%string = Some (decimal n) ->
      HardStopTimeout (ConfigFromEnv env)
      = if (n =? 0)%nat then 5 * Second else Z.of_nat n * Second)
  /\ (env !! "LOAD_BALANCER_DELAY_SECONDS"%string = Some (decimal n) ->
      LoadBalancerDelay (ConfigFromEnv env) = Z.of_nat n * Second).
Proof.
  intros Hmax.
  assert (Hn : Z.of_nat n <= max_int64) by (unfold Second in Hmax; lia).
  assert (Hw : seconds_to_Duration (Z.of_nat n) = Z.of_nat n * Second).
  { unfold seconds_to_Duration. apply wrap64_id.
    unfold min_int64, max_int64, Second in *. lia. }
  rewrite ConfigFromEnv_DrainTimeout, ConfigFromEnv_HardStopTimeout,
    ConfigFromEnv_LoadBalancerDelay.
  unfold Getenv.
  split; [|split]; intros ->; cbn [default from_option id]; rewrite (Atoi_decimal n Hn).
  - destruct n; [reflexivity|]. cbn [Nat.eqb].
    destruct (Z.ltb_spec 0 (Z.of_nat (S n))); [exact Hw|lia].
  - destruct n; [reflexivity|]. cbn [Nat.eqb].
    destruct (Z.ltb_spec 0 (Z.of_nat (S n))); [exact Hw|lia].
  - destruct (Z.leb_spec 0 (Z.of_nat n)); [exact Hw|lia].
Qed.

(** The theorem at that environment. *)
Lemma ConfigFromEnv_reads_decimal_seconds_witness :
  DrainTimeout (ConfigFromEnv env_thirty) = 30 * Second
  /\ HardStopTimeout (ConfigFromEnv env_thirty) = 30 * Second
  /\ LoadBalancerDelay (ConfigFromEnv env_thirty) = 30 * Second.
Proof.
  assert (Hmax : Z.of_nat 30 * Second <= max_int64) by (vm_compute; discriminate).
  destruct (ConfigFromEnv_reads_decimal_seconds env_thirty 30 Hmax) as (Hd & Hh & Hl).
  split; [apply Hd; reflexivity|]. split; [apply Hh; reflexivity|apply Hl; reflexivity].
Defined.

(** ** Which servers are stopped *)

Lemma registry_step w ev w' kind p :
  step w ev = Some w' -> p ∈ registry (g w) kind -> p ∈ registry (g w') kind.
Proof.
  intros H Hin. destruct (registry_extends_step _ _ _ H) as (A & B & _).
  destruct kind; cbn in *; eapply elem_of_prefix; eauto.
Qed.

Lemma lookup_snoc_None {A} (l : list A) x p y :
  l !! p = None -> (l ++ [x]) !! p = Some y -> y = x.
Proof.
  intros E E2. apply lookup_app_Some in E2 as [E2|[_ E2]]; [congruence|].
  apply list_lookup_singleton_Some in E2 as [_ <-]. reflexivity.
Qed.

Ltac heap_back :=
  match goal with
  | |- context [<[?j:=?x]> ?l !! ?p] =>
      destruct (decide (p = j)) as [->|?];
      [ rewrite (list_lookup_insert_eq l j x) by (eapply lookup_lt_Some; eassumption)
      | rewrite (list_lookup_insert_ne l j p x) by congruence ]
  | |- context [(?l ++ [?x]) !! ?p] =>
      let E := fresh "E" in
      let E2 := fresh "E" in
      destruct (l !! p) eqn:E;
      [ rewrite (lookup_app_l_Some l [x] p _ E)
      | destruct ((l ++ [x]) !! p) eqn:E2;
        [ rewrite (lookup_snoc_None _ _ _ _ E E2) | ] ]
  end.

Lemma stopped_by_stopper w ev w' kind p :
  step w ev = Some w' ->
  server_stopped w' kind p = true ->
  server_stopped w kind p = true
  \/ exists i par dl, threads w !! i = Some (TStop kind par p dl false).
Proof.
  intros H. step_cases H; unfold server_stopped; wproj; goal_cases; wproj;
    destruct kind; try (intros X; left; exact X).
  all: try heap_back.
  all: repeat match goal with
              | E : ?x = Some _ |- context [?x] => rewrite E
              end;
       cbn [inShutdown set_Handler set_inShutdown grpc_state set_grpc_state].
  all: try (intros X; left; exact X).
  all: try discriminate.
  all: intros _; right; eauto.
Qed.

Lemma stops_registered_step w ev w' :
  stops_registered w -> step w ev = Some w' -> stops_registered w'.
Proof.
  unfold stops_registered. intros [IH1 IH2] H.
  pose proof (fun k p => registry_step _ _ _ k p H) as Hreg.
  split.
  - assert (IH1' : Forall (fun t => match t with
                                    | TStop kind _ p _ _ => p ∈ registry (g w') kind
                                    | _ => True
                                    end) (threads w)).
    { eapply Forall_impl; [exact IH1|]. intros [] ?; auto. }
    clear IH1 IH2 Hreg. revert IH1'.
    step_cases H; wproj; goal_cases; wproj; gunfold; gproj; mcases; gproj; intros IH1.
    all: try assumption.
    all: try (apply Forall_app; split; [assumption|repeat constructor]).
    all: try (apply Forall_insert; [assumption|first [exact I|idtac]]).
    all: try (match goal with
              | L : threads _ !! _ = Some (TStop _ _ _ _ _) |- _ =>
                  exact (Forall_lookup_1 _ _ _ _ IH1 L)
              end).
    all: apply Forall_insert; [|exact I]; apply Forall_app; split; [assumption|];
      unfold gracefulShutdown_spawn; apply Forall_app; split;
      apply Forall_fmap, Forall_forall; intros p Hin; exact Hin.
  - intros kind p Hs. destruct (stopped_by_stopper _ _ _ _ _ H Hs) as [Hs0|(i & par & dl & L)].
    + apply Hreg, IH2, Hs0.
    + apply Hreg. exact (Forall_lookup_1 _ _ _ _ IH1 L).
Qed.

Lemma stops_registered_init cfg t0 net : stops_registered (init cfg t0 net).
Proof. split; [constructor|]. intros [] p; discriminate. Qed.

(** X16: the library stops registered servers only. In every reachable
    state, a server that has been told to stop (an HTTP server in
    shutdown, a gRPC server no longer live) is in the registry of its
    kind: a server built by [NewGRPCServer] that was never handed to
    [WrapGRPC], or an HTTP server that was never wrapped, keeps serving
    through a shutdown. *)
Theorem only_registered_servers_stopped (cfg : option Config) (t0 : Z)
    (net : string -> string -> Listener + NetError) (evs : list Event) (w : World)
    (kind : SrvKind) (p : nat) :
  run (init cfg t0 net) evs = Some w ->
  server_stopped w kind p = true ->
  p ∈ registry (g w) kind.
Proof.
  intros Hrun Hs.
  assert (E : stops_registered w).
  { revert Hrun. apply run_invariant; [|apply stops_registered_init].
    intros. eapply stops_registered_step; eauto. }
  destruct E as [_ E]. apply E. exact Hs.
Qed.

(** The theorem at the HTTP server stopped by the shutdown. *)
Lemma only_registered_servers_stopped_witness :
  0%nat ∈ registry
    (g (world_after cfg_quick (evs_to_drain ++ [EvStep 1; EvStop 2 true]))) KindHTTP.
Proof.
  apply (only_registered_servers_stopped (Some cfg_quick) 0 net_example
           (evs_to_drain ++ [EvStep 1; EvStop 2 true])).
  - vm_compute. reflexivity.
  - vm_compute. reflexivity.
Defined.

(** ** The line about requests that did not drain *)

Lemma thread_late_mono t0 n n' t : n <= n' -> thread_late t0 n t -> thread_late t0 n' t.
Proof.
  intros Hn. destruct t as [e [| |b|]| | | |]; cbn; auto.
  destruct b as [| | | | | |s dl [| |[|]]| | | |]; cbn; lia.
Qed.

Lemma late_step t0 w ev w' :
  timed w -> late t0 w -> step w ev = Some w' -> late t0 w'.
Proof.
  unfold timed, late. intros [T1 _] (L0 & L1 & L2) H.
  step_cases H;
    try match goal with src : TriggerSrc |- _ => destruct src end;
    try match goal with graceful : bool |- _ => destruct graceful end;
    wproj; goal_cases; wproj; gunfold; gproj; mcases; gproj.
  all: try match goal with
           | L : threads ?w0 !! ?i = Some (TCaller _ (CBody _)) |- _ =>
               let X := fresh "X" in
               let Y := fresh "Y" in
               pose proof (Forall_lookup_1 _ _ _ _ T1 L) as X; cbn in X;
               pose proof (Forall_lookup_1 _ _ _ _ L1 L) as Y; cbn in Y
           end.
  all: zify_tests; unfold lb_sleep, hard_sleep in *.
  all: cbn [logged LogMsg_eqb].
  all: (split; [lia|]).
  all: (split; [|first [assumption | intros; lia | idtac]]).
  all: try assumption.
  all: try (eapply Forall_impl; [exact L1|]; intros t; apply thread_late_mono; lia).
  all: try (apply Forall_app; split; [assumption|repeat constructor]).
  all: try (apply Forall_insert; [assumption|cbn; try exact I; lia]).
  all: apply Forall_insert; [|cbn; lia]; apply Forall_app; split; [assumption|];
    unfold gracefulShutdown_spawn; apply Forall_app; split;
    apply Forall_fmap, Forall_true; intros; exact I.
Qed.

Lemma late_init cfg t0 net : late t0 (init cfg t0 net).
Proof.
  split; [cbn; lia|]. split; [constructor|]. cbn. lia.
Qed.

(** X17: the line "in-flight requests did not complete before deadline"
    is logged only when the drain deadline is behind the clock: in every
    reachable state where it has been logged, more than the drain timeout,
    plus the load-balancer delay when positive, has elapsed since the
    coordinator was created. *)
Theorem not_drained_only_after_timeout (cfg : option Config) (t0 : Z)
    (net : string -> string -> Listener + NetError) (evs : list Event) (w : World) :
  run (init cfg t0 net) evs = Some w ->
  (0 < logged LogNotDrained (logger (g w)))%nat ->
  t0 + Z.max 0 (LoadBalancerDelay (default DefaultConfig cfg))
  + DrainTimeout (default DefaultConfig cfg) < now w.
Proof.
  intros Hrun Hlog.
  assert (E : timed w /\ late t0 w).
  { revert Hrun. apply (run_invariant (fun w => timed w /\ late t0 w)).
    - intros w1 ev w2 [A B] S. split; [eapply timed_step; eauto|eapply late_step; eauto].
    - split; [apply timed_init|apply late_init]. }
  destruct E as [_ (_ & _ & E)]. specialize (E Hlog).
  pose proof (fixed_parts_run _ _ _ Hrun) as F. rewrite fixed_parts_init in F.
  unfold fixed_parts in F. injection F as F _ _. rewrite F in E. exact E.
Qed.

(** The theorem in that run, at 150ms. *)
Lemma not_drained_only_after_timeout_witness :
  0 + Z.max 0 (LoadBalancerDelay (default DefaultConfig (Some cfg_quick)))
  + DrainTimeout (default DefaultConfig (Some cfg_quick))
  < now (world_after cfg_quick evs_not_drained).
Proof.
  apply (not_drained_only_after_timeout (Some cfg_quick) 0 net_example evs_not_drained).
  - vm_compute. reflexivity.
  - vm_compute. constructor.
Defined.
